(** * Travel agent backend: tool adapters, chat orchestration, rate limiter

    A shallow embedding of the validation and extraction logic of the
    backend (app/agents/tools.py, app/agents/travel_agent.py,
    app/agents/flight_agent.py, app/api/chat.py, app/models/flight.py,
    app/models/hotel.py, app/services/serpapi_service.py,
    app/services/hotel_service.py, app/core/dependencies.py), followed by
    the properties established about it. *)

From Stdlib Require Import String Ascii ZArith QArith List Bool Lia Lqa.
From Stdlib Require Import Numbers.DecimalString.
From Stdlib Require Import Floats.PrimFloat Floats.FloatOps Floats.SpecFloat.
From Stdlib Require Import Floats.FloatAxioms.
From stdpp Require Import base option gmap strings list.

Local Open Scope string_scope.
Local Open Scope Z_scope.

(** ** Python values and builtins *)

Module Py.

(** Exceptions, by class.  [ValidationError model fields] is pydantic's,
    raised by the constructor of [model] and naming the fields whose
    validation failed; the other classes carry their message.
    [RuntimeFailure] stands for whatever subclass of [Exception] an external
    collaborator raises, with its [str()] text.  Signals that are not
    subclasses of [Exception] (KeyboardInterrupt, SystemExit) are outside
    this model. *)
Inductive exn : Type :=
  | ValueError (msg : string)
  | AttributeError (msg : string)
  | IndexError (msg : string)
  | ValidationError (model : string) (fields : list string)
  | RuntimeFailure (msg : string).

(** JSON-like values found in the argument dict of a recorded tool call. *)
Inductive pyval : Type :=
  | PNone
  | PStr (s : string)
  | PInt (n : Z)
  | PBool (b : bool)
  | PFloat (f : float)
  | PComposite.

(** A text ([str]) is held as the string of the bytes of its UTF-8
    encoding: a character outside ASCII takes two to four of them.  The
    methods that count characters or depend on the character database are
    parameters, see [StrMethods]. *)

(** Truthiness of the values the code tests with [if x] / [if not x]: a
    string is falsy exactly when it is empty. *)
Definition truthy_str (s : string) : bool := negb (String.eqb s "").

(** An optional string when it is truthy: [None] and the empty string are
    both falsy. *)
Definition nonempty (o : option string) : option string :=
  match o with
  | Some s => if truthy_str s then Some s else None
  | None => None
  end.

(** An optional object (a date, a model instance) is falsy exactly when it
    is [None]. *)
Definition truthy_opt {A} (o : option A) : bool :=
  match o with Some _ => true | None => false end.

(** A float is falsy exactly when it compares equal to zero. *)
Definition truthy_float (x : float) : bool := negb (PrimFloat.eqb x 0%float).

(** [needle in hay] on strings. *)
Fixpoint str_in (needle hay : string) : bool :=
  String.prefix needle hay
  || match hay with
     | EmptyString => false
     | String _ rest => str_in needle rest
     end.

(** [any(p(x) for x in l)]. *)
Definition any {A} (p : A -> bool) (l : list A) : bool := List.existsb p l.

(** [datetime.date]: compared as the triple (year, month, day). *)
Record date : Type := mkdate { year : Z; month : Z; day : Z }.

Definition date_ltb (a b : date) : bool :=
  (year a <? year b)
  || ((year a =? year b)
      && ((month a <? month b) || ((month a =? month b) && (day a <? day b)))).

Definition date_eqb (a b : date) : bool :=
  (year a =? year b) && (month a =? month b) && (day a =? day b).

Definition date_leb (a b : date) : bool := date_ltb a b || date_eqb a b.

(** The builtins and string methods of Python whose result depends on the
    characters of the text rather than on its bytes: [len(s)], the number
    of characters (code points) of [s], and the methods that consult the
    Unicode database.  The program only calls them; they are not repository
    code. *)
Class StrMethods : Type := {
  len : string -> Z;
  str_lower : string -> string;
  str_upper : string -> string;
  str_isalpha : string -> bool;
  chr_isspace : ascii -> bool;
  chr_isdigit : ascii -> bool
}.

(** Library calls of the standard library and of pydantic.
    - [strptime_ymd s] is [datetime.strptime(s, "%Y-%m-%d").date()], [None]
      standing for the [ValueError] it raises;
    - [format_0f x] is the rendering of [x] by the format spec [:.0f];
    - [validate_int], [validate_bool], [validate_str] are pydantic's
      coercions of an input to a field of type [int], [bool], [str]
      ([None]: the input is rejected);
    - [str_ValidationError model fields] is the text [str(e)] of a
      [ValidationError]. *)
Class Library : Type := {
  strptime_ymd : string -> option date;
  format_0f : float -> string;
  validate_int : pyval -> option Z;
  validate_bool : pyval -> option bool;
  validate_str : pyval -> option string;
  str_ValidationError : string -> list string -> string
}.

(** [str(e)]. *)
Definition str_exn {LIB : Library} (e : exn) : string :=
  match e with
  | ValueError msg => msg
  | AttributeError msg => msg
  | IndexError msg => msg
  | ValidationError model fields => str_ValidationError model fields
  | RuntimeFailure msg => msg
  end.

(** *** String functions that do not depend on the character database *)

Fixpoint rev_string_of (l : list ascii) (acc : string) : string :=
  match l with
  | [] => acc
  | c :: l' => rev_string_of l' (String c acc)
  end.

(** [s.split(sep)] for a non-empty separator: cut at every occurrence of
    [sep], scanning left to right without overlap.  [skip] counts the
    characters of a separator still to be stepped over, [cur] holds the
    current piece in reverse. *)
Fixpoint split_go (sep : string) (skip : nat) (cur : list ascii) (s : string)
  : list string :=
  match s with
  | EmptyString => [rev_string_of cur ""]
  | String c rest =>
      match skip with
      | S k => split_go sep k cur rest
      | O =>
          if String.prefix sep s
          then rev_string_of cur "" :: split_go sep (String.length sep - 1) [] rest
          else split_go sep O (c :: cur) rest
      end
  end.

Definition str_split (s sep : string) : list string := split_go sep O [] s.

Section WithStr.
Context {STR : StrMethods}.

(** [s.split()]: the maximal runs of non-whitespace characters. *)
Fixpoint split_ws_go (cur : list ascii) (s : string) : list string :=
  match s with
  | EmptyString =>
      match cur with [] => [] | _ => [rev_string_of cur ""] end
  | String c rest =>
      if chr_isspace c
      then match cur with
           | [] => split_ws_go [] rest
           | _ => rev_string_of cur "" :: split_ws_go [] rest
           end
      else split_ws_go (c :: cur) rest
  end.

Definition str_split_ws (s : string) : list string := split_ws_go [] s.

Fixpoint lstrip (s : string) : string :=
  match s with
  | EmptyString => EmptyString
  | String c rest => if chr_isspace c then lstrip rest else s
  end.

(** Drop trailing whitespace: a character is kept when it is not
    whitespace or something is kept after it. *)
Fixpoint rstrip (s : string) : string :=
  match s with
  | EmptyString => EmptyString
  | String c rest =>
      match rstrip rest with
      | EmptyString => if chr_isspace c then EmptyString else String c EmptyString
      | kept => String c kept
      end
  end.

(** [s.strip()]. *)
Definition str_strip (s : string) : string := rstrip (lstrip s).

(** Does [s] start with a match of [\d{4}-\d{2}-\d{2}]? *)
Definition date_pattern_at (s : string) : bool :=
  match s with
  | String y1 (String y2 (String y3 (String y4 (String h1
      (String m1 (String m2 (String h2 (String d1 (String d2 _))))))))) =>
      chr_isdigit y1 && chr_isdigit y2 && chr_isdigit y3 && chr_isdigit y4
      && Ascii.eqb h1 "-"%char
      && chr_isdigit m1 && chr_isdigit m2
      && Ascii.eqb h2 "-"%char
      && chr_isdigit d1 && chr_isdigit d2
  | _ => false
  end.

(** [re.findall(r'\d{4}-\d{2}-\d{2}', s)]: leftmost matches, each search
    resuming after the previous match. *)
Fixpoint findall_go (skip : nat) (s : string) : list string :=
  match s with
  | EmptyString => []
  | String _ rest =>
      match skip with
      | S k => findall_go k rest
      | O =>
          if date_pattern_at s
          then String.substring 0 10 s :: findall_go 9 rest
          else findall_go O rest
      end
  end.

Definition re_findall_dates (s : string) : list string := findall_go O s.
End WithStr.

(** *** The builtins on ASCII text

    A concrete reading of the two interfaces, used to run the model on
    concrete inputs: the character count of a UTF-8 text, case mapping and
    character classes on ASCII, the [%Y-%m-%d] parser on ASCII digits. *)

Definition in_range (lo hi : nat) (c : ascii) : bool :=
  let n := nat_of_ascii c in (lo <=? n)%nat && (n <=? hi)%nat.

Definition ascii_lower_chr (c : ascii) : ascii :=
  if in_range 65 90 c then ascii_of_nat (nat_of_ascii c + 32) else c.

Definition ascii_upper_chr (c : ascii) : ascii :=
  if in_range 97 122 c then ascii_of_nat (nat_of_ascii c - 32) else c.

Fixpoint map_string (f : ascii -> ascii) (s : string) : string :=
  match s with
  | EmptyString => EmptyString
  | String c rest => String (f c) (map_string f rest)
  end.

Fixpoint all_chars (p : ascii -> bool) (s : string) : bool :=
  match s with
  | EmptyString => true
  | String c rest => p c && all_chars p rest
  end.

Definition ascii_isalpha_chr (c : ascii) : bool :=
  in_range 65 90 c || in_range 97 122 c.

(** The number of characters of a UTF-8 text: every byte starts one, but
    for the continuation bytes, which are those from 128 to 191. *)
Fixpoint count_characters (s : string) : nat :=
  match s with
  | EmptyString => O
  | String c rest =>
      ((if in_range 128 191 c then 0 else 1) + count_characters rest)%nat
  end.

#[export] Instance ascii_str : StrMethods := {|
  len := fun s => Z.of_nat (count_characters s);
  str_lower := map_string ascii_lower_chr;
  str_upper := map_string ascii_upper_chr;
  str_isalpha := fun s => truthy_str s && all_chars ascii_isalpha_chr s;
  chr_isspace := fun c => in_range 9 13 c || in_range 28 32 c;
  chr_isdigit := in_range 48 57
|}.

Definition digit (c : ascii) : option Z :=
  if in_range 48 57 c then Some (Z.of_nat (nat_of_ascii c) - 48) else None.

Definition is_leap (y : Z) : bool :=
  ((y mod 4 =? 0) && negb (y mod 100 =? 0)) || (y mod 400 =? 0).

Definition days_in_month (y m : Z) : Z :=
  if m =? 2 then (if is_leap y then 29 else 28)
  else if (m =? 4) || (m =? 6) || (m =? 9) || (m =? 11) then 30
  else 31.

(** The month directive [%m] followed by the literal [-]: the alternatives
    [1[0-2]], [0[1-9]], [[1-9]] in that order. *)
Definition parse_month (s : string) : option (Z * string) :=
  match s with
  | String a (String b (String "-" rest)) =>
      match digit a, digit b with
      | Some x, Some y =>
          let m := 10 * x + y in
          if (1 <=? m) && (m <=? 12) then Some (m, rest) else None
      | _, _ => None
      end
  | String a (String "-" rest) =>
      match digit a with
      | Some x => if 1 <=? x then Some (x, rest) else None
      | None => None
      end
  | _ => None
  end.

(** The day directive [%d]: the alternatives [3[0-1]], [[1-2]\d], [0[1-9]],
    [[1-9]] and a space followed by [[1-9]], in that order; what follows the
    match is returned. *)
Definition parse_day (s : string) : option (Z * string) :=
  let one :=
    match s with
    | String a rest =>
        match digit a with
        | Some x => if 1 <=? x then Some (x, rest) else None
        | None => None
        end
    | EmptyString => None
    end in
  match s with
  | String a (String b rest) =>
      match digit a, digit b with
      | Some x, Some y =>
          let d := 10 * x + y in
          if (1 <=? d) && (d <=? 31) then Some (d, rest) else one
      | None, Some y =>
          if Ascii.eqb a " " && (1 <=? y) then Some (y, rest) else None
      | _, _ => one
      end
  | _ => one
  end.

Definition ascii_strptime_ymd (s : string) : option date :=
  match s with
  | String a (String b (String c (String d (String "-" rest)))) =>
      match digit a, digit b, digit c, digit d with
      | Some a, Some b, Some c, Some d =>
          let y := 1000 * a + 100 * b + 10 * c + d in
          match parse_month rest with
          | Some (m, rest') =>
              match parse_day rest' with
              | Some (dd, EmptyString) =>
                  if (1 <=? y) && (dd <=? days_in_month y m)
                  then Some (mkdate y m dd) else None
              | _ => None
              end
          | None => None
          end
      | _, _, _, _ => None
      end
  | _ => None
  end.

Definition decimal (n : Z) : string :=
  NilZero.string_of_uint (N.to_uint (Z.to_N n)).

(** Nearest integer to [m * 2^e], ties to even. *)
Definition round_half_even (m e : Z) : Z :=
  if 0 <=? e then m * 2 ^ e
  else
    let d := 2 ^ (- e) in
    let q := m / d in
    let r := m mod d in
    if 2 * r <? d then q
    else if d <? 2 * r then q + 1
    else if Z.even q then q else q + 1.

Definition float_format_0f (x : float) : string :=
  match Prim2SF x with
  | S754_nan => "nan"
  | S754_infinity s => if s then "-inf" else "inf"
  | S754_zero s => if s then "-0" else "0"
  | S754_finite s m e =>
      (if s then "-" else "") ++ decimal (round_half_even (Zpos m) e)
  end.

Definition newline : string := String (ascii_of_nat 10) EmptyString.

(** The coercions on the inputs that need no conversion, and the first
    lines of the error text. *)
#[export] Instance plain_library : Library := {|
  strptime_ymd := ascii_strptime_ymd;
  format_0f := float_format_0f;
  validate_int := fun v => match v with PInt n => Some n | _ => None end;
  validate_bool := fun v => match v with PBool b => Some b | _ => None end;
  validate_str := fun v => match v with PStr s => Some s | _ => None end;
  str_ValidationError := fun model fields =>
    decimal (Z.of_nat (List.length fields)) ++ " validation error for " ++ model
    ++ String.concat "" (List.map (fun f => newline ++ f) fields)
|}.

(** *** Control flow: normal completion, [return], [raise]

    A block of statements run in a world [W] either completes with a value,
    leaves the enclosing function by [return r], or raises.  The world
    reached is kept in all three cases. *)
Inductive outcome (R A : Type) : Type :=
  | Val (a : A)
  | Return (r : R)
  | Raise (e : exn).
Arguments Val {R A} a.
Arguments Return {R A} r.
Arguments Raise {R A} e.

Definition M (W R A : Type) : Type := W -> outcome R A * W.

Definition ret {W R A} (a : A) : M W R A := fun w => (Val a, w).
Definition return_ {W R A} (r : R) : M W R A := fun w => (Return r, w).
Definition raise {W R A} (e : exn) : M W R A := fun w => (Raise e, w).

Definition bind {W R A B} (m : M W R A) (k : A -> M W R B) : M W R B :=
  fun w =>
    match m w with
    | (Val a, w') => k a w'
    | (Return r, w') => (Return r, w')
    | (Raise e, w') => (Raise e, w')
    end.

Notation "'let*' x ':=' m 'in' k" := (bind m (fun x => k))
  (at level 10, x pattern, m at level 100, k at level 200).

(** [try: body / except Exception as e: return handler(e)] as the whole body
    of a function: the value the call produces and the world it leaves. *)
Definition try_function {W R} (body : M W R R) (handler : exn -> R) : W -> R * W :=
  fun w =>
    match body w with
    | (Val r, w') => (r, w')
    | (Return r, w') => (r, w')
    | (Raise e, w') => (handler e, w')
    end.

(** Exceptions without a world: [inl e] is [raise e]. *)
Definition exc (A : Type) : Type := exn + A.

Definition exc_bind {A B} (m : exc A) (k : A -> exc B) : exc B :=
  match m with
  | inl e => inl e
  | inr a => k a
  end.

Notation "'try*' x ':=' m 'in' k" := (exc_bind m (fun x => k))
  (at level 10, x pattern, m at level 100, k at level 200).

End Py.


(** ** Schema layer (app/models/flight.py, app/models/hotel.py) *)

Module Models.
Import Py.

Inductive TripType : Type := ONE_WAY | ROUND_TRIP | MULTI_CITY.

Inductive TravelClass : Type := ECONOMY | PREMIUM_ECONOMY | BUSINESS | FIRST.

Inductive HotelSortBy : Type :=
  RELEVANCE | LOWEST_PRICE | HIGHEST_RATING | MOST_REVIEWED.

(** [FlightSearchRequest].  The fields that every constructor call of the
    modelled code leaves at their defaults (children, infants, sort_by,
    stops, max_price, airlines filters, max_duration) are omitted. *)
Record FlightSearchRequest : Type := {
  departure_id : string;
  arrival_id : string;
  outbound_date : date;
  return_date : option date;
  adults : Z;
  trip_type : TripType;
  travel_class : TravelClass
}.

(** The [values] argument of a field validator: the fields validated before
    the one under validation.  pydantic validates fields in the order of
    their declaration, so a validator sees the fields declared above its own
    and none of those declared below. *)
Record FlightValues : Type := {
  values_outbound_date : option date;
  values_trip_type : option TripType
}.

Definition TripType_eqb (a b : TripType) : bool :=
  match a, b with
  | ONE_WAY, ONE_WAY | ROUND_TRIP, ROUND_TRIP | MULTI_CITY, MULTI_CITY => true
  | _, _ => false
  end.

(** [FlightSearchRequest.validate_return_date] (flight.py 69-76). *)
Definition validate_return_date (v : option date) (values : FlightValues)
  : exc (option date) :=
  match values_trip_type values with
  | Some t =>
      if TripType_eqb t ROUND_TRIP then
        match v with
        | None => inl (ValueError "Return date is required for round trip flights")
        | Some d =>
            match values_outbound_date values with
            | Some o =>
                if date_leb d o
                then inl (ValueError "Return date must be after departure date")
                else inr v
            | None => inr v
            end
        end
      else inr v
  | None => inr v
  end.

(** [FlightSearchRequest(departure_id=..., arrival_id=..., outbound_date=...,
    return_date=..., adults=..., trip_type=..., travel_class=...)] on
    arguments of the declared types.  [return_date] is declared after
    [outbound_date] and before [trip_type] (flight.py 46-59): its validator
    runs with [outbound_date] in [values] and without [trip_type].  [adults]
    carries the bounds [ge=1, le=9].  All failing fields are reported in one
    [ValidationError]. *)
Definition FlightSearchRequest_init (departure_id arrival_id : string)
    (outbound_date : date) (return_date : option date) (adults : Z)
    (trip_type : TripType) (travel_class : TravelClass)
  : exc FlightSearchRequest :=
  let values := {| values_outbound_date := Some outbound_date;
                   values_trip_type := None |} in
  let bad_return_date :=
    match validate_return_date return_date values with
    | inl _ => ["return_date"]
    | inr _ => []
    end in
  let bad_adults :=
    if (1 <=? adults) && (adults <=? 9) then [] else ["adults"] in
  match (bad_return_date ++ bad_adults)%list with
  | [] => inr {| departure_id := departure_id; arrival_id := arrival_id;
                 outbound_date := outbound_date; return_date := return_date;
                 adults := adults; trip_type := trip_type;
                 travel_class := travel_class |}
  | fields => inl (ValidationError "FlightSearchRequest" fields)
  end.

(** [FlightOption], reduced to its scalar fields. *)
Record FlightOption : Type := {
  price : Z;
  total_duration : Z;
  type_ : string
}.

Record FlightSearchResponse : Type := {
  best_flights : list FlightOption;
  other_flights : list FlightOption;
  flight_error : option string
}.

(** [HotelSearchRequest].  Fields left at their defaults by the modelled
    constructor call are omitted. *)
Record HotelSearchRequest : Type := {
  q : string;
  check_in_date : date;
  check_out_date : date;
  hotel_adults : Z;
  sort_by : HotelSortBy;
  max_price : option Z;
  hotel_class : option string;
  vacation_rentals : bool
}.

(** [HotelSearchRequest.validate_check_out_date] (hotel.py 75-80);
    [check_in_date] is declared above [check_out_date], so it is in
    [info.data] whenever it validated. *)
Definition validate_check_out_date (v : date) (data_check_in_date : option date)
  : exc date :=
  match data_check_in_date with
  | Some ci =>
      if date_leb v ci
      then inl (ValueError "Check-out date must be after check-in date")
      else inr v
  | None => inr v
  end.

(** [HotelSearchRequest.validate_price_range] (hotel.py 82-89). *)
Definition validate_price_range (v : option Z) (data_min_price : option Z)
  : exc (option Z) :=
  match v with
  | Some mx =>
      match data_min_price with
      | Some mn =>
          if mx <=? mn
          then inl (ValueError "Maximum price must be greater than minimum price")
          else inr v
      | None => inr v
      end
  | None => inr v
  end.

(** [HotelSearchRequest(q=..., check_in_date=..., check_out_date=...,
    adults=..., sort_by=..., max_price=..., hotel_class=...,
    vacation_rentals=...)]: [adults] in 1..20, [max_price] non-negative when
    given, [min_price] at its default [None]. *)
Definition HotelSearchRequest_init (q : string) (check_in_date check_out_date : date)
    (adults : Z) (sort_by : HotelSortBy) (max_price : option Z)
    (hotel_class : option string) (vacation_rentals : bool)
  : exc HotelSearchRequest :=
  let bad_check_out :=
    match validate_check_out_date check_out_date (Some check_in_date) with
    | inl _ => ["check_out_date"]
    | inr _ => []
    end in
  let bad_adults :=
    if (1 <=? adults) && (adults <=? 20) then [] else ["adults"] in
  let bad_max_price :=
    match max_price with
    | Some mx =>
        if 0 <=? mx
        then match validate_price_range max_price None with
             | inl _ => ["max_price"]
             | inr _ => []
             end
        else ["max_price"]
    | None => []
    end in
  match (bad_check_out ++ bad_adults ++ bad_max_price)%list with
  | [] => inr {| q := q; check_in_date := check_in_date;
                 check_out_date := check_out_date; hotel_adults := adults;
                 sort_by := sort_by; max_price := max_price;
                 hotel_class := hotel_class;
                 vacation_rentals := vacation_rentals |}
  | fields => inl (ValidationError "HotelSearchRequest" fields)
  end.

Record RateInfo : Type := {
  lowest : option string;
  extracted_lowest : option float
}.

(** [HotelProperty], with the fields the tool adapter reads. *)
Record HotelProperty : Type := {
  property_type : string;
  name : string;
  rate_per_night : option RateInfo;
  property_hotel_class : option string;
  overall_rating : option float;
  reviews : option Z;
  location_rating : option float;
  amenities : list string
}.

Record HotelAd : Type := { ad_name : string; ad_source : string }.

Record HotelSearchResponse : Type := {
  properties : list HotelProperty;
  ads : list HotelAd;
  hotel_error : option string
}.

(** *** Parameters extracted from a conversation, and the chat envelope *)

(** Validation of an input against a field of type [Optional[T]]. *)
Definition validate_optional {A} (validate : pyval -> option A) (v : pyval)
  : option (option A) :=
  match v with
  | PNone => Some None
  | _ => option_map Some (validate v)
  end.

(** The name of a field whose input was rejected. *)
Definition rejected {A} (field : string) (validated : option A) : list string :=
  match validated with
  | Some _ => []
  | None => [field]
  end.

Module FlightSearchParams.
Record t : Type := {
  departure_location : option string;
  arrival_location : option string;
  departure_date : option string;
  return_date : option string;
  passengers : Z;
  trip_type : string;
  travel_class : string
}.

(** [FlightSearchParams()]: every field at its default. *)
Definition default : t :=
  {| departure_location := None; arrival_location := None;
     departure_date := None; return_date := None; passengers := 1;
     trip_type := "round_trip"; travel_class := "economy" |}.

(** [FlightSearchParams(departure_location=..., ..., travel_class=...)]
    on inputs of any type. *)
Definition init {LIB : Library}
    (departure_location arrival_location departure_date return_date
     passengers trip_type travel_class : pyval) : exc t :=
  let a := validate_optional validate_str departure_location in
  let b := validate_optional validate_str arrival_location in
  let c := validate_optional validate_str departure_date in
  let d := validate_optional validate_str return_date in
  let e := validate_int passengers in
  let f := validate_str trip_type in
  let g := validate_str travel_class in
  match a, b, c, d, e, f, g with
  | Some a, Some b, Some c, Some d, Some e, Some f, Some g =>
      inr {| departure_location := a; arrival_location := b;
             departure_date := c; return_date := d; passengers := e;
             trip_type := f; travel_class := g |}
  | _, _, _, _, _, _, _ =>
      inl (ValidationError "FlightSearchParams"
             (rejected "departure_location" a ++ rejected "arrival_location" b
              ++ rejected "departure_date" c ++ rejected "return_date" d
              ++ rejected "passengers" e ++ rejected "trip_type" f
              ++ rejected "travel_class" g)%list)
  end.
End FlightSearchParams.

Module HotelSearchParams.
Record t : Type := {
  location : option string;
  check_in_date : option string;
  check_out_date : option string;
  guests : Z;
  rooms : Z;
  hotel_class : option string;
  amenities : option string;
  max_price : option Z;
  vacation_rental : bool
}.

(** [HotelSearchParams(location=..., check_in_date=..., check_out_date=...,
    guests=..., rooms=..., hotel_class=..., max_price=...,
    vacation_rental=...)]; [amenities] keeps its default. *)
Definition init {LIB : Library}
    (location check_in_date check_out_date guests rooms hotel_class
     max_price vacation_rental : pyval) : exc t :=
  let a := validate_optional validate_str location in
  let b := validate_optional validate_str check_in_date in
  let c := validate_optional validate_str check_out_date in
  let d := validate_int guests in
  let e := validate_int rooms in
  let f := validate_optional validate_str hotel_class in
  let g := validate_optional validate_int max_price in
  let h := validate_bool vacation_rental in
  match a, b, c, d, e, f, g, h with
  | Some a, Some b, Some c, Some d, Some e, Some f, Some g, Some h =>
      inr {| location := a; check_in_date := b; check_out_date := c;
             guests := d; rooms := e; hotel_class := f; amenities := None;
             max_price := g; vacation_rental := h |}
  | _, _, _, _, _, _, _, _ =>
      inl (ValidationError "HotelSearchParams"
             (rejected "location" a ++ rejected "check_in_date" b
              ++ rejected "check_out_date" c ++ rejected "guests" d
              ++ rejected "rooms" e ++ rejected "hotel_class" f
              ++ rejected "max_price" g ++ rejected "vacation_rental" h)%list)
  end.
End HotelSearchParams.

(** The values of [TravelSearchParams.search_type]. *)
Inductive SearchType : Type := flight | hotel | both.

Definition SearchType_eqb (a b : SearchType) : bool :=
  match a, b with
  | flight, flight | hotel, hotel | both, both => true
  | _, _ => false
  end.

Module TravelSearchParams.
Record t : Type := {
  search_type : SearchType;
  departure_location : option string;
  arrival_location : option string;
  departure_date : option string;
  return_date : option string;
  passengers : Z;
  trip_type : string;
  travel_class : string;
  hotel_location : option string;
  check_in_date : option string;
  check_out_date : option string;
  guests : Z;
  rooms : Z;
  hotel_class : option string;
  amenities : option string;
  max_price : option Z;
  vacation_rental : bool
}.

(** The declared defaults of the fields. *)
Definition default : t :=
  {| search_type := both;
     departure_location := None; arrival_location := None;
     departure_date := None; return_date := None; passengers := 1;
     trip_type := "round_trip"; travel_class := "economy";
     hotel_location := None; check_in_date := None; check_out_date := None;
     guests := 2; rooms := 1; hotel_class := None; amenities := None;
     max_price := None; vacation_rental := false |}.
End TravelSearchParams.

Module ChatRequest.
Record t : Type := {
  message : string;
  thread_id : option string
}.
End ChatRequest.

Module ChatResponse.
Record t : Type := {
  message : string;
  thread_id : string;
  flight_results : option FlightSearchResponse;
  hotel_results : option (gmap string pyval);
  extracted_params : option TravelSearchParams.t;
  needs_clarification : bool;
  missing_params : list string
}.
End ChatResponse.

End Models.

(** ** Search tool adapters (app/agents/tools.py) and the location table
       (app/services/serpapi_service.py) *)

Module Tools.
Import Py Models.

Record SerpAPIService : Type := { api_key : string }.

Record HotelSerpAPIService : Type := { hotel_api_key : string }.

(** The process state the tools read and write: the environment variable
    holding the provider key, the two lazily built service singletons
    ([tools.serpapi_service], [hotel_service._hotel_service_instance]), and
    the searches handed to the provider so far, most recent first. *)
Record world : Type := {
  SERPAPI_API_KEY : option string;
  serpapi_service : option SerpAPIService;
  _hotel_service_instance : option HotelSerpAPIService;
  flight_searches : list FlightSearchRequest;
  hotel_searches : list HotelSearchRequest
}.

(** The provider side: what [SerpAPIService.search_flights] and
    [HotelSerpAPIService.search_hotels] answer to a request (query assembly,
    the HTTP call and the parsing of the answer).  Both catch their own
    exceptions and always return a response. *)
Class Provider : Type := {
  provider_flights : FlightSearchRequest -> FlightSearchResponse;
  provider_hotels : HotelSearchRequest -> HotelSearchResponse
}.

Record PropertySummary : Type := {
  summary_name : string;
  summary_type : string;
  summary_rating : option float;
  summary_reviews : option Z;
  price_per_night : option string;
  summary_amenities : list string;
  summary_location_rating : option float;
  summary_hotel_class : option string
}.

(** The success dict of [search_hotels], without the echo of the search
    parameters. *)
Record HotelSummary : Type := {
  properties_count : Z;
  ads_count : Z;
  price_range : option string;
  summary_properties : list PropertySummary
}.

(** What a tool hands to [json.dumps]: [{"error": ...}], or a success dict.
    The success dict of [search_flights] (tools.py 131-178) is a summary
    computed from the resolved codes and the provider's response; it is
    represented by these. *)
Inductive ToolOutput : Type :=
  | ErrorPayload (error : string)
  | FlightPayload (departure arrival : string) (response : FlightSearchResponse)
  | HotelPayload (summary : HotelSummary).

Section WithRuntime.
Context {STR : StrMethods} {LIB : Library} {PROV : Provider}.

(** [SerpAPIService.__init__] (serpapi_service.py 28-32). *)
Definition SerpAPIService_init {R} (key : option string) : M world R SerpAPIService :=
  fun w =>
    match nonempty (match nonempty key with
                    | Some k => Some k
                    | None => SERPAPI_API_KEY w
                    end) with
    | Some k => (Val {| api_key := k |}, w)
    | None =>
        (Raise (ValueError
           "SerpAPI key is required. Set SERPAPI_API_KEY environment variable."), w)
    end.

(** [get_serpapi_service] (tools.py 22-27). *)
Definition get_serpapi_service {R} : M world R SerpAPIService :=
  fun w =>
    match serpapi_service w with
    | Some service => (Val service, w)
    | None =>
        match SerpAPIService_init (R := R) None w with
        | (Val service, w') =>
            (Val service,
             {| SERPAPI_API_KEY := SERPAPI_API_KEY w';
                serpapi_service := Some service;
                _hotel_service_instance := _hotel_service_instance w';
                flight_searches := flight_searches w';
                hotel_searches := hotel_searches w' |})
        | other => other
        end
    end.

(** [HotelSerpAPIService.__init__] and [get_hotel_service]
    (hotel_service.py 33-37, 417-423). *)
Definition HotelSerpAPIService_init {R} (key : option string)
  : M world R HotelSerpAPIService :=
  fun w =>
    match nonempty (match nonempty key with
                    | Some k => Some k
                    | None => SERPAPI_API_KEY w
                    end) with
    | Some k => (Val {| hotel_api_key := k |}, w)
    | None =>
        (Raise (ValueError
           "SerpAPI key is required. Set SERPAPI_API_KEY environment variable."), w)
    end.

Definition get_hotel_service {R} : M world R HotelSerpAPIService :=
  fun w =>
    match _hotel_service_instance w with
    | Some service => (Val service, w)
    | None =>
        match HotelSerpAPIService_init (R := R) None w with
        | (Val service, w') =>
            (Val service,
             {| SERPAPI_API_KEY := SERPAPI_API_KEY w';
                serpapi_service := serpapi_service w';
                _hotel_service_instance := Some service;
                flight_searches := flight_searches w';
                hotel_searches := hotel_searches w' |})
        | other => other
        end
    end.

(** A call of [service.search_flights(request)]: the request reaches the
    provider. *)
Definition SerpAPIService_search_flights {R} (self : SerpAPIService)
    (request : FlightSearchRequest) : M world R FlightSearchResponse :=
  fun w =>
    (Val (provider_flights request),
     {| SERPAPI_API_KEY := SERPAPI_API_KEY w;
        serpapi_service := serpapi_service w;
        _hotel_service_instance := _hotel_service_instance w;
        flight_searches := request :: flight_searches w;
        hotel_searches := hotel_searches w |}).

Definition HotelSerpAPIService_search_hotels {R} (self : HotelSerpAPIService)
    (request : HotelSearchRequest) : M world R HotelSearchResponse :=
  fun w =>
    (Val (provider_hotels request),
     {| SERPAPI_API_KEY := SERPAPI_API_KEY w;
        serpapi_service := serpapi_service w;
        _hotel_service_instance := _hotel_service_instance w;
        flight_searches := flight_searches w;
        hotel_searches := request :: hotel_searches w |}).

(** The city table of [SerpAPIService.get_airport_suggestions], in the
    order of the dict literal; an airport is (code, name). *)
Definition airport_mappings : list (string * list (string * string)) :=
  [ ("new york", [ ("JFK", "John F. Kennedy International Airport");
                   ("LGA", "LaGuardia Airport");
                   ("EWR", "Newark Liberty International Airport") ]);
    ("london", [ ("LHR", "London Heathrow Airport");
                 ("LGW", "London Gatwick Airport");
                 ("STN", "London Stansted Airport") ]);
    ("paris", [ ("CDG", "Charles de Gaulle Airport");
                ("ORY", "Paris-Orly Airport") ]);
    ("tokyo", [ ("NRT", "Narita International Airport");
                ("HND", "Haneda Airport") ]);
    ("los angeles", [ ("LAX", "Los Angeles International Airport") ]);
    ("chicago", [ ("ORD", "O'Hare International Airport");
                  ("MDW", "Midway International Airport") ]);
    ("miami", [ ("MIA", "Miami International Airport") ]);
    ("san francisco", [ ("SFO", "San Francisco International Airport") ]);
    ("boston", [ ("BOS", "Logan International Airport") ]);
    ("washington", [ ("DCA", "Ronald Reagan Washington National Airport");
                     ("IAD", "Washington Dulles International Airport") ]) ].

(** [SerpAPIService.get_airport_suggestions] (serpapi_service.py 240-279). *)
Definition get_airport_suggestions (query : string) : list (string * string) :=
  let query_lower := str_lower query in
  let suggestions :=
    List.flat_map
      (fun entry : string * list (string * string) =>
         let (city, airports) := entry in
         if str_in query_lower city || str_in city query_lower
         then airports else [])
      airport_mappings in
  let suggestions :=
    match suggestions with
    | [] =>
        if (len query =? 3) && str_isalpha query
        then [ (str_upper query, str_upper query ++ " Airport") ]
        else []
    | _ => suggestions
    end in
  List.firstn 5 suggestions.

(** [_resolve_airport_code] (tools.py 220-239). *)
Definition _resolve_airport_code {R} (location : string) : M world R (option string) :=
  if (len location =? 3) && str_isalpha location
  then ret (Some (str_upper location))
  else
    let* service := get_serpapi_service in
    match get_airport_suggestions location with
    | first :: _ => ret (Some (fst first))
    | [] => ret None
    end.

Definition trip_type_map : list (string * TripType) :=
  [ ("one_way", ONE_WAY); ("round_trip", ROUND_TRIP); ("multi_city", MULTI_CITY) ].

Definition class_map : list (string * TravelClass) :=
  [ ("economy", ECONOMY); ("premium_economy", PREMIUM_ECONOMY);
    ("business", BUSINESS); ("first", FIRST) ].

Definition sort_map : list (string * HotelSortBy) :=
  [ ("relevance", RELEVANCE); ("price", LOWEST_PRICE);
    ("rating", HIGHEST_RATING); ("reviews", MOST_REVIEWED) ].

(** [d.get(key, default)] on a dict literal with distinct keys. *)
Fixpoint dict_get {A} (d : list (string * A)) (key : string) (default : A) : A :=
  match d with
  | [] => default
  | (k, v) :: rest => if String.eqb k key then v else dict_get rest key default
  end.

(** Lines 56-121 of [search_flights]: from the arguments to the validated
    request, leaving the function with an error payload where the source
    returns one. *)
Definition flight_search_request (departure_location arrival_location : string)
    (departure_date : string) (return_date : option string) (passengers : Z)
    (trip_type travel_class : string)
  : M world ToolOutput FlightSearchRequest :=
  let* departure_code := _resolve_airport_code departure_location in
  let* arrival_code := _resolve_airport_code arrival_location in
  match nonempty departure_code with
  | None =>
      return_ (ErrorPayload
        ("Could not resolve departure location: " ++ departure_location
         ++ ". Please provide a valid airport code (e.g., JFK, LAX) or major city name."))
  | Some departure_code =>
  match nonempty arrival_code with
  | None =>
      return_ (ErrorPayload
        ("Could not resolve arrival location: " ++ arrival_location
         ++ ". Please provide a valid airport code (e.g., JFK, LAX) or major city name."))
  | Some arrival_code =>
  match strptime_ymd departure_date with
  | None =>
      return_ (ErrorPayload
        ("Invalid departure date format: " ++ departure_date
         ++ ". Please use YYYY-MM-DD format."))
  | Some outbound_date =>
  let* return_date_obj :=
    match nonempty return_date with
    | Some text =>
        match strptime_ymd text with
        | Some return_date_obj =>
            if date_leb return_date_obj outbound_date
            then return_ (ErrorPayload "Return date must be after departure date.")
            else ret (Some return_date_obj)
        | None =>
            return_ (ErrorPayload
              ("Invalid return date format: " ++ text
               ++ ". Please use YYYY-MM-DD format."))
        end
    | None => ret None
    end in
  if String.eqb trip_type "round_trip" && negb (truthy_opt return_date_obj)
  then return_ (ErrorPayload "Return date is required for round trip flights.")
  else
    match FlightSearchRequest_init departure_code arrival_code outbound_date
            return_date_obj passengers
            (dict_get trip_type_map trip_type ROUND_TRIP)
            (dict_get class_map travel_class ECONOMY) with
    | inr search_request => ret search_request
    | inl e => raise e
    end
  end end end.

(** [search_flights] (tools.py 30-184). *)
Definition search_flights (departure_location arrival_location : string)
    (departure_date : string) (return_date : option string) (passengers : Z)
    (trip_type travel_class : string) : world -> ToolOutput * world :=
  try_function
    (let* search_request :=
       flight_search_request departure_location arrival_location departure_date
         return_date passengers trip_type travel_class in
     let* service := get_serpapi_service in
     let* response := SerpAPIService_search_flights service search_request in
     match nonempty (flight_error response) with
     | Some error => return_ (ErrorPayload error)
     | None =>
         return_ (FlightPayload (departure_id search_request)
                    (arrival_id search_request) response)
     end)
    (fun e => ErrorPayload ("Flight search failed: " ++ str_exn e)).

(** A valid return-date argument, as the request stage reads it: absent
    (then no date object), or a text that parses to a date strictly after
    the outbound date. *)
Definition return_date_reads (outbound : date) (return_date : option string)
    (return_date_obj : option date) : Prop :=
  match nonempty return_date with
  | None => return_date_obj = None
  | Some text =>
      exists rd, strptime_ymd text = Some rd
                 /\ date_ltb outbound rd = true
                 /\ return_date_obj = Some rd
  end.

(** [min(prices)] and [max(prices)]: the first element is the candidate,
    a later one replaces it when it compares strictly below (above) it;
    both raise on an empty list. *)
Fixpoint min_from (best : float) (l : list float) : float :=
  match l with
  | [] => best
  | x :: rest => min_from (if PrimFloat.ltb x best then x else best) rest
  end.

Fixpoint max_from (best : float) (l : list float) : float :=
  match l with
  | [] => best
  | x :: rest => max_from (if PrimFloat.ltb best x then x else best) rest
  end.

Definition py_min (l : list float) : exc float :=
  match l with
  | [] => inl (ValueError "min() arg is an empty sequence")
  | x :: rest => inr (min_from x rest)
  end.

Definition py_max (l : list float) : exc float :=
  match l with
  | [] => inl (ValueError "max() arg is an empty sequence")
  | x :: rest => inr (max_from x rest)
  end.

(** The rate a property contributes to [prices] (tools.py 343-344): its
    [rate_per_night.extracted_lowest] when both are truthy. *)
Definition listed_rate (prop : HotelProperty) : option float :=
  match rate_per_night prop with
  | Some rate =>
      match extracted_lowest rate with
      | Some x => if truthy_float x then Some x else None
      | None => None
      end
  | None => None
  end.

(** The list [prices] after the loop of tools.py 341-344. *)
Fixpoint collect_prices (props : list HotelProperty) : list float :=
  match props with
  | [] => []
  | prop :: rest =>
      match listed_rate prop with
      | Some x => x :: collect_prices rest
      | None => collect_prices rest
      end
  end.

(** Lines 340-347: the value of [result["results_summary"]["price_range"]]
    after the block, or the exception the block raises. *)
Definition aggregate_price_range (props : list HotelProperty) : exc (option string) :=
  let prices := collect_prices props in
  match prices with
  | [] => inr None
  | _ =>
      try* lo := py_min prices in
      try* hi := py_max prices in
      inr (Some ("$" ++ format_0f lo ++ "-$" ++ format_0f hi))
  end.

(** Lines 351-368: the summary of one property. *)
Definition summarise_property (property_data : HotelProperty) : PropertySummary :=
  {| summary_name := name property_data;
     summary_type := property_type property_data;
     summary_rating := overall_rating property_data;
     summary_reviews := reviews property_data;
     price_per_night :=
       match rate_per_night property_data with
       | Some rate =>
           match nonempty (lowest rate) with
           | Some text => Some text
           | None =>
               match extracted_lowest rate with
               | Some x =>
                   if truthy_float x then Some ("$" ++ format_0f x) else None
               | None => None
               end
           end
       | None => None
       end;
     summary_amenities := List.firstn 5 (amenities property_data);
     summary_location_rating := location_rating property_data;
     summary_hotel_class := nonempty (property_hotel_class property_data) |}.

(** Lines 272-311 of [search_hotels]: from the arguments to the validated
    request. *)
Definition hotel_search_request (location check_in_date check_out_date : string)
    (guests rooms : Z) (sort_by : string) (max_price : option Z)
    (hotel_class : option string) (vacation_rental : bool)
  : M world ToolOutput HotelSearchRequest :=
  match strptime_ymd check_in_date with
  | None =>
      return_ (ErrorPayload
        ("Invalid check-in date format: " ++ check_in_date
         ++ ". Please use YYYY-MM-DD format."))
  | Some check_in =>
  match strptime_ymd check_out_date with
  | None =>
      return_ (ErrorPayload
        ("Invalid check-out date format: " ++ check_out_date
         ++ ". Please use YYYY-MM-DD format."))
  | Some check_out =>
  if date_leb check_out check_in
  then return_ (ErrorPayload "Check-out date must be after check-in date.")
  else
    match HotelSearchRequest_init location check_in check_out guests
            (dict_get sort_map sort_by RELEVANCE) max_price hotel_class
            vacation_rental with
    | inr search_request => ret search_request
    | inl e => raise e
    end
  end end.

(** [search_hotels] (tools.py 242-378). *)
Definition search_hotels (location check_in_date check_out_date : string)
    (guests rooms : Z) (sort_by : string) (max_price : option Z)
    (hotel_class : option string) (vacation_rental : bool)
  : world -> ToolOutput * world :=
  try_function
    (let* search_request :=
       hotel_search_request location check_in_date check_out_date guests rooms
         sort_by max_price hotel_class vacation_rental in
     let* service := get_hotel_service in
     let* response := HotelSerpAPIService_search_hotels service search_request in
     match nonempty (hotel_error response) with
     | Some error => return_ (ErrorPayload error)
     | None =>
         match aggregate_price_range (properties response) with
         | inl e => raise e
         | inr range =>
             return_ (HotelPayload
               {| properties_count := Z.of_nat (List.length (properties response));
                  ads_count := Z.of_nat (List.length (ads response));
                  price_range := range;
                  summary_properties :=
                    List.map summarise_property (List.firstn 3 (properties response)) |})
         end
     end)
    (fun e => ErrorPayload ("Hotel search failed: " ++ str_exn e)).
End WithRuntime.

End Tools.

(** ** Chat orchestration (app/agents/travel_agent.py) *)

Module TravelAgent.
Import Py Models.

(** A tool-call record of an assistant message: [{"name": ..., "args": ...}];
    [args] is [None] when the record has no ["args"] key. *)
Record ToolCall : Type := {
  tool_name : string;
  args : option (gmap string pyval)
}.

(** The messages of a conversation.  Only an [AIMessage] has the attribute
    [tool_calls]. *)
Inductive Message : Type :=
  | HumanMessage (content : string)
  | AIMessage (content : string) (tool_calls : list ToolCall)
  | ToolMessage (content : string)
  | SystemMessage (content : string).

(** The conversations kept by the checkpointer, by thread id. *)
Abbreviation Checkpoints := (gmap string (list Message)).

(** [TravelAgent]: its configuration and the state held by the runtime it
    wraps. *)
Record t : Type := {
  model_name : string;
  checkpointer : Checkpoints
}.

(** The external agent runtime: [agent_invoke state thread_id text] is
    [self.agent.invoke({"messages": [HumanMessage(content=text)]},
    config={"configurable": {"thread_id": thread_id}})], giving the messages
    under ["messages"] of its result, or the exception it raises, and the
    runtime's state afterwards. *)
Class Runtime : Type := {
  agent_invoke : Checkpoints -> string -> string -> exc (list Message) * Checkpoints
}.

(** [args.get(key)] and [args.get(key, default)]. *)
Definition get (d : gmap string pyval) (key : string) : pyval :=
  match d !! key with
  | Some v => v
  | None => PNone
  end.

Definition get_default (d : gmap string pyval) (key : string) (default : pyval) : pyval :=
  match d !! key with
  | Some v => v
  | None => default
  end.

(** [hasattr(msg, 'tool_calls') and msg.tool_calls], as the list iterated
    when the test succeeds (an empty list fails it). *)
Definition tool_calls_of (msg : Message) : list ToolCall :=
  match msg with
  | AIMessage _ calls => calls
  | _ => []
  end.

(** The first [AIMessage] of [reversed(messages)]. *)
Fixpoint last_ai_message (messages : list Message) : option string :=
  match messages with
  | [] => None
  | msg :: rest =>
      match last_ai_message rest with
      | Some content => Some content
      | None =>
          match msg with
          | AIMessage content _ => Some content
          | _ => None
          end
      end
  end.

Definition clarification_indicators : list string :=
  [ "what"; "when"; "where"; "which"; "how many";
    "need to know"; "please provide"; "can you tell me";
    "missing"; "require"; "specify" ].

Section WithRuntime.
Context {STR : StrMethods} {LIB : Library} {RT : Runtime}.

(** [params] with the tag set to [search_type] and the seven flight fields
    taken from [flight_params]: the keyword arguments of lines 191-200 on
    the defaults, the assignments of lines 203-210 on the existing object. *)
Definition with_flight_info (params : TravelSearchParams.t) (search_type : SearchType)
    (flight_params : FlightSearchParams.t) : TravelSearchParams.t :=
  {| TravelSearchParams.search_type := search_type;
     TravelSearchParams.departure_location :=
       FlightSearchParams.departure_location flight_params;
     TravelSearchParams.arrival_location :=
       FlightSearchParams.arrival_location flight_params;
     TravelSearchParams.departure_date :=
       FlightSearchParams.departure_date flight_params;
     TravelSearchParams.return_date := FlightSearchParams.return_date flight_params;
     TravelSearchParams.passengers := FlightSearchParams.passengers flight_params;
     TravelSearchParams.trip_type := FlightSearchParams.trip_type flight_params;
     TravelSearchParams.travel_class := FlightSearchParams.travel_class flight_params;
     TravelSearchParams.hotel_location := TravelSearchParams.hotel_location params;
     TravelSearchParams.check_in_date := TravelSearchParams.check_in_date params;
     TravelSearchParams.check_out_date := TravelSearchParams.check_out_date params;
     TravelSearchParams.guests := TravelSearchParams.guests params;
     TravelSearchParams.rooms := TravelSearchParams.rooms params;
     TravelSearchParams.hotel_class := TravelSearchParams.hotel_class params;
     TravelSearchParams.amenities := TravelSearchParams.amenities params;
     TravelSearchParams.max_price := TravelSearchParams.max_price params;
     TravelSearchParams.vacation_rental := TravelSearchParams.vacation_rental params |}.

(** [params] with the tag set to [search_type] and the eight hotel fields
    taken from [hotel_params] (lines 228-238 and 241-249); [amenities] is
    not among them. *)
Definition with_hotel_info (params : TravelSearchParams.t) (search_type : SearchType)
    (hotel_params : HotelSearchParams.t) : TravelSearchParams.t :=
  {| TravelSearchParams.search_type := search_type;
     TravelSearchParams.departure_location :=
       TravelSearchParams.departure_location params;
     TravelSearchParams.arrival_location := TravelSearchParams.arrival_location params;
     TravelSearchParams.departure_date := TravelSearchParams.departure_date params;
     TravelSearchParams.return_date := TravelSearchParams.return_date params;
     TravelSearchParams.passengers := TravelSearchParams.passengers params;
     TravelSearchParams.trip_type := TravelSearchParams.trip_type params;
     TravelSearchParams.travel_class := TravelSearchParams.travel_class params;
     TravelSearchParams.hotel_location := HotelSearchParams.location hotel_params;
     TravelSearchParams.check_in_date := HotelSearchParams.check_in_date hotel_params;
     TravelSearchParams.check_out_date := HotelSearchParams.check_out_date hotel_params;
     TravelSearchParams.guests := HotelSearchParams.guests hotel_params;
     TravelSearchParams.rooms := HotelSearchParams.rooms hotel_params;
     TravelSearchParams.hotel_class := HotelSearchParams.hotel_class hotel_params;
     TravelSearchParams.amenities := TravelSearchParams.amenities params;
     TravelSearchParams.max_price := HotelSearchParams.max_price hotel_params;
     TravelSearchParams.vacation_rental :=
       HotelSearchParams.vacation_rental hotel_params |}.

(** One iteration of the inner loop (lines 176-249): the value of
    [extracted_params] after the tool call, or the exception raised. *)
Definition tool_call_step (extracted_params : option TravelSearchParams.t)
    (tool_call : ToolCall) : exc (option TravelSearchParams.t) :=
  if String.eqb (tool_name tool_call) "search_flights" then
    let args := default ∅ (args tool_call) in
    try* flight_params :=
      FlightSearchParams.init
        (get args "departure_location") (get args "arrival_location")
        (get args "departure_date") (get args "return_date")
        (get_default args "passengers" (PInt 1))
        (get_default args "trip_type" (PStr "round_trip"))
        (get_default args "travel_class" (PStr "economy")) in
    match extracted_params with
    | None =>
        inr (Some (with_flight_info TravelSearchParams.default flight flight_params))
    | Some existing =>
        inr (Some (with_flight_info existing
                     (if SearchType_eqb (TravelSearchParams.search_type existing) hotel
                      then both else flight)
                     flight_params))
    end
  else if String.eqb (tool_name tool_call) "search_hotels" then
    let args := default ∅ (args tool_call) in
    try* hotel_params :=
      HotelSearchParams.init
        (get args "location") (get args "check_in_date")
        (get args "check_out_date")
        (get_default args "guests" (PInt 2))
        (get_default args "rooms" (PInt 1))
        (get args "hotel_class") (get args "max_price")
        (get_default args "vacation_rental" (PBool false)) in
    match extracted_params with
    | None =>
        inr (Some (with_hotel_info TravelSearchParams.default hotel hotel_params))
    | Some existing =>
        inr (Some (with_hotel_info existing
                     (if SearchType_eqb (TravelSearchParams.search_type existing) flight
                      then both else hotel)
                     hotel_params))
    end
  else inr extracted_params.

(** The inner loop over the tool calls of one message. *)
Fixpoint scan_tool_calls (extracted_params : option TravelSearchParams.t)
    (calls : list ToolCall) : exc (option TravelSearchParams.t) :=
  match calls with
  | [] => inr extracted_params
  | tool_call :: rest =>
      try* extracted_params := tool_call_step extracted_params tool_call in
      scan_tool_calls extracted_params rest
  end.

(** The outer loop over the messages (lines 173-249). *)
Fixpoint scan_messages (extracted_params : option TravelSearchParams.t)
    (messages : list Message) : exc (option TravelSearchParams.t) :=
  match messages with
  | [] => inr extracted_params
  | msg :: rest =>
      try* extracted_params := scan_tool_calls extracted_params (tool_calls_of msg) in
      scan_messages extracted_params rest
  end.

(** Lines 251-276: [needs_clarification] and [missing_params] from the
    reply text. *)
Definition scan_reply (response_content : string) : bool * list string :=
  let response_lower := str_lower response_content in
  let mentions := fun word : string => str_in word response_lower in
  if any mentions clarification_indicators then
    (true,
     ((if mentions "departure" || mentions "from"
       then ["departure_location"] else [])
      ++ (if mentions "arrival" || mentions "destination" || mentions "to"
          then ["arrival_location"] else [])
      ++ (if mentions "check-in" || mentions "check in"
          then ["check_in_date"] else [])
      ++ (if mentions "check-out" || mentions "check out"
          then ["check_out_date"] else [])
      ++ (if mentions "date" || mentions "when"
          then ["dates"] else [])
      ++ (if mentions "passenger" || mentions "traveler" || mentions "guest"
          then ["passengers_or_guests"] else [])
      ++ (if mentions "location" || mentions "where"
          then ["location"] else []))%list)
  else (false, []).

(** [request.thread_id or f"thread_{datetime.now().timestamp()}"], where
    [timestamp] is the rendering of the clock reading taken there. *)
Definition thread_id_or_fresh (request : ChatRequest.t) (timestamp : string) : string :=
  match nonempty (ChatRequest.thread_id request) with
  | Some thread_id => thread_id
  | None => "thread_" ++ timestamp
  end.

(** The [try] block of [process_message] (lines 135-291). *)
Definition process_message_try (self : t) (request : ChatRequest.t)
    (timestamp : string) : exc ChatResponse.t * t :=
  let thread_id := thread_id_or_fresh request timestamp in
  let (result, checkpoints) :=
    agent_invoke (checkpointer self) thread_id (ChatRequest.message request) in
  let self' := {| model_name := model_name self; checkpointer := checkpoints |} in
  (try* messages := result in
   match messages with
   | [] => inl (ValueError "No response from agent")
   | _ =>
       match last_ai_message messages with
       | None => inl (ValueError "No AI response found")
       | Some response_content =>
           try* extracted_params := scan_messages None messages in
           let (needs_clarification, missing_params) := scan_reply response_content in
           inr {| ChatResponse.message := response_content;
                  ChatResponse.thread_id := thread_id;
                  ChatResponse.flight_results := None;
                  ChatResponse.hotel_results := None;
                  ChatResponse.extracted_params := extracted_params;
                  ChatResponse.needs_clarification := needs_clarification;
                  ChatResponse.missing_params := missing_params |}
       end
   end,
   self').

(** The response built by the [except Exception as e] clause
    (lines 293-299). *)
Definition error_response (request : ChatRequest.t) (e : exn) (timestamp : string)
  : ChatResponse.t :=
  {| ChatResponse.message :=
       "I apologize, but I encountered an error while processing your request: "
       ++ str_exn e ++ ". Please try again or rephrase your question.";
     ChatResponse.thread_id := thread_id_or_fresh request timestamp;
     ChatResponse.flight_results := None;
     ChatResponse.hotel_results := None;
     ChatResponse.extracted_params := None;
     ChatResponse.needs_clarification := true;
     ChatResponse.missing_params := [] |}.

(** [TravelAgent.process_message] (lines 124-299).  [timestamp] is the
    clock reading available to line 136, [timestamp'] the later one
    available to line 297. *)
Definition process_message (self : t) (request : ChatRequest.t)
    (timestamp timestamp' : string) : ChatResponse.t * t :=
  match process_message_try self request timestamp with
  | (inr response, self') => (response, self')
  | (inl e, self') => (error_response request e timestamp', self')
  end.
End WithRuntime.

End TravelAgent.

(** ** The keyword extractor (app/agents/flight_agent.py) *)

Module FlightSearchAgent.
Import Py Models.

(** [FlightSearchAgent]: configuration and runtime state, as [TravelAgent.t]. *)
Record t : Type := {
  model_name : string;
  checkpointer : gmap string (list TravelAgent.Message)
}.

(** [l[i]] for a non-negative [i]. *)
Definition index {A} (l : list A) (i : nat) : exc A :=
  match List.nth_error l i with
  | Some x => inr x
  | None => inl (IndexError "list index out of range")
  end.

Section WithStr.
Context {STR : StrMethods}.

(** Lines 281-286: the two locations, when the text has both keywords. *)
Definition extract_locations (params : FlightSearchParams.t) (message_lower : string)
  : exc FlightSearchParams.t :=
  if str_in "from" message_lower && str_in "to" message_lower then
    try* after_from := index (str_split message_lower "from") 1 in
    let parts := str_split after_from "to" in
    if 2 <=? Z.of_nat (List.length parts) then
      try* before_to := index parts 0 in
      try* after_to := index parts 1 in
      try* first_word := index (str_split_ws after_to) 0 in
      inr {| FlightSearchParams.departure_location := Some (str_strip before_to);
             FlightSearchParams.arrival_location := Some (str_strip first_word);
             FlightSearchParams.departure_date :=
               FlightSearchParams.departure_date params;
             FlightSearchParams.return_date := FlightSearchParams.return_date params;
             FlightSearchParams.passengers := FlightSearchParams.passengers params;
             FlightSearchParams.trip_type := FlightSearchParams.trip_type params;
             FlightSearchParams.travel_class :=
               FlightSearchParams.travel_class params |}
    else inr params
  else inr params.

(** Lines 288-295: the first two dates of the text. *)
Definition extract_dates (params : FlightSearchParams.t) (message : string)
  : FlightSearchParams.t :=
  match re_findall_dates message with
  | [] => params
  | first :: more =>
      {| FlightSearchParams.departure_location :=
           FlightSearchParams.departure_location params;
         FlightSearchParams.arrival_location :=
           FlightSearchParams.arrival_location params;
         FlightSearchParams.departure_date := Some first;
         FlightSearchParams.return_date :=
           match more with
           | second :: _ => Some second
           | [] => FlightSearchParams.return_date params
           end;
         FlightSearchParams.passengers := FlightSearchParams.passengers params;
         FlightSearchParams.trip_type := FlightSearchParams.trip_type params;
         FlightSearchParams.travel_class := FlightSearchParams.travel_class params |}
  end.

(** [FlightSearchAgent.extract_flight_params] (lines 264-297): the value
    returned or the exception raised, and the agent afterwards. *)
Definition extract_flight_params (self : t) (message : string)
  : exc FlightSearchParams.t * t :=
  let params := FlightSearchParams.default in
  let message_lower := str_lower message in
  (try* params := extract_locations params message_lower in
   inr (extract_dates params message),
   self).
End WithStr.

End FlightSearchAgent.

(** ** Chat endpoints (app/api/chat.py) *)

Module Chat.
Import Py Models.

(** The outcome of a route handler: the body of a 200 answer, or the
    [HTTPException] it raises. *)
Inductive http (A : Type) : Type :=
  | Ok (body : A)
  | HTTPException (status_code : Z) (detail : string).
Arguments Ok {A} body.
Arguments HTTPException {A} status_code detail.

(** The module-level singleton [travel_agent._travel_agent]. *)
Record world : Type := {
  _travel_agent : option TravelAgent.t
}.

(** [TravelAgent()] in the environment of the process: the agent built, or
    the exception one of the external constructors raises. *)
Class Environment : Type := {
  TravelAgent_init : exc TravelAgent.t
}.

(** The body of the 200 answer of [/chat/extract-params]. *)
Record ExtractedParams : Type := {
  status : string;
  echoed_message : string;
  extracted_params : FlightSearchParams.t
}.

Section WithRuntime.
Context {STR : StrMethods} {LIB : Library} {RT : TravelAgent.Runtime} {ENV : Environment}.

(** [get_travel_agent] (travel_agent.py 357-362). *)
Definition get_travel_agent (w : world) : exc TravelAgent.t * world :=
  match _travel_agent w with
  | Some agent => (inr agent, w)
  | None =>
      match TravelAgent_init with
      | inr agent => (inr agent, {| _travel_agent := Some agent |})
      | inl e => (inl e, w)
      end
  end.

(** [send_message] (chat.py 21-53).  The agent object is shared with the
    singleton: the state its runtime reaches is the singleton's. *)
Definition send_message (request : ChatRequest.t) (timestamp timestamp' : string)
    (w : world) : http ChatResponse.t * world :=
  match get_travel_agent w with
  | (inr agent, w') =>
      let (response, agent') :=
        TravelAgent.process_message agent request timestamp timestamp' in
      (Ok response, {| _travel_agent := Some agent' |})
  | (inl e, w') =>
      (HTTPException 500 ("Failed to process message: " ++ str_exn e), w')
  end.

(** [agent.extract_flight_params(message)] on a [TravelAgent]: the class
    defines [process_message], [get_conversation_state],
    [clear_conversation] and [_get_system_prompt] only, so the attribute
    lookup raises. *)
Definition TravelAgent_extract_flight_params (self : TravelAgent.t) (message : string)
  : exc FlightSearchParams.t * TravelAgent.t :=
  (inl (AttributeError
          "'TravelAgent' object has no attribute 'extract_flight_params'"),
   self).

(** [extract_flight_params] (chat.py 210-249): the route
    [POST /chat/extract-params]. *)
Definition extract_flight_params (request : gmap string string) (w : world)
  : http ExtractedParams * world :=
  let message := default "" (request !! "message") in
  if negb (truthy_str message) then (HTTPException 400 "Message is required", w)
  else
    match get_travel_agent w with
    | (inr agent, w') =>
        match TravelAgent_extract_flight_params agent message with
        | (inr params, agent') =>
            (Ok {| status := "success"; echoed_message := message;
                   extracted_params := params |},
             {| _travel_agent := Some agent' |})
        | (inl e, agent') =>
            (HTTPException 500 ("Failed to extract parameters: " ++ str_exn e),
             {| _travel_agent := Some agent' |})
        end
    | (inl e, w') =>
        (HTTPException 500 ("Failed to extract parameters: " ++ str_exn e), w')
    end.
End WithRuntime.

End Chat.

(** ** Rate limiting (app/core/dependencies.py) *)

Module Dependencies.

(** [RateLimiter]: [self.requests], the timestamps of the admitted requests
    of each key, oldest first.  Times are rational numbers of seconds. *)
Record RateLimiter : Type := {
  requests : gmap string (list Q)
}.

(** [RateLimiter()]. *)
Definition RateLimiter_init : RateLimiter := {| requests := ∅ |}.

(** [a > b] on times. *)
Definition Qgtb (a b : Q) : bool := negb (Qle_bool a b).

(** [RateLimiter.is_allowed] (lines 127-159); [now] is the reading of
    [time.time()]. *)
Definition is_allowed (self : RateLimiter) (key : string) (limit window : Z) (now : Q)
  : bool * RateLimiter :=
  let window_start := (now - inject_Z window)%Q in
  let cleaned :=
    match requests self !! key with
    | Some times => List.filter (fun req_time => Qgtb req_time window_start) times
    | None => []
    end in
  if (Z.of_nat (List.length cleaned) >=? limit)%Z
  then (false, {| requests := <[key := cleaned]> (requests self) |})
  else (true, {| requests := <[key := (cleaned ++ [now])%list]> (requests self) |}).

(** The list stored under [key], empty when the key is absent. *)
Definition stored (self : RateLimiter) (key : string) : list Q :=
  default [] (requests self !! key).

(** The list [is_allowed] stores back after pruning (lines 145-151). *)
Definition pruned (self : RateLimiter) (key : string) (window : Z) (now : Q) : list Q :=
  List.filter (fun req_time => Qgtb req_time (now - inject_Z window)%Q) (stored self key).


(** The limiter after a sequence of calls, each given as the key and the
    clock reading, with the limit and window of the configuration. *)
Fixpoint serve (self : RateLimiter) (limit window : Z) (calls : list (string * Q))
  : RateLimiter :=
  match calls with
  | [] => self
  | (key, now) :: rest => serve (snd (is_allowed self key limit window now)) limit window rest
  end.

End Dependencies.

(** ** Methods of the parameter models (app/models/flight.py 168-205,
       app/models/hotel.py 244-265, 293-322) *)

Module ModelMethods.
Import Py Models.

(** [datetime.strptime(text, "%Y-%m-%d").date() if text else None]: the
    optional date of an optional text, [None] standing for the [ValueError]
    of a text that does not parse. *)
Definition optional_date {LIB : Library} (text : option string) : option (option date) :=
  match nonempty text with
  | Some text => option_map Some (strptime_ymd text)
  | None => Some None
  end.

(** [FlightSearchParams.to_search_request] (flight.py 168-205).  The
    [except (ValueError, TypeError)] clause catches the [ValueError] of
    [strptime] and the [ValidationError] of the constructor, which is a
    subclass of [ValueError]; nothing else is raised in the block. *)
Definition FlightSearchParams_to_search_request {LIB : Library}
    (self : FlightSearchParams.t) : option FlightSearchRequest :=
  match nonempty (FlightSearchParams.departure_location self),
        nonempty (FlightSearchParams.arrival_location self),
        nonempty (FlightSearchParams.departure_date self) with
  | Some departure_location, Some arrival_location, Some departure_date =>
      match strptime_ymd departure_date with
      | None => None
      | Some outbound_date =>
          match optional_date (FlightSearchParams.return_date self) with
          | None => None
          | Some return_date_obj =>
              match FlightSearchRequest_init departure_location arrival_location
                      outbound_date return_date_obj
                      (FlightSearchParams.passengers self)
                      (Tools.dict_get Tools.trip_type_map
                         (FlightSearchParams.trip_type self) ROUND_TRIP)
                      (Tools.dict_get Tools.class_map
                         (FlightSearchParams.travel_class self) ECONOMY) with
              | inr request => Some request
              | inl _ => None
              end
          end
      end
  | _, _, _ => None
  end.

(** A [HotelSearchRequest] together with its [amenities] filter, the one
    field [HotelSearchParams.to_search_request] sets that the tool adapter
    leaves at its default. *)
Record HotelSearchRequestWithAmenities : Type := {
  request : HotelSearchRequest;
  request_amenities : option string
}.

(** [HotelSearchParams.to_search_request] (hotel.py 244-265); [sort_by] is
    not passed and keeps its default. *)
Definition HotelSearchParams_to_search_request {LIB : Library}
    (self : HotelSearchParams.t) : option HotelSearchRequestWithAmenities :=
  match nonempty (HotelSearchParams.location self),
        nonempty (HotelSearchParams.check_in_date self),
        nonempty (HotelSearchParams.check_out_date self) with
  | Some location, Some check_in_date, Some check_out_date =>
      match strptime_ymd check_in_date, strptime_ymd check_out_date with
      | Some check_in, Some check_out =>
          match HotelSearchRequest_init location check_in check_out
                  (HotelSearchParams.guests self) RELEVANCE
                  (HotelSearchParams.max_price self)
                  (HotelSearchParams.hotel_class self)
                  (HotelSearchParams.vacation_rental self) with
          | inr built =>
              Some {| request := built;
                      request_amenities := HotelSearchParams.amenities self |}
          | inl _ => None
          end
      | _, _ => None
      end
  | _, _, _ => None
  end.

(** [TravelSearchParams.get_flight_params] (hotel.py 293-306). *)
Definition TravelSearchParams_get_flight_params (self : TravelSearchParams.t)
  : option FlightSearchParams.t :=
  match TravelSearchParams.search_type self with
  | flight | both =>
      Some {| FlightSearchParams.departure_location :=
                TravelSearchParams.departure_location self;
              FlightSearchParams.arrival_location :=
                TravelSearchParams.arrival_location self;
              FlightSearchParams.departure_date :=
                TravelSearchParams.departure_date self;
              FlightSearchParams.return_date := TravelSearchParams.return_date self;
              FlightSearchParams.passengers := TravelSearchParams.passengers self;
              FlightSearchParams.trip_type := TravelSearchParams.trip_type self;
              FlightSearchParams.travel_class :=
                TravelSearchParams.travel_class self |}
  | hotel => None
  end.

(** [TravelSearchParams.get_hotel_params] (hotel.py 308-322). *)
Definition TravelSearchParams_get_hotel_params (self : TravelSearchParams.t)
  : option HotelSearchParams.t :=
  match TravelSearchParams.search_type self with
  | hotel | both =>
      Some {| HotelSearchParams.location := TravelSearchParams.hotel_location self;
              HotelSearchParams.check_in_date :=
                TravelSearchParams.check_in_date self;
              HotelSearchParams.check_out_date :=
                TravelSearchParams.check_out_date self;
              HotelSearchParams.guests := TravelSearchParams.guests self;
              HotelSearchParams.rooms := TravelSearchParams.rooms self;
              HotelSearchParams.hotel_class := TravelSearchParams.hotel_class self;
              HotelSearchParams.amenities := TravelSearchParams.amenities self;
              HotelSearchParams.max_price := TravelSearchParams.max_price self;
              HotelSearchParams.vacation_rental :=
                TravelSearchParams.vacation_rental self |}
  | flight => None
  end.

End ModelMethods.

(** ** The suggestion tools (app/agents/tools.py 187-217, 381-411) and the
       destination table (app/services/hotel_service.py 356-411) *)

Module SuggestionTools.
Import Py Models.

(** [str.title()], which depends on the character database like the
    methods of [StrMethods]. *)
Class TitleCase : Type := {
  str_title : string -> string
}.

(** The table of [HotelSerpAPIService.get_hotel_suggestions], in the order
    of the dict literal; a destination is (location, description).  The
    accented letters of the third city appear as the bytes of their UTF-8
    encoding. *)
Definition destination_mappings : list (string * list (string * string)) :=
  [ ("new york", [ ("New York, NY", "New York City, United States");
                   ("Manhattan, New York", "Manhattan, New York City");
                   ("Brooklyn, New York", "Brooklyn, New York City") ]);
    ("london", [ ("London, UK", "London, United Kingdom");
                 ("Central London", "Central London, UK");
                 ("Westminster, London", "Westminster, London") ]);
    ("paris", [ ("Paris, France", "Paris, France");
                ("Champs-Élysées, Paris", "Champs-Élysées, Paris");
                ("Montmartre, Paris", "Montmartre, Paris") ]);
    ("tokyo", [ ("Tokyo, Japan", "Tokyo, Japan");
                ("Shibuya, Tokyo", "Shibuya, Tokyo");
                ("Shinjuku, Tokyo", "Shinjuku, Tokyo") ]);
    ("los angeles", [ ("Los Angeles, CA", "Los Angeles, California");
                      ("Hollywood, Los Angeles", "Hollywood, Los Angeles");
                      ("Beverly Hills, CA", "Beverly Hills, California") ]);
    ("miami", [ ("Miami, FL", "Miami, Florida");
                ("South Beach, Miami", "South Beach, Miami");
                ("Miami Beach, FL", "Miami Beach, Florida") ]);
    ("las vegas", [ ("Las Vegas, NV", "Las Vegas, Nevada");
                    ("Las Vegas Strip", "Las Vegas Strip, Nevada");
                    ("Downtown Las Vegas", "Downtown Las Vegas, Nevada") ]);
    ("san francisco", [ ("San Francisco, CA", "San Francisco, California");
                        ("Union Square, San Francisco", "Union Square, San Francisco");
                        ("Fisherman's Wharf, San Francisco",
                         "Fisherman's Wharf, San Francisco") ]);
    ("chicago", [ ("Chicago, IL", "Chicago, Illinois");
                  ("Downtown Chicago", "Downtown Chicago, Illinois");
                  ("Magnificent Mile, Chicago", "Magnificent Mile, Chicago") ]);
    ("boston", [ ("Boston, MA", "Boston, Massachusetts");
                 ("Back Bay, Boston", "Back Bay, Boston");
                 ("Cambridge, MA", "Cambridge, Massachusetts") ]) ].

(** What a suggestion tool hands to [json.dumps]:
    [{"error": ..., "suggestions": []}] or
    [{"query": ..., "suggestions": [...]}]. *)
Inductive SuggestionOutput : Type :=
  | NoSuggestions (error : string)
  | Suggested (query : string) (suggestions : list (string * string)).

Section WithRuntime.
Context {STR : StrMethods} {LIB : Library} {TITLE : TitleCase}.

(** [HotelSerpAPIService.get_hotel_suggestions]
    (hotel_service.py 356-411). *)
Definition HotelSerpAPIService_get_hotel_suggestions (query : string)
  : list (string * string) :=
  let query_lower := str_lower query in
  let suggestions :=
    List.flat_map
      (fun entry : string * list (string * string) =>
         let (city, locations) := entry in
         if str_in query_lower city || str_in city query_lower
         then locations else [])
      destination_mappings in
  let suggestions :=
    match suggestions with
    | [] => [ (str_title query, "Hotels in " ++ str_title query) ]
    | _ => suggestions
    end in
  List.firstn 5 suggestions.

(** The tool [get_airport_suggestions] (tools.py 187-217). *)
Definition get_airport_suggestions (location_query : string)
  : Tools.world -> SuggestionOutput * Tools.world :=
  try_function
    (let* service := Tools.get_serpapi_service in
     match Tools.get_airport_suggestions location_query with
     | [] =>
         return_ (NoSuggestions
                    ("No airport suggestions found for: " ++ location_query))
     | suggestions => return_ (Suggested location_query suggestions)
     end)
    (fun e => NoSuggestions ("Failed to get airport suggestions: " ++ str_exn e)).

(** The tool [get_hotel_suggestions] (tools.py 381-411). *)
Definition get_hotel_suggestions (location_query : string)
  : Tools.world -> SuggestionOutput * Tools.world :=
  try_function
    (let* service := Tools.get_hotel_service in
     match HotelSerpAPIService_get_hotel_suggestions location_query with
     | [] =>
         return_ (NoSuggestions
                    ("No location suggestions found for: " ++ location_query))
     | suggestions => return_ (Suggested location_query suggestions)
     end)
    (fun e => NoSuggestions ("Failed to get hotel suggestions: " ++ str_exn e)).
End WithRuntime.

End SuggestionTools.

(** ** Request identity (app/core/dependencies.py 13-115, 215-237) *)

Module Identity.
Import Py.

(** The builtin [hash] on strings, as the running process computes it. *)
Class Hashing : Type := {
  hash : string -> Z
}.

(** [s[7:]]. *)
Definition from_7 (s : string) : string :=
  String.substring 7 (String.length s - 7) s.

(** [get_current_user_id] (lines 13-42). *)
Definition get_current_user_id {HASH : Hashing} (authorization : option string)
  : option string :=
  match nonempty authorization with
  | Some authorization =>
      if String.prefix "Bearer " authorization
      then Some ("user_" ++ decimal (hash (from_7 authorization) mod 10000))
      else None
  | None => None
  end.

(** [get_api_key] (lines 45-57). *)
Definition get_api_key (x_api_key : option string) : option string := x_api_key.

(** [key in keys] on a list of strings. *)
Definition str_in_list (key : string) (keys : list string) : bool :=
  List.existsb (String.eqb key) keys.

(** The list [valid_api_keys] of lines 83-84, from the value of the
    environment variable [VALID_API_KEYS] ([None] when it is not set). *)
Definition valid_api_keys {STR : StrMethods} (VALID_API_KEYS : option string)
  : list string :=
  List.filter truthy_str
    (List.map str_strip (str_split (default "" VALID_API_KEYS) ",")).

(** [validate_api_key] (lines 60-93). *)
Definition validate_api_key {STR : StrMethods} (VALID_API_KEYS : option string)
    (api_key : option string) : Chat.http string :=
  match nonempty api_key with
  | None => Chat.HTTPException 401 "API key required"
  | Some api_key =>
      let valid_api_keys := valid_api_keys VALID_API_KEYS in
      match valid_api_keys with
      | [] => Chat.Ok api_key
      | _ =>
          if negb (str_in_list api_key valid_api_keys)
          then Chat.HTTPException 401 "Invalid API key"
          else Chat.Ok api_key
      end
  end.

(** [get_rate_limit_key] (lines 96-115). *)
Definition get_rate_limit_key (user_id api_key : option string) : string :=
  match nonempty user_id with
  | Some user_id => "user:" ++ user_id
  | None =>
      match nonempty api_key with
      | Some api_key => "api_key:" ++ api_key
      | None => "anonymous"
      end
  end.

(** [get_authenticated_user] (lines 215-237). *)
Definition get_authenticated_user (user_id : option string) : Chat.http string :=
  match nonempty user_id with
  | Some user_id => Chat.Ok user_id
  | None => Chat.HTTPException 401 "Authentication required"
  end.

End Identity.

(** ** Histories of rate-limited calls *)

Module RateLimitHistory.
Import Dependencies.

(** A call of [is_allowed] is given as its key and the clock reading it
    takes.  The readings of [calls] are chronological from [t0] when none
    is earlier than the one before it, the first being no earlier than
    [t0]. *)
Fixpoint chronological (t0 : Q) (calls : list (string * Q)) : Prop :=
  match calls with
  | [] => True
  | (_, now) :: rest => (t0 <= now)%Q /\ chronological now rest
  end.

(** The clock readings of the calls for [key] that [is_allowed] admitted
    while serving [calls], oldest first. *)
Fixpoint admitted (self : RateLimiter) (limit window : Z) (calls : list (string * Q))
    (key : string) : list Q :=
  match calls with
  | [] => []
  | (k, now) :: rest =>
      let (allowed, self') := is_allowed self k limit window now in
      ((if allowed && String.eqb k key then [now] else [])
       ++ admitted self' limit window rest key)%list
  end.

(** The readings of [times] inside the window of a call at [now]. *)
Definition recent (window : Z) (now : Q) (times : list Q) : list Q :=
  List.filter (fun req_time => Qgtb req_time (now - inject_Z window)%Q) times.

End RateLimitHistory.

(** ** Clearing a conversation (app/agents/travel_agent.py 333-350,
       app/api/chat.py 171-207) *)

Module Conversations.
Import Py Models.

Inductive ResponseStatus : Type := SUCCESS | ERROR | PARTIAL | PENDING.

(** [BaseResponse], without its timestamp and request id. *)
Record BaseResponse : Type := {
  status : ResponseStatus;
  message : option string
}.

(** [TravelAgent.clear_conversation]: the checkpointer has no operation to
    clear a thread, the method logs the request and returns [True]. *)
Definition TravelAgent_clear_conversation (self : TravelAgent.t) (thread_id : string)
  : bool * TravelAgent.t :=
  (true, self).

(** The route [DELETE /chat/conversation/{thread_id}] (chat.py 171-207). *)
Definition clear_conversation {LIB : Library} {ENV : Chat.Environment}
    (thread_id : string) (w : Chat.world) : Chat.http BaseResponse * Chat.world :=
  match Chat.get_travel_agent w with
  | (inr agent, w') =>
      let (success, agent') := TravelAgent_clear_conversation agent thread_id in
      if success
      then (Chat.Ok {| status := SUCCESS;
                       message := Some ("Conversation " ++ thread_id
                                        ++ " cleared successfully") |},
            {| Chat._travel_agent := Some agent' |})
      else (Chat.Ok {| status := ERROR;
                       message := Some ("Failed to clear conversation "
                                        ++ thread_id) |},
            {| Chat._travel_agent := Some agent' |})
  | (inl e, w') =>
      (Chat.HTTPException 500 ("Failed to clear conversation: " ++ str_exn e), w')
  end.

End Conversations.

(** ** What the search tools have checked when they call the provider *)

Module Handover.
Import Py Models Tools.

(** The request [search_flights] builds from its arguments once every check
    of lines 56-121 has passed: the departure date parses to the outbound
    date, the passenger count is the number of adults and lies in 1..9, a
    return date is strictly after the outbound date, a request without a
    return date does not carry the token "round_trip", the two airport
    codes are non-empty, and the enum fields are the table entries of the
    tokens. *)
Definition flight_request_checked {LIB : Library} (departure_date : string)
    (passengers : Z) (trip_type travel_class : string)
    (request : FlightSearchRequest) : Prop :=
  strptime_ymd departure_date = Some (outbound_date request)
  /\ adults request = passengers
  /\ 1 <= passengers <= 9
  /\ match return_date request with
     | Some rd => date_ltb (outbound_date request) rd = true
     | None => trip_type <> "round_trip"
     end
  /\ truthy_str (departure_id request) = true
  /\ truthy_str (arrival_id request) = true
  /\ Models.trip_type request = dict_get trip_type_map trip_type ROUND_TRIP
  /\ Models.travel_class request = dict_get class_map travel_class ECONOMY.

(** The request [search_hotels] builds once the checks of lines 272-311
    have passed. *)
Definition hotel_request_checked {LIB : Library}
    (location check_in_date check_out_date : string) (guests : Z)
    (sort_by : string) (max_price : option Z) (hotel_class : option string)
    (vacation_rental : bool) (request : HotelSearchRequest) : Prop :=
  q request = location
  /\ strptime_ymd check_in_date = Some (Models.check_in_date request)
  /\ strptime_ymd check_out_date = Some (Models.check_out_date request)
  /\ date_ltb (Models.check_in_date request) (Models.check_out_date request) = true
  /\ hotel_adults request = guests
  /\ 1 <= guests <= 20
  /\ Models.max_price request = max_price
  /\ match max_price with Some mx => 0 <= mx | None => True end
  /\ Models.sort_by request = dict_get sort_map sort_by RELEVANCE
  /\ Models.hotel_class request = hotel_class
  /\ vacation_rentals request = vacation_rental.

(** The provider key can be had: a service object exists already, or the
    environment variable holds a non-empty key. *)
Definition flight_service_available (w : world) : Prop :=
  serpapi_service w <> None \/ nonempty (SERPAPI_API_KEY w) <> None.

Definition hotel_service_available (w : world) : Prop :=
  _hotel_service_instance w <> None \/ nonempty (SERPAPI_API_KEY w) <> None.

End Handover.

(** ** What the extraction pass records of a tool call *)

Module Recorded.
Import Py Models TravelAgent.

(** The constructor call of travel_agent.py 180-188 on the arguments of a
    recorded call. *)
Definition flight_params_of {LIB : Library} (tool_call : ToolCall)
  : exc FlightSearchParams.t :=
  let args := default ∅ (args tool_call) in
  FlightSearchParams.init
    (get args "departure_location") (get args "arrival_location")
    (get args "departure_date") (get args "return_date")
    (get_default args "passengers" (PInt 1))
    (get_default args "trip_type" (PStr "round_trip"))
    (get_default args "travel_class" (PStr "economy")).

(** The constructor call of travel_agent.py 216-225. *)
Definition hotel_params_of {LIB : Library} (tool_call : ToolCall)
  : exc HotelSearchParams.t :=
  let args := default ∅ (args tool_call) in
  HotelSearchParams.init
    (get args "location") (get args "check_in_date") (get args "check_out_date")
    (get_default args "guests" (PInt 2))
    (get_default args "rooms" (PInt 1))
    (get args "hotel_class") (get args "max_price")
    (get_default args "vacation_rental" (PBool false)).

(** The tool calls of a conversation, in the order the two loops of the
    extraction pass visit them. *)
Definition tool_calls_in (messages : list Message) : list ToolCall :=
  List.flat_map tool_calls_of messages.

(** The two tools whose calls the pass records. *)
Definition is_search_call (tool_call : ToolCall) : bool :=
  String.eqb (tool_name tool_call) "search_flights"
  || String.eqb (tool_name tool_call) "search_hotels".

(** The seven flight fields of [params] are those of [flight_params]. *)
Definition carries_flight_params (params : TravelSearchParams.t)
    (flight_params : FlightSearchParams.t) : Prop :=
  TravelSearchParams.departure_location params
  = FlightSearchParams.departure_location flight_params
  /\ TravelSearchParams.arrival_location params
     = FlightSearchParams.arrival_location flight_params
  /\ TravelSearchParams.departure_date params
     = FlightSearchParams.departure_date flight_params
  /\ TravelSearchParams.return_date params
     = FlightSearchParams.return_date flight_params
  /\ TravelSearchParams.passengers params
     = FlightSearchParams.passengers flight_params
  /\ TravelSearchParams.trip_type params
     = FlightSearchParams.trip_type flight_params
  /\ TravelSearchParams.travel_class params
     = FlightSearchParams.travel_class flight_params.

(** The hotel fields of [params] are those of [hotel_params]. *)
Definition carries_hotel_params (params : TravelSearchParams.t)
    (hotel_params : HotelSearchParams.t) : Prop :=
  TravelSearchParams.hotel_location params = HotelSearchParams.location hotel_params
  /\ TravelSearchParams.check_in_date params
     = HotelSearchParams.check_in_date hotel_params
  /\ TravelSearchParams.check_out_date params
     = HotelSearchParams.check_out_date hotel_params
  /\ TravelSearchParams.guests params = HotelSearchParams.guests hotel_params
  /\ TravelSearchParams.rooms params = HotelSearchParams.rooms hotel_params
  /\ TravelSearchParams.hotel_class params
     = HotelSearchParams.hotel_class hotel_params
  /\ TravelSearchParams.amenities params = HotelSearchParams.amenities hotel_params
  /\ TravelSearchParams.max_price params = HotelSearchParams.max_price hotel_params
  /\ TravelSearchParams.vacation_rental params
     = HotelSearchParams.vacation_rental hotel_params.

End Recorded.

(** ** Concrete inputs

    Data used to run the model: a provider that finds nothing, process
    states with and without a provider key, tool-call records, and agent
    runtimes with a scripted answer. *)

Module Sample.
Import Py Models.

Definition nothing_found : Tools.Provider := {|
  Tools.provider_flights := fun _ =>
    {| best_flights := []; other_flights := []; flight_error := None |};
  Tools.provider_hotels := fun _ =>
    {| properties := []; ads := []; hotel_error := None |}
|}.

Definition property (title : string) (rate : option RateInfo) : HotelProperty := {|
  property_type := "hotel";
  name := title;
  rate_per_night := rate;
  property_hotel_class := None;
  overall_rating := None;
  reviews := None;
  location_rating := None;
  amenities := []
|}.

(** A provider whose hotels carry no extracted nightly rate. *)
Definition unpriced : Tools.Provider := {|
  Tools.provider_flights := fun _ =>
    {| best_flights := []; other_flights := []; flight_error := None |};
  Tools.provider_hotels := fun _ =>
    {| properties :=
         [ property "Hotel du Nord" None;
           property "Le Meurice"
             (Some {| lowest := Some "$1,200"; extracted_lowest := None |}) ];
       ads := [];
       hotel_error := None |}
|}.

(** A provider whose hotels carry rates, one of them zero. *)
Definition priced : Tools.Provider := {|
  Tools.provider_flights := fun _ =>
    {| best_flights := []; other_flights := []; flight_error := None |};
  Tools.provider_hotels := fun _ =>
    {| properties :=
         [ property "Hotel du Nord"
             (Some {| lowest := Some "$120"; extracted_lowest := Some 120%float |});
           property "Auberge"
             (Some {| lowest := None; extracted_lowest := Some 89.5%float |});
           property "Unlisted"
             (Some {| lowest := None; extracted_lowest := Some 0%float |}) ];
       ads := [];
       hotel_error := None |}
|}.

Definition with_key : Tools.world := {|
  Tools.SERPAPI_API_KEY := Some "secret";
  Tools.serpapi_service := None;
  Tools._hotel_service_instance := None;
  Tools.flight_searches := [];
  Tools.hotel_searches := []
|}.

Definition without_key : Tools.world := {|
  Tools.SERPAPI_API_KEY := None;
  Tools.serpapi_service := None;
  Tools._hotel_service_instance := None;
  Tools.flight_searches := [];
  Tools.hotel_searches := []
|}.

Definition flights_call : TravelAgent.ToolCall := {|
  TravelAgent.tool_name := "search_flights";
  TravelAgent.args := Some
    (<["departure_location" := PStr "JFK"]>
       (<["arrival_location" := PStr "LAX"]>
          (<["departure_date" := PStr "2026-01-10"]>
             (<["return_date" := PStr "2026-01-17"]> ∅))))
|}.

Definition hotels_call : TravelAgent.ToolCall := {|
  TravelAgent.tool_name := "search_hotels";
  TravelAgent.args := Some
    (<["location" := PStr "Los Angeles"]>
       (<["check_in_date" := PStr "2026-01-10"]>
          (<["check_out_date" := PStr "2026-01-17"]> ∅)))
|}.



(** A runtime whose call fails. *)
Definition unreachable : TravelAgent.Runtime := {|
  TravelAgent.agent_invoke := fun checkpoints _ _ =>
    (inl (RuntimeFailure "Connection error."), checkpoints)
|}.

Definition agent : TravelAgent.t := {|
  TravelAgent.model_name := "gpt-4o-mini";
  TravelAgent.checkpointer := ∅
|}.

Definition builds_agent : Chat.Environment := {|
  Chat.TravelAgent_init := inr agent
|}.

Definition request (text : string) : ChatRequest.t := {|
  ChatRequest.message := text;
  ChatRequest.thread_id := Some "t-1"
|}.

End Sample.

(** * Properties *)

(** ** The builtins on ASCII text *)

Module PyFacts.
Import Py.

Example substring_test :
  str_in "departure" "your departure city" = true
  /\ str_in "to" "from a" = false
  /\ str_in "" "abc" = true.
Proof. repeat split. Qed.

Example split_on_separator :
  str_split "fly from a to b to c" "to" = ["fly from a "; " b "; " c"]
  /\ str_split "abc" "to" = ["abc"]
  /\ str_split "toto" "to" = [""; ""; ""].
Proof. repeat split. Qed.

Example split_on_whitespace :
  str_split_ws "  ab  c d " = ["ab"; "c"; "d"] /\ str_split_ws "   " = [].
Proof. repeat split. Qed.

Example strip_whitespace : str_strip "  ab c  " = "ab c".
Proof. reflexivity. Qed.

Example dates_found :
  re_findall_dates "on 2026-01-10 back 2026-01-17x, not 2026-1-3"
  = ["2026-01-10"; "2026-01-17"].
Proof. reflexivity. Qed.

Example dates_parsed :
  strptime_ymd "2024-02-29" = Some (mkdate 2024 2 29)
  /\ strptime_ymd "2026-02-29" = None
  /\ strptime_ymd "2026-1-5" = Some (mkdate 2026 1 5)
  /\ strptime_ymd "2026-12-32" = None
  /\ strptime_ymd "01/10/2026" = None
  /\ strptime_ymd "2026-01-10 " = None.
Proof. repeat split. Qed.

Example floats_rendered :
  format_0f 120%float = "120"
  /\ format_0f 89.5%float = "90"
  /\ format_0f 2.5%float = "2"
  /\ format_0f 0.25%float = "0".
Proof. vm_compute. repeat split. Qed.

(** Characters are counted, not bytes: a letter outside ASCII counts
    once. *)
Example characters_counted :
  len "jfk" = 3 /\ len "été" = 3 /\ len "日" = 1 /\ len "名古屋" = 3
  /\ len "" = 0.
Proof. repeat split. Qed.

Example case_mapping :
  str_upper "jfk" = "JFK" /\ str_lower "From JFK" = "from jfk"
  /\ str_isalpha "jfk" = true /\ str_isalpha "j f" = false /\ str_isalpha "" = false.
Proof. repeat split. Qed.

End PyFacts.

(** ** Chat orchestration *)

Module TravelAgentFacts.
Import Py Models TravelAgent.

Section WithRuntime.
Context {STR : StrMethods} {LIB : Library} {RT : Runtime}.

(** What a successful run of the [try] block has gone through. *)
Lemma process_message_try_inr self request timestamp response self' :
  process_message_try self request timestamp = (inr response, self') ->
  exists messages content params,
    fst (agent_invoke (checkpointer self) (thread_id_or_fresh request timestamp)
           (ChatRequest.message request)) = inr messages
    /\ last_ai_message messages = Some content
    /\ scan_messages None messages = inr params
    /\ response =
         {| ChatResponse.message := content;
            ChatResponse.thread_id := thread_id_or_fresh request timestamp;
            ChatResponse.flight_results := None;
            ChatResponse.hotel_results := None;
            ChatResponse.extracted_params := params;
            ChatResponse.needs_clarification := fst (scan_reply content);
            ChatResponse.missing_params := snd (scan_reply content) |}.
Proof.
  unfold process_message_try.
  destruct (agent_invoke _ _ _) as [result checkpoints]; simpl.
  destruct result as [e | messages]; simpl; [intros [=] |].
  destruct messages as [| msg rest]; [intros [=] |].
  destruct (last_ai_message (msg :: rest)) as [content |] eqn:Hlast; [| intros [=]].
  destruct (scan_messages None (msg :: rest)) as [e | params] eqn:Hscan;
    simpl; [intros [=] |].
  destruct (scan_reply content) as [needs missing] eqn:Hreply.
  intros [= <- <-].
  exists (msg :: rest), content, params.
  rewrite Hreply. repeat split; trivial.
Qed.

(** A flight call that validates turns the tag [both] back into
    [flight]. *)
Lemma flight_call_after_both existing call params' :
  tool_name call = "search_flights" ->
  TravelSearchParams.search_type existing = both ->
  tool_call_step (Some existing) call = inr (Some params') ->
  TravelSearchParams.search_type params' = flight.
Proof.
  intros Hname Hboth. unfold tool_call_step. rewrite Hname. simpl.
  destruct (FlightSearchParams.init _ _ _ _ _ _ _) as [e | fp]; simpl; [intros [=] |].
  intros [= <-]. simpl. rewrite Hboth. reflexivity.
Qed.

(** A hotel call that validates turns the tag [both] back into [hotel]. *)
Lemma hotel_call_after_both existing call params' :
  tool_name call = "search_hotels" ->
  TravelSearchParams.search_type existing = both ->
  tool_call_step (Some existing) call = inr (Some params') ->
  TravelSearchParams.search_type params' = hotel.
Proof.
  intros Hname Hboth. unfold tool_call_step. rewrite Hname. simpl.
  destruct (HotelSearchParams.init _ _ _ _ _ _ _ _) as [e | hp]; simpl; [intros [=] |].
  intros [= <-]. simpl. rewrite Hboth. reflexivity.
Qed.
End WithRuntime.

(** C1.  The extraction pass does not keep the tag [both]: on the tool-call
    sequence flight, hotel the tag is [both], and on the sequence flight,
    hotel, flight the pass ends with the tag [flight], the hotel fields of
    the second call still filled in. *)
Theorem search_type_after_flight_hotel_flight :
  (exists params,
      scan_messages None
        [AIMessage "" [Sample.flights_call; Sample.hotels_call]] = inr (Some params)
      /\ TravelSearchParams.search_type params = both)
  /\ (exists params,
        scan_messages None
          [AIMessage "" [Sample.flights_call; Sample.hotels_call; Sample.flights_call]]
        = inr (Some params)
        /\ TravelSearchParams.search_type params = flight
        /\ TravelSearchParams.hotel_location params = Some "Los Angeles").
Proof.
  split; eexists; (split; [vm_compute; reflexivity |]); simpl; auto.
Qed.




End TravelAgentFacts.

(** ** Chat endpoints *)

Module ChatFacts.
Import Py Models.

(** C3.  Whatever exception the [try] block of [process_message] ends with,
    the call returns a response: the apology sentence around the text of the
    exception, [needs_clarification] set, the thread id of the request when
    it has a non-empty one and "thread_" followed by the clock reading
    otherwise, and no flight or hotel results.  With the agent singleton
    available, [send_message] answers 200 with that response. *)
Theorem process_message_catches {STR : StrMethods} {LIB : Library}
    {RT : TravelAgent.Runtime} {ENV : Chat.Environment}
    (self self' : TravelAgent.t) (request : ChatRequest.t)
    (timestamp timestamp' : string) (e : exn) (w w' : Chat.world) :
  TravelAgent.process_message_try self request timestamp = (inl e, self') ->
  Chat.get_travel_agent w = (inr self, w') ->
  let response := fst (TravelAgent.process_message self request timestamp timestamp') in
  ChatResponse.message response
    = "I apologize, but I encountered an error while processing your request: "
      ++ str_exn e ++ ". Please try again or rephrase your question."
  /\ ChatResponse.needs_clarification response = true
  /\ ChatResponse.thread_id response
     = match ChatRequest.thread_id request with
       | Some id => if truthy_str id then id else "thread_" ++ timestamp'
       | None => "thread_" ++ timestamp'
       end
  /\ ChatResponse.flight_results response = None
  /\ ChatResponse.hotel_results response = None
  /\ fst (Chat.send_message request timestamp timestamp' w) = Chat.Ok response.
Proof.
  intros Htry Hagent response.
  assert (Hresp : response = TravelAgent.error_response request e timestamp').
  { subst response. unfold TravelAgent.process_message. rewrite Htry. reflexivity. }
  repeat split.
  - rewrite Hresp. reflexivity.
  - rewrite Hresp. reflexivity.
  - rewrite Hresp. cbn [TravelAgent.error_response ChatResponse.thread_id].
    unfold TravelAgent.thread_id_or_fresh, nonempty.
    destruct (ChatRequest.thread_id request) as [id |]; [| reflexivity].
    destruct (truthy_str id); reflexivity.
  - rewrite Hresp. reflexivity.
  - rewrite Hresp. reflexivity.
  - unfold Chat.send_message. rewrite Hagent. subst response.
    destruct (TravelAgent.process_message self request timestamp timestamp').
    reflexivity.
Qed.

Lemma process_message_catches_witness :
  fst (Chat.send_message (RT := Sample.unreachable) (ENV := Sample.builds_agent)
         (Sample.request "flights to Paris") "1.5" "2.5"
         {| Chat._travel_agent := None |})
  = Chat.Ok
      {| ChatResponse.message :=
           "I apologize, but I encountered an error while processing your request: "
           ++ "Connection error." ++ ". Please try again or rephrase your question.";
         ChatResponse.thread_id := "t-1";
         ChatResponse.flight_results := None;
         ChatResponse.hotel_results := None;
         ChatResponse.extracted_params := None;
         ChatResponse.needs_clarification := true;
         ChatResponse.missing_params := [] |}.
Proof.
  refine (eq_trans
    (proj2 (proj2 (proj2 (proj2 (proj2
       (process_message_catches (STR := ascii_str) (LIB := plain_library)
          (RT := Sample.unreachable) (ENV := Sample.builds_agent)
          Sample.agent _ (Sample.request "flights to Paris") "1.5" "2.5" _
          {| Chat._travel_agent := None |} _ _ _)))))) _);
    vm_compute; reflexivity.
Defined.

(** The exceptions the [try] block can end with: the runtime's own, the two
    raised for an answer without messages or without an assistant message,
    and the validation errors of the arguments of a recorded tool call. *)
Lemma tool_call_step_inl {LIB : Library} params call e :
  TravelAgent.tool_call_step params call = inl e ->
  exists model fields, e = ValidationError model fields.
Proof.
  unfold TravelAgent.tool_call_step.
  destruct (String.eqb _ "search_flights").
  - unfold FlightSearchParams.init.
    repeat match goal with
           | |- context [match ?x with Some _ => _ | None => _ end] => destruct x
           end; simpl; intros [=]; subst; eauto.
  - destruct (String.eqb _ "search_hotels"); [| intros [=]].
    unfold HotelSearchParams.init.
    repeat match goal with
           | |- context [match ?x with Some _ => _ | None => _ end] => destruct x
           end; simpl; intros [=]; subst; eauto.
Qed.

Lemma scan_tool_calls_inl {LIB : Library} calls : forall params e,
  TravelAgent.scan_tool_calls params calls = inl e ->
  exists model fields, e = ValidationError model fields.
Proof.
  induction calls as [| call rest IH]; intros params e; simpl; [intros [=] |].
  destruct (TravelAgent.tool_call_step params call) as [e' | params'] eqn:Hstep; simpl.
  - intros [= <-]. eapply tool_call_step_inl; eauto.
  - apply IH.
Qed.

Lemma scan_messages_inl {LIB : Library} messages : forall params e,
  TravelAgent.scan_messages params messages = inl e ->
  exists model fields, e = ValidationError model fields.
Proof.
  induction messages as [| msg rest IH]; intros params e; simpl; [intros [=] |].
  destruct (TravelAgent.scan_tool_calls params (TravelAgent.tool_calls_of msg))
    as [e' | params'] eqn:Hscan; simpl.
  - intros [= <-]. eapply scan_tool_calls_inl; eauto.
  - apply IH.
Qed.

Lemma process_message_try_inl {STR : StrMethods} {LIB : Library}
    {RT : TravelAgent.Runtime} self request timestamp e self' :
  TravelAgent.process_message_try self request timestamp = (inl e, self') ->
  fst (TravelAgent.agent_invoke (TravelAgent.checkpointer self)
         (TravelAgent.thread_id_or_fresh request timestamp)
         (ChatRequest.message request)) = inl e
  \/ e = ValueError "No response from agent"
  \/ e = ValueError "No AI response found"
  \/ exists model fields, e = ValidationError model fields.
Proof.
  unfold TravelAgent.process_message_try.
  destruct (TravelAgent.agent_invoke _ _ _) as [result checkpoints]; simpl.
  destruct result as [e0 | messages]; simpl; [intros [= <- _]; auto |].
  destruct messages as [| msg rest]; [intros [= <- _]; auto |].
  destruct (TravelAgent.last_ai_message (msg :: rest)) as [content |];
    [| intros [= <- _]; auto].
  destruct (TravelAgent.scan_messages None (msg :: rest)) as [e0 | params] eqn:Hscan;
    simpl.
  - intros [= <- _]. right. right. right. eapply scan_messages_inl; eauto.
  - destruct (TravelAgent.scan_reply content). intros [=].
Qed.

(** C7.  Two consecutive calls of [POST /chat/extract-params] with the same
    request give the same answer, and the second leaves the process state
    as the first left it.  The extractor itself,
    [FlightSearchAgent.extract_flight_params], returns a result that depends
    on the message only and leaves the agent as it was. *)
Theorem extract_params_twice {STR : StrMethods} {LIB : Library}
    {RT : TravelAgent.Runtime} {ENV : Chat.Environment}
    (request : gmap string string) (w : Chat.world) :
  (let first := Chat.extract_flight_params request w in
   let second := Chat.extract_flight_params request (snd first) in
   fst second = fst first /\ snd second = snd first)
  /\ (forall (agent agent' : FlightSearchAgent.t) (message : string),
        fst (FlightSearchAgent.extract_flight_params agent message)
        = fst (FlightSearchAgent.extract_flight_params agent' message)
        /\ snd (FlightSearchAgent.extract_flight_params agent message) = agent).
Proof.
  split; [| intros; split; reflexivity].
  cbv zeta. unfold Chat.extract_flight_params.
  set (empty := negb (truthy_str (default "" (request !! "message")))).
  destruct empty; cbn [fst snd]; [split; reflexivity |].
  unfold Chat.get_travel_agent.
  destruct w as [[agent |]]; cbn [Chat._travel_agent Chat.TravelAgent_extract_flight_params fst snd].
  - split; reflexivity.
  - destruct Chat.TravelAgent_init as [e | agent];
      cbn [Chat._travel_agent fst snd]; split; reflexivity.
Qed.

End ChatFacts.

(** ** Search tool adapters *)

Module ToolsFacts.
Import Py Models Tools.

Lemma nonempty_truthy (s : string) : truthy_str s = true -> nonempty (Some s) = Some s.
Proof. intros Hs. simpl. rewrite Hs. reflexivity. Qed.

(** Strictly after means not before-or-equal. *)
Lemma date_ltb_not_leb (a b : date) : date_ltb a b = true -> date_leb b a = false.
Proof.
  unfold date_leb, date_ltb, date_eqb. destruct a as [ya ma da], b as [yb mb db]; simpl.
  intros Hlt.
  destruct (Z.ltb_spec ya yb), (Z.eqb_spec ya yb), (Z.ltb_spec ma mb),
    (Z.eqb_spec ma mb), (Z.ltb_spec da db); simpl in Hlt; try discriminate; try lia;
    destruct (Z.ltb_spec yb ya), (Z.eqb_spec yb ya), (Z.ltb_spec mb ma),
      (Z.eqb_spec mb ma), (Z.ltb_spec db da), (Z.eqb_spec db da); simpl;
      try reflexivity; lia.
Qed.

(** A key outside a lookup table gets the default. *)
Lemma dict_get_absent {A} (d : list (string * A)) (key : string) (default : A) :
  ~ In key (List.map fst d) -> dict_get d key default = default.
Proof.
  induction d as [| [k v] rest IH]; simpl; [reflexivity |].
  intros Hout. destruct (String.eqb_spec k key) as [-> | Hne]; [tauto |].
  apply IH. tauto.
Qed.

Section WithRuntime.
Context {STR : StrMethods} {LIB : Library} {PROV : Provider}.

(** Fetching the service singleton hands nothing to the provider. *)
Lemma get_serpapi_service_searches {R} (w w' : world) (r : outcome R SerpAPIService) :
  get_serpapi_service w = (r, w') ->
  flight_searches w' = flight_searches w /\ hotel_searches w' = hotel_searches w.
Proof.
  unfold get_serpapi_service, SerpAPIService_init.
  destruct (serpapi_service w); [intros [= <- <-]; auto |].
  destruct (nonempty _); intros [= <- <-]; auto.
Qed.

(** Neither does resolving a location. *)
Lemma resolve_searches {R} (location : string) (w w' : world)
    (r : outcome R (option string)) :
  _resolve_airport_code location w = (r, w') ->
  flight_searches w' = flight_searches w /\ hotel_searches w' = hotel_searches w.
Proof.
  unfold _resolve_airport_code.
  destruct ((len location =? 3) && str_isalpha location); [intros [= <- <-]; auto |].
  unfold bind.
  destruct (get_serpapi_service w) as [[service | r0 | e] w0] eqn:Hget;
    try (intros [= <- <-]; eapply get_serpapi_service_searches; eauto).
  destruct (get_airport_suggestions location); intros [= <- <-];
    eapply get_serpapi_service_searches; eauto.
Qed.

(** C8.  A string of exactly three alphabetic characters resolves to its
    upper-cased form in every process state and leaves the state as it
    was: the service holding the city table is neither built nor asked (in
    particular the result does not depend on a provider key being set). *)
Theorem three_letter_code_resolves {R} (location : string) (w : world) :
  len location = 3 ->
  str_isalpha location = true ->
  _resolve_airport_code (R := R) location w = (Val (Some (str_upper location)), w).
Proof.
  intros Hlen Halpha. unfold _resolve_airport_code.
  rewrite Hlen, Halpha. reflexivity.
Qed.

Section Flights.
Variables departure_location arrival_location departure_date : string.
Variable passengers : Z.
Variables trip_type travel_class : string.
Variables w w1 w2 : world.
Variables departure_code arrival_code : string.
Variable outbound : date.

(** Both locations resolve and the departure date parses. *)
Hypothesis departure_resolves :
  _resolve_airport_code (R := ToolOutput) departure_location w
  = (Val (Some departure_code), w1).
Hypothesis arrival_resolves :
  _resolve_airport_code (R := ToolOutput) arrival_location w1
  = (Val (Some arrival_code), w2).
Hypothesis departure_code_truthy : truthy_str departure_code = true.
Hypothesis arrival_code_truthy : truthy_str arrival_code = true.
Hypothesis departure_date_parses : strptime_ymd departure_date = Some outbound.

Lemma resolved_world_searches :
  flight_searches w2 = flight_searches w /\ hotel_searches w2 = hotel_searches w.
Proof.
  destruct (resolve_searches _ _ _ _ departure_resolves) as [Hf1 Hh1].
  destruct (resolve_searches _ _ _ _ arrival_resolves) as [Hf2 Hh2].
  split; congruence.
Qed.

(** The request stage once the return date has been looked at. *)
Lemma flight_search_request_unfold (return_date : option string) :
  flight_search_request departure_location arrival_location departure_date
    return_date passengers trip_type travel_class w
  = bind
      (match nonempty return_date with
       | Some text =>
           match strptime_ymd text with
           | Some return_date_obj =>
               if date_leb return_date_obj outbound
               then return_ (ErrorPayload "Return date must be after departure date.")
               else ret (Some return_date_obj)
           | None =>
               return_ (ErrorPayload
                 ("Invalid return date format: " ++ text
                  ++ ". Please use YYYY-MM-DD format."))
           end
       | None => ret None
       end)
      (fun return_date_obj =>
         if String.eqb trip_type "round_trip" && negb (truthy_opt return_date_obj)
         then return_ (ErrorPayload "Return date is required for round trip flights.")
         else
           match FlightSearchRequest_init departure_code arrival_code outbound
                   return_date_obj passengers
                   (dict_get trip_type_map trip_type ROUND_TRIP)
                   (dict_get class_map travel_class ECONOMY) with
           | inr search_request => ret search_request
           | inl e => raise e
           end)
      w2.
Proof.
  unfold flight_search_request.
  unfold bind at 1. rewrite departure_resolves.
  unfold bind at 1. rewrite arrival_resolves.
  rewrite (nonempty_truthy _ departure_code_truthy).
  rewrite (nonempty_truthy _ arrival_code_truthy).
  rewrite departure_date_parses. reflexivity.
Qed.

(** With valid passengers, the constructor accepts any return date. *)
Lemma FlightSearchRequest_init_ok (return_date_obj : option date)
    (t : TripType) (c : TravelClass) :
  1 <= passengers <= 9 ->
  FlightSearchRequest_init departure_code arrival_code outbound return_date_obj
    passengers t c
  = inr {| departure_id := departure_code; arrival_id := arrival_code;
           outbound_date := outbound; return_date := return_date_obj;
           adults := passengers; Models.trip_type := t;
           Models.travel_class := c |}.
Proof.
  intros Hp. unfold FlightSearchRequest_init. simpl.
  destruct (Z.leb_spec 1 passengers), (Z.leb_spec passengers 9); try lia.
  reflexivity.
Qed.

(** C4, amended.  With both locations resolved and the departure date
    parsed: (a) a supplied return date that parses and is strictly after
    the outbound date gives a request, provided the passenger count is
    between 1 and 9; (b) a supplied return date that parses and is not
    after the outbound date gives the error "Return date must be after
    departure date."; (c) trip type "round_trip" without a return date
    gives the error "Return date is required for round trip flights.".
    In (b) and (c) nothing is handed to the provider. *)
Theorem return_date_rules (return_date : option string) :
  (forall text rd,
      nonempty return_date = Some text ->
      strptime_ymd text = Some rd ->
      date_ltb outbound rd = true ->
      1 <= passengers <= 9 ->
      flight_search_request departure_location arrival_location departure_date
        return_date passengers trip_type travel_class w
      = (Val {| departure_id := departure_code; arrival_id := arrival_code;
                outbound_date := outbound; return_date := Some rd;
                adults := passengers;
                Models.trip_type := dict_get trip_type_map trip_type ROUND_TRIP;
                Models.travel_class :=
                  dict_get class_map travel_class ECONOMY |},
         w2))
  /\ (forall text rd,
        nonempty return_date = Some text ->
        strptime_ymd text = Some rd ->
        date_leb rd outbound = true ->
        search_flights departure_location arrival_location departure_date
          return_date passengers trip_type travel_class w
        = (ErrorPayload "Return date must be after departure date.", w2)
        /\ flight_searches w2 = flight_searches w)
  /\ (trip_type = "round_trip" ->
      nonempty return_date = None ->
      search_flights departure_location arrival_location departure_date
        return_date passengers trip_type travel_class w
      = (ErrorPayload "Return date is required for round trip flights.", w2)
      /\ flight_searches w2 = flight_searches w).
Proof.
  split; [| split].
  - intros text rd Hsupplied Hparse Hafter Hp.
    rewrite flight_search_request_unfold, Hsupplied, Hparse.
    rewrite (date_ltb_not_leb _ _ Hafter).
    unfold bind, ret. cbn [truthy_opt negb]. rewrite andb_false_r.
    rewrite FlightSearchRequest_init_ok by assumption. reflexivity.
  - intros text rd Hsupplied Hparse Hnot_after.
    split; [| apply resolved_world_searches].
    unfold search_flights, try_function. unfold bind at 1.
    rewrite flight_search_request_unfold, Hsupplied, Hparse, Hnot_after.
    reflexivity.
  - intros Hround Hmissing.
    split; [| apply resolved_world_searches].
    unfold search_flights, try_function. unfold bind at 1.
    rewrite flight_search_request_unfold, Hmissing.
    unfold bind, ret. rewrite Hround. reflexivity.
Qed.

(** Once the request is built and the service is at hand, the answer of the
    tool is the provider's: its error, or the summary of its results. *)
Lemma search_flights_after_request (return_date : option string)
    (search_request : FlightSearchRequest) (service : SerpAPIService) (w3 : world) :
  flight_search_request departure_location arrival_location departure_date
    return_date passengers trip_type travel_class w = (Val search_request, w2) ->
  get_serpapi_service (R := ToolOutput) w2 = (Val service, w3) ->
  search_flights departure_location arrival_location departure_date
    return_date passengers trip_type travel_class w
  = (match nonempty (flight_error (provider_flights search_request)) with
     | Some error => ErrorPayload error
     | None =>
         FlightPayload (departure_id search_request) (arrival_id search_request)
           (provider_flights search_request)
     end,
     {| SERPAPI_API_KEY := SERPAPI_API_KEY w3;
        serpapi_service := serpapi_service w3;
        _hotel_service_instance := _hotel_service_instance w3;
        flight_searches := search_request :: flight_searches w3;
        hotel_searches := hotel_searches w3 |}).
Proof.
  intros Hrequest Hservice.
  unfold search_flights, try_function.
  unfold bind at 1. rewrite Hrequest.
  unfold bind at 1. rewrite Hservice.
  unfold bind, SerpAPIService_search_flights.
  destruct (nonempty (flight_error (provider_flights search_request))); reflexivity.
Qed.

(** C5.  With every other input valid (locations resolved, dates parsed
    and ordered, 1 to 9 passengers, a return date present when the trip
    type is "round_trip"), the request is built whatever the trip-type and
    travel-class tokens are: it carries [ROUND_TRIP] for a trip-type token
    outside the trip-type table and [ECONOMY] for a travel-class token
    outside the class table, and with the service at hand the only error
    the tool can return is the one the provider reports for that request. *)
Theorem unknown_tokens_default (return_date : option string)
    (return_date_obj : option date) :
  return_date_reads outbound return_date return_date_obj ->
  1 <= passengers <= 9 ->
  (trip_type = "round_trip" -> return_date_obj <> None) ->
  exists search_request,
    flight_search_request departure_location arrival_location departure_date
      return_date passengers trip_type travel_class w
    = (Val search_request, w2)
    /\ Models.return_date search_request = return_date_obj
    /\ (~ In trip_type (List.map fst trip_type_map) ->
        Models.trip_type search_request = ROUND_TRIP)
    /\ (~ In travel_class (List.map fst class_map) ->
        Models.travel_class search_request = ECONOMY)
    /\ (forall service w3,
          get_serpapi_service (R := ToolOutput) w2 = (Val service, w3) ->
          fst (search_flights departure_location arrival_location departure_date
                 return_date passengers trip_type travel_class w)
          = match nonempty (flight_error (provider_flights search_request)) with
            | Some error => ErrorPayload error
            | None =>
                FlightPayload departure_code arrival_code
                  (provider_flights search_request)
            end).
Proof.
  intros Hreads Hp Hround.
  assert (Hgate : String.eqb trip_type "round_trip" && negb (truthy_opt return_date_obj)
                  = false).
  { destruct (String.eqb_spec trip_type "round_trip") as [Heq | Hne]; [| reflexivity].
    destruct return_date_obj; [reflexivity | exfalso; apply (Hround Heq); reflexivity]. }
  set (built := {| departure_id := departure_code; arrival_id := arrival_code;
                   outbound_date := outbound; return_date := return_date_obj;
                   adults := passengers;
                   Models.trip_type := dict_get trip_type_map trip_type ROUND_TRIP;
                   Models.travel_class := dict_get class_map travel_class ECONOMY |}).
  assert (Hbuilt : flight_search_request departure_location arrival_location
                     departure_date return_date passengers trip_type travel_class w
                   = (Val built, w2)).
  { rewrite flight_search_request_unfold.
    unfold return_date_reads in Hreads.
    destruct (nonempty return_date) as [text |].
    - destruct Hreads as (rd & Hparse & Hafter & Hobj).
      rewrite Hparse, (date_ltb_not_leb _ _ Hafter).
      unfold bind, ret. rewrite <- Hobj, Hgate.
      rewrite FlightSearchRequest_init_ok by assumption. reflexivity.
    - unfold bind, ret. rewrite <- Hreads, Hgate.
      rewrite FlightSearchRequest_init_ok by assumption. reflexivity. }
  exists built.
  split; [exact Hbuilt |]. split; [reflexivity |].
  split; [intros Hout; apply dict_get_absent, Hout |].
  split; [intros Hout; apply dict_get_absent, Hout |].
  intros service w3 Hservice.
  rewrite (search_flights_after_request _ _ _ _ Hbuilt Hservice). reflexivity.
Qed.
End Flights.
End WithRuntime.

Lemma three_letter_code_resolves_witness :
  _resolve_airport_code (R := ToolOutput) "jfk" Sample.without_key
  = (Val (Some "JFK"), Sample.without_key).
Proof.
  exact (three_letter_code_resolves (STR := ascii_str) (R := ToolOutput)
           "jfk" Sample.without_key eq_refl eq_refl).
Defined.

(** The three-letter rule comes first: "new" is a substring of a city of
    the table, whose first airport is JFK, and still resolves to "NEW". *)
Example three_letters_before_table :
  fst (_resolve_airport_code (R := ToolOutput) "new" Sample.with_key) = Val (Some "NEW")
  /\ List.map fst (get_airport_suggestions "new") = ["JFK"; "LGA"; "EWR"]
  /\ fst (_resolve_airport_code (R := ToolOutput) "new york city" Sample.with_key)
     = Val (Some "JFK").
Proof. vm_compute. repeat split. Qed.

(** C4, as stated, fails: with resolved locations, parsed dates and a return
    date after the outbound date, ten passengers make the construction of
    the request fail. *)
Lemma ten_passengers_rejected :
  fst (_resolve_airport_code (R := ToolOutput) "JFK" Sample.with_key) = Val (Some "JFK")
  /\ fst (_resolve_airport_code (R := ToolOutput) "LAX" Sample.with_key) = Val (Some "LAX")
  /\ strptime_ymd "2026-01-10" = Some (mkdate 2026 1 10)
  /\ strptime_ymd "2026-01-17" = Some (mkdate 2026 1 17)
  /\ date_ltb (mkdate 2026 1 10) (mkdate 2026 1 17) = true
  /\ fst (flight_search_request "JFK" "LAX" "2026-01-10"
            (Some "2026-01-17") 10 "round_trip" "economy" Sample.with_key)
     = Raise (ValidationError "FlightSearchRequest" ["adults"])
  /\ fst (search_flights (PROV := Sample.nothing_found) "JFK" "LAX" "2026-01-10"
            (Some "2026-01-17") 10 "round_trip" "economy" Sample.with_key)
     = ErrorPayload
         ("Flight search failed: "
          ++ str_exn (ValidationError "FlightSearchRequest" ["adults"])).
Proof. vm_compute. repeat split. Qed.

Lemma return_date_rules_witness :
  fst (flight_search_request "JFK" "LAX" "2026-01-10"
         (Some "2026-01-17") 2 "round_trip" "economy" Sample.with_key)
  = Val {| departure_id := "JFK"; arrival_id := "LAX";
           outbound_date := mkdate 2026 1 10;
           return_date := Some (mkdate 2026 1 17);
           adults := 2; trip_type := ROUND_TRIP; travel_class := ECONOMY |}
  /\ fst (search_flights (PROV := Sample.nothing_found) "JFK" "LAX" "2026-01-10"
            (Some "2026-01-10") 2 "round_trip" "economy" Sample.with_key)
     = ErrorPayload "Return date must be after departure date."
  /\ fst (search_flights (PROV := Sample.nothing_found) "JFK" "LAX" "2026-01-10"
            None 1 "round_trip" "economy" Sample.with_key)
     = ErrorPayload "Return date is required for round trip flights.".
Proof.
  pose proof (fun passengers =>
    return_date_rules (STR := ascii_str) (LIB := plain_library)
      (PROV := Sample.nothing_found)
      "JFK" "LAX" "2026-01-10" passengers "round_trip" "economy"
      Sample.with_key Sample.with_key Sample.with_key "JFK" "LAX" (mkdate 2026 1 10)
      eq_refl eq_refl eq_refl eq_refl eq_refl) as rules.
  split; [| split].
  - destruct (rules 2 (Some "2026-01-17")) as (built & _ & _).
    rewrite (built "2026-01-17" (mkdate 2026 1 17) eq_refl eq_refl eq_refl
               ltac:(lia)).
    reflexivity.
  - destruct (rules 2 (Some "2026-01-10")) as (_ & not_after & _).
    rewrite (proj1 (not_after "2026-01-10" (mkdate 2026 1 10) eq_refl eq_refl eq_refl)).
    reflexivity.
  - destruct (rules 1 None) as (_ & _ & required).
    rewrite (proj1 (required eq_refl eq_refl)).
    reflexivity.
Defined.

Lemma unknown_tokens_default_witness :
  exists search_request,
    flight_search_request "JFK" "LAX" "2026-01-10"
      None 1 "roundtrip" "coach" Sample.with_key
    = (Val search_request, Sample.with_key)
    /\ Models.return_date search_request = None
    /\ Models.trip_type search_request = ROUND_TRIP
    /\ Models.travel_class search_request = ECONOMY
    /\ fst (search_flights (PROV := Sample.nothing_found) "JFK" "LAX" "2026-01-10"
              None 1 "roundtrip" "coach" Sample.with_key)
       = FlightPayload "JFK" "LAX" (@provider_flights Sample.nothing_found search_request).
Proof.
  assert (Hround : "roundtrip" = "round_trip" -> @None date <> None)
    by discriminate.
  destruct (unknown_tokens_default (STR := ascii_str) (LIB := plain_library)
              (PROV := Sample.nothing_found)
              "JFK" "LAX" "2026-01-10" 1 "roundtrip" "coach"
              Sample.with_key Sample.with_key Sample.with_key "JFK" "LAX"
              (mkdate 2026 1 10) eq_refl eq_refl eq_refl eq_refl eq_refl
              None None eq_refl ltac:(lia) Hround)
    as (search_request & Hbuilt & Hreturn & Htrip & Hclass & Hanswer).
  exists search_request.
  split; [exact Hbuilt |]. split; [exact Hreturn |].
  split; [apply Htrip; vm_compute; intuition discriminate |].
  split; [apply Hclass; vm_compute; intuition discriminate |].
  exact (Hanswer {| api_key := "secret" |}
           (snd (get_serpapi_service (R := ToolOutput) Sample.with_key)) eq_refl).
Defined.

Section Hotels.
Context {STR : StrMethods} {LIB : Library} {PROV : Provider}.
Variables location check_in_date check_out_date : string.
Variables guests rooms : Z.
Variable sort_by : string.
Variable max_price : option Z.
Variable hotel_class : option string.
Variable vacation_rental : bool.

(** C6.  When both dates parse and the check-out date is not after the
    check-in date, [search_hotels] returns the error "Check-out date must
    be after check-in date." and leaves the process state untouched: no
    service is built and nothing is handed to the provider. *)
Theorem check_out_not_after_check_in (w : world) (check_in check_out : date) :
  strptime_ymd check_in_date = Some check_in ->
  strptime_ymd check_out_date = Some check_out ->
  date_leb check_out check_in = true ->
  search_hotels location check_in_date check_out_date guests rooms sort_by
    max_price hotel_class vacation_rental w
  = (ErrorPayload "Check-out date must be after check-in date.", w)
  /\ hotel_searches
       (snd (search_hotels location check_in_date check_out_date guests rooms
               sort_by max_price hotel_class vacation_rental w))
     = hotel_searches w.
Proof.
  intros Hin Hout Hle.
  assert (Hrun : search_hotels location check_in_date check_out_date guests rooms
                   sort_by max_price hotel_class vacation_rental w
                 = (ErrorPayload "Check-out date must be after check-in date.", w)).
  { unfold search_hotels, try_function, bind, hotel_search_request.
    rewrite Hin, Hout, Hle. reflexivity. }
  rewrite Hrun. split; reflexivity.
Qed.

(** Properties without a listed rate contribute no price. *)
Lemma collect_prices_none (props : list HotelProperty) :
  (forall prop, In prop props ->
     forall rate, rate_per_night prop = Some rate -> extracted_lowest rate = None) ->
  collect_prices props = [].
Proof.
  induction props as [| prop rest IH]; intros Hnone; [reflexivity |].
  simpl. unfold listed_rate.
  destruct (rate_per_night prop) as [rate |] eqn:Hrate.
  - rewrite (Hnone prop (or_introl eq_refl) rate Hrate).
    apply IH. intros p Hp. apply Hnone. right. exact Hp.
  - apply IH. intros p Hp. apply Hnone. right. exact Hp.
Qed.

(** The price-range block never raises: [min] and [max] are only reached
    with a non-empty list. *)
Lemma aggregate_price_range_total (props : list HotelProperty) :
  exists range, aggregate_price_range props = inr range.
Proof.
  unfold aggregate_price_range.
  destruct (collect_prices props) as [| x rest]; simpl; eauto.
Qed.

(** C9.  When [search_hotels] reaches the provider and no property of the
    answer carries an extracted lowest nightly rate (in particular when the
    answer has no property at all), the tool returns the provider's error if
    the answer has one, and otherwise the success summary with [price_range]
    left at [None]; and whatever the properties are, the price-range block
    raises nothing. *)
Theorem no_rates_no_price_range (w w1 w2 : world)
    (search_request : HotelSearchRequest) (service : HotelSerpAPIService) :
  hotel_search_request location check_in_date check_out_date guests rooms sort_by
    max_price hotel_class vacation_rental w = (Val search_request, w1) ->
  get_hotel_service (R := ToolOutput) w1 = (Val service, w2) ->
  (forall prop, In prop (properties (provider_hotels search_request)) ->
     forall rate, rate_per_night prop = Some rate -> extracted_lowest rate = None) ->
  let response := provider_hotels search_request in
  fst (search_hotels location check_in_date check_out_date guests rooms sort_by
         max_price hotel_class vacation_rental w)
  = match nonempty (hotel_error response) with
    | Some error => ErrorPayload error
    | None =>
        HotelPayload
          {| properties_count := Z.of_nat (List.length (properties response));
             ads_count := Z.of_nat (List.length (ads response));
             price_range := None;
             summary_properties :=
               List.map summarise_property (List.firstn 3 (properties response)) |}
    end
  /\ (forall props, exists range, aggregate_price_range props = inr range).
Proof.
  intros Hrequest Hservice Hnone response.
  split; [| apply aggregate_price_range_total].
  unfold search_hotels, try_function.
  unfold bind at 1. rewrite Hrequest.
  unfold bind at 1. rewrite Hservice.
  unfold bind, HotelSerpAPIService_search_hotels. fold response.
  destruct (nonempty (hotel_error response)); [reflexivity |].
  unfold aggregate_price_range. subst response.
  rewrite (collect_prices_none _ Hnone). reflexivity.
Qed.
End Hotels.

Lemma check_out_not_after_check_in_witness :
  search_hotels (PROV := Sample.nothing_found) "Paris" "2026-02-01" "2026-01-30"
    2 1 "relevance" None None false Sample.with_key
  = (ErrorPayload "Check-out date must be after check-in date.", Sample.with_key).
Proof.
  exact (proj1 (check_out_not_after_check_in (LIB := plain_library)
                  (PROV := Sample.nothing_found)
                  "Paris" "2026-02-01" "2026-01-30" 2 1 "relevance" None None false
                  Sample.with_key (mkdate 2026 2 1) (mkdate 2026 1 30)
                  eq_refl eq_refl eq_refl)).
Defined.

Lemma no_rates_no_price_range_witness :
  exists summary,
    fst (search_hotels (PROV := Sample.unpriced) "Paris" "2026-02-01" "2026-02-03"
           2 1 "relevance" None None false Sample.with_key) = HotelPayload summary
    /\ properties_count summary = 2
    /\ price_range summary = None.
Proof.
  eexists. split.
  - exact (proj1 (no_rates_no_price_range (LIB := plain_library)
              (PROV := Sample.unpriced)
              "Paris" "2026-02-01" "2026-02-03" 2 1 "relevance" None None false
              Sample.with_key Sample.with_key
              (snd (get_hotel_service (R := ToolOutput) Sample.with_key))
              {| q := "Paris"; check_in_date := mkdate 2026 2 1;
                 check_out_date := mkdate 2026 2 3; hotel_adults := 2;
                 Models.sort_by := RELEVANCE; Models.max_price := None;
                 Models.hotel_class := None; vacation_rentals := false |}
              {| hotel_api_key := "secret" |}
              eq_refl eq_refl
              ltac:(vm_compute; intros prop [<- | [<- | []]] rate [= <-]; reflexivity))).
  - split; reflexivity.
Defined.

(** With rates listed, the range is formed from the smallest and the
    largest truthy rate; a rate of zero is skipped like a missing one. *)
Example price_range_of_listed_rates :
  exists summary,
    fst (search_hotels (PROV := Sample.priced) "Paris" "2026-02-01" "2026-02-03"
           2 1 "relevance" None None false Sample.with_key) = HotelPayload summary
    /\ price_range summary = Some "$90-$120"
    /\ List.map price_per_night (summary_properties summary)
       = [Some "$120"; Some "$90"; None].
Proof. eexists. vm_compute. repeat split. Qed.

End ToolsFacts.

(** ** Rate limiting *)

Module DependenciesFacts.
Import Dependencies.

Lemma Qgtb_lt (a b : Q) : Qgtb a b = true <-> (b < a)%Q.
Proof.
  unfold Qgtb. rewrite negb_true_iff.
  split.
  - intros Hb. apply Qnot_le_lt. intros Hle.
    apply Qle_bool_iff in Hle. congruence.
  - intros Hlt. destruct (Qle_bool a b) eqn:Hb; [| reflexivity].
    apply Qle_bool_iff in Hb. exfalso. apply (Qlt_not_le _ _ Hlt Hb).
Qed.


Lemma stored_insert (m : gmap string (list Q)) (key : string) (l : list Q) :
  stored {| requests := <[key := l]> m |} key = l.
Proof. unfold stored. cbn [requests]. rewrite lookup_insert_eq. reflexivity. Qed.

Lemma stored_insert_ne (m : gmap string (list Q)) (key other : string) (l : list Q) :
  other <> key ->
  stored {| requests := <[key := l]> m |} other = stored {| requests := m |} other.
Proof.
  intros Hne. unfold stored. cbn [requests].
  rewrite lookup_insert_ne by congruence. reflexivity.
Qed.

Lemma is_allowed_unfold (self : RateLimiter) key limit window now :
  is_allowed self key limit window now
  = if (Z.of_nat (List.length (pruned self key window now)) >=? limit)%Z
    then (false, {| requests := <[key := pruned self key window now]> (requests self) |})
    else (true, {| requests :=
                     <[key := (pruned self key window now ++ [now])%list]> (requests self) |}).
Proof.
  unfold is_allowed, pruned, stored.
  destruct (requests self !! key); reflexivity.
Qed.


Lemma pruned_length (self : RateLimiter) key window now :
  (List.length (pruned self key window now) <= List.length (stored self key))%nat.
Proof. unfold pruned. apply List.filter_length_le. Qed.




(** From an empty ledger, with a limit that is not negative, no sequence of
    calls makes any stored list longer than the limit. *)
Lemma serve_bounded (limit window : Z) (calls : list (string * Q)) :
  (0 <= limit)%Z ->
  forall self : RateLimiter,
    (forall key, (Z.of_nat (List.length (stored self key)) <= limit)%Z) ->
    forall key,
      (Z.of_nat (List.length (stored (serve self limit window calls) key)) <= limit)%Z.
Proof.
  intros Hlimit.
  induction calls as [| [k now] rest IH]; intros self Hinv key; simpl; [apply Hinv |].
  apply IH. clear IH key. intros key.
  rewrite is_allowed_unfold.
  pose proof (pruned_length self k window now) as Hlen.
  pose proof (Hinv k) as Hk.
  destruct self as [m].
  destruct (Z.geb_spec (Z.of_nat (List.length (pruned {| requests := m |} k window now)))
              limit); cbn [snd requests];
    (destruct (decide (key = k)) as [-> | Hne];
     [rewrite stored_insert | rewrite stored_insert_ne by assumption; apply Hinv]).
  - lia.
  - rewrite List.length_app. simpl. lia.
Qed.

End DependenciesFacts.

(** ** What the search tools hand to the provider *)

Module HandoverFacts.
Import Py Models Tools Handover.

(** Not before-or-equal means strictly after. *)
Lemma date_leb_false_ltb (a b : date) : date_leb b a = false -> date_ltb a b = true.
Proof.
  unfold date_leb, date_ltb, date_eqb. destruct a as [ya ma da], b as [yb mb db]; simpl.
  intros Hle.
  destruct (Z.ltb_spec yb ya), (Z.eqb_spec yb ya), (Z.ltb_spec mb ma),
    (Z.eqb_spec mb ma), (Z.ltb_spec db da), (Z.eqb_spec db da);
    simpl in Hle; try discriminate; try lia;
    destruct (Z.ltb_spec ya yb), (Z.eqb_spec ya yb), (Z.ltb_spec ma mb),
      (Z.eqb_spec ma mb), (Z.ltb_spec da db); simpl; try reflexivity; lia.
Qed.

Lemma nonempty_Some (o : option string) (s : string) :
  nonempty o = Some s -> o = Some s /\ truthy_str s = true.
Proof.
  destruct o as [s' |]; simpl; [| discriminate].
  destruct (truthy_str s') eqn:Hs; intros [= <-]. auto.
Qed.

(** What the constructors accept. *)
Lemma FlightSearchRequest_init_inr departure_id arrival_id outbound return_date
    adults trip_type travel_class request :
  FlightSearchRequest_init departure_id arrival_id outbound return_date adults
    trip_type travel_class = inr request ->
  request = {| Models.departure_id := departure_id; Models.arrival_id := arrival_id;
               outbound_date := outbound; Models.return_date := return_date;
               Models.adults := adults; Models.trip_type := trip_type;
               Models.travel_class := travel_class |}
  /\ 1 <= adults <= 9.
Proof.
  unfold FlightSearchRequest_init. simpl.
  destruct (Z.leb_spec 1 adults), (Z.leb_spec adults 9); simpl;
    intros [=]; subst; split; trivial; lia.
Qed.

Lemma HotelSearchRequest_init_inr q check_in check_out adults sort_by max_price
    hotel_class vacation_rentals request :
  HotelSearchRequest_init q check_in check_out adults sort_by max_price hotel_class
    vacation_rentals = inr request ->
  request = {| Models.q := q; Models.check_in_date := check_in;
               Models.check_out_date := check_out; hotel_adults := adults;
               Models.sort_by := sort_by; Models.max_price := max_price;
               Models.hotel_class := hotel_class;
               Models.vacation_rentals := vacation_rentals |}
  /\ date_ltb check_in check_out = true
  /\ 1 <= adults <= 20
  /\ match max_price with Some mx => 0 <= mx | None => True end.
Proof.
  unfold HotelSearchRequest_init, validate_check_out_date, validate_price_range.
  destruct (date_leb check_out check_in) eqn:Hdates; [intros [=] |].
  destruct (Z.leb_spec 1 adults), (Z.leb_spec adults 20); simpl;
    try (destruct max_price as [mx |]; [destruct (0 <=? mx) |]; intros [=]; fail).
  destruct max_price as [mx |]; [destruct (Z.leb_spec 0 mx) |]; simpl;
    intros [=]; subst;
    (split; [reflexivity |]); (split; [apply date_leb_false_ltb; assumption |]);
    (split; [lia | trivial]).
Qed.

Section WithRuntime.
Context {STR : StrMethods} {LIB : Library} {PROV : Provider}.

(** Fetching the hotel service hands nothing to the provider. *)
Lemma get_hotel_service_searches {R} (w w' : world) (r : outcome R HotelSerpAPIService) :
  get_hotel_service w = (r, w') ->
  flight_searches w' = flight_searches w /\ hotel_searches w' = hotel_searches w.
Proof.
  unfold get_hotel_service, HotelSerpAPIService_init.
  destruct (_hotel_service_instance w); [intros [= <- <-]; auto |].
  destruct (nonempty _); intros [= <- <-]; auto.
Qed.

(** The request stage of [search_flights] hands nothing to the provider,
    however it ends. *)
Lemma flight_search_request_searches departure_location arrival_location
    departure_date return_date passengers trip_type travel_class w r w' :
  flight_search_request departure_location arrival_location departure_date
    return_date passengers trip_type travel_class w = (r, w') ->
  flight_searches w' = flight_searches w /\ hotel_searches w' = hotel_searches w.
Proof.
  unfold flight_search_request. unfold bind at 1.
  destruct (_resolve_airport_code departure_location w) as [[dco | r0 | e] w1] eqn:Hdep;
    destruct (ToolsFacts.resolve_searches _ _ _ _ Hdep) as [Hf1 Hh1];
    try (intros [= <- <-]; auto; fail).
  unfold bind at 1.
  destruct (_resolve_airport_code arrival_location w1) as [[aco | r0 | e] w2] eqn:Harr;
    destruct (ToolsFacts.resolve_searches _ _ _ _ Harr) as [Hf2 Hh2];
    try (intros [= <- <-]; split; congruence).
  assert (Hw : w' = w2 -> flight_searches w' = flight_searches w
                          /\ hotel_searches w' = hotel_searches w)
    by (intros ->; split; congruence).
  intros Hrun. apply Hw. clear Hw. revert Hrun.
  destruct (nonempty dco); [| intros [= _ <-]; reflexivity].
  destruct (nonempty aco); [| intros [= _ <-]; reflexivity].
  destruct (strptime_ymd departure_date); [| intros [= _ <-]; reflexivity].
  unfold bind, ret, return_, raise.
  destruct (nonempty return_date) as [text |].
  - destruct (strptime_ymd text); [| intros [= _ <-]; reflexivity].
    destruct (date_leb _ _); [intros [= _ <-]; reflexivity |].
    destruct (_ && _); [intros [= _ <-]; reflexivity |].
    destruct (FlightSearchRequest_init _ _ _ _ _ _ _); intros [= _ <-]; reflexivity.
  - destruct (_ && _); [intros [= _ <-]; reflexivity |].
    destruct (FlightSearchRequest_init _ _ _ _ _ _ _); intros [= _ <-]; reflexivity.
Qed.

(** When the request stage completes, every check has passed. *)
Lemma flight_search_request_checked departure_location arrival_location
    departure_date return_date passengers trip_type travel_class w request w' :
  flight_search_request departure_location arrival_location departure_date
    return_date passengers trip_type travel_class w = (Val request, w') ->
  flight_request_checked departure_date passengers trip_type travel_class request.
Proof.
  unfold flight_search_request. unfold bind at 1.
  destruct (_resolve_airport_code departure_location w) as [[dco | r0 | e] w1];
    try (intros [=]; fail).
  unfold bind at 1.
  destruct (_resolve_airport_code arrival_location w1) as [[aco | r0 | e] w2];
    try (intros [=]; fail).
  destruct (nonempty dco) as [dc |] eqn:Hdc; [| intros [=]].
  destruct (nonempty aco) as [ac |] eqn:Hac; [| intros [=]].
  apply nonempty_Some in Hdc, Hac. destruct Hdc as [_ Hdc], Hac as [_ Hac].
  destruct (strptime_ymd departure_date) as [outbound |] eqn:Hdate; [| intros [=]].
  unfold bind, ret, return_, raise.
  destruct (nonempty return_date) as [text |].
  - destruct (strptime_ymd text) as [rd |]; [| intros [=]].
    destruct (date_leb rd outbound) eqn:Hle; [intros [=] |].
    cbn [truthy_opt negb]. rewrite andb_false_r.
    destruct (FlightSearchRequest_init _ _ _ _ _ _ _) as [e | built] eqn:Hinit;
      intros [= <- _].
    apply FlightSearchRequest_init_inr in Hinit. destruct Hinit as [-> Hp].
    unfold flight_request_checked. cbn.
    repeat split; try assumption; try lia.
    apply date_leb_false_ltb. assumption.
  - cbn [truthy_opt negb]. rewrite andb_true_r.
    destruct (String.eqb_spec trip_type "round_trip") as [Heq | Hne]; [intros [=] |].
    destruct (FlightSearchRequest_init _ _ _ _ _ _ _) as [e | built] eqn:Hinit;
      intros [= <- _].
    apply FlightSearchRequest_init_inr in Hinit. destruct Hinit as [-> Hp].
    unfold flight_request_checked. cbn.
    repeat split; try assumption; lia.
Qed.

(** The helpers never leave the calling tool by a [return] of their own. *)
Lemma get_serpapi_service_no_return {R} (w w' : world) (r : R) :
  get_serpapi_service w <> (Return r, w').
Proof.
  unfold get_serpapi_service, SerpAPIService_init.
  destruct (serpapi_service w); [discriminate |].
  destruct (nonempty _); discriminate.
Qed.

Lemma get_hotel_service_no_return {R} (w w' : world) (r : R) :
  get_hotel_service w <> (Return r, w').
Proof.
  unfold get_hotel_service, HotelSerpAPIService_init.
  destruct (_hotel_service_instance w); [discriminate |].
  destruct (nonempty _); discriminate.
Qed.

Lemma resolve_no_return {R} (location : string) (w w' : world) (r : R) :
  _resolve_airport_code location w <> (Return r, w').
Proof.
  unfold _resolve_airport_code.
  destruct ((len location =? 3) && str_isalpha location); [discriminate |].
  unfold bind.
  destruct (get_serpapi_service w) as [[service | r0 | e] w0] eqn:Hget;
    [| exfalso; exact (get_serpapi_service_no_return _ _ _ Hget) | discriminate].
  destruct (get_airport_suggestions location); discriminate.
Qed.

(** A [return] of the request stage carries an error payload. *)
Lemma flight_search_request_returns departure_location arrival_location
    departure_date return_date passengers trip_type travel_class w r w' :
  flight_search_request departure_location arrival_location departure_date
    return_date passengers trip_type travel_class w = (Return r, w') ->
  exists error, r = ErrorPayload error.
Proof.
  unfold flight_search_request. unfold bind at 1.
  destruct (_resolve_airport_code departure_location w) as [[dco | r0 | e] w1] eqn:Hdep;
    [| exfalso; exact (resolve_no_return _ _ _ _ Hdep) | intros [=]].
  unfold bind at 1.
  destruct (_resolve_airport_code arrival_location w1) as [[aco | r0 | e] w2] eqn:Harr;
    [| exfalso; exact (resolve_no_return _ _ _ _ Harr) | intros [=]].
  destruct (nonempty dco); [| intros [= <- _]; eauto].
  destruct (nonempty aco); [| intros [= <- _]; eauto].
  destruct (strptime_ymd departure_date); [| intros [= <- _]; eauto].
  unfold bind, ret, return_, raise.
  destruct (nonempty return_date) as [text |].
  - destruct (strptime_ymd text); [| intros [= <- _]; eauto].
    destruct (date_leb _ _); [intros [= <- _]; eauto |].
    destruct (_ && _); [intros [= <- _]; eauto |].
    destruct (FlightSearchRequest_init _ _ _ _ _ _ _); intros [=].
  - destruct (_ && _); [intros [= <- _]; eauto |].
    destruct (FlightSearchRequest_init _ _ _ _ _ _ _); intros [=].
Qed.

(** X1.  Whatever its arguments and the process state, a call of
    [search_flights] hands at most one request to the provider, and a
    request it hands over has passed every check: the passenger count is
    between 1 and 9, a return date is strictly after the outbound date, a
    request without return date does not come from the trip type
    "round_trip", and both airport codes are non-empty.  Hotel searches are
    not touched, and a success payload is the summary of the provider's
    answer to exactly that request. *)
Theorem search_flights_hands_over_checked_request
    (departure_location arrival_location departure_date : string)
    (return_date : option string) (passengers : Z) (trip_type travel_class : string)
    (w : world) :
  let result :=
    search_flights departure_location arrival_location departure_date return_date
      passengers trip_type travel_class w in
  hotel_searches (snd result) = hotel_searches w
  /\ (flight_searches (snd result) = flight_searches w
      \/ exists request,
           flight_searches (snd result) = request :: flight_searches w
           /\ flight_request_checked departure_date passengers trip_type
                travel_class request)
  /\ (forall departure arrival response,
        fst result = FlightPayload departure arrival response ->
        exists request,
          flight_searches (snd result) = request :: flight_searches w
          /\ response = provider_flights request
          /\ departure = departure_id request
          /\ arrival = arrival_id request).
Proof.
  intros result.
  destruct result as [out w'] eqn:Hrun. subst result. cbn [fst snd]. revert Hrun.
  unfold search_flights, try_function. unfold bind at 1.
  destruct (flight_search_request _ _ _ _ _ _ _ w) as [[request | r | e] w1] eqn:Hreq;
    destruct (flight_search_request_searches _ _ _ _ _ _ _ _ _ _ Hreq) as [Hf1 Hh1].
  - pose proof (flight_search_request_checked _ _ _ _ _ _ _ _ _ _ Hreq) as Hchecked.
    unfold bind at 1.
    destruct (get_serpapi_service w1) as [[service | r | e] w2] eqn:Hsvc;
      [| exfalso; exact (get_serpapi_service_no_return _ _ _ Hsvc) |];
      destruct (ToolsFacts.get_serpapi_service_searches _ _ _ Hsvc) as [Hf2 Hh2].
    + unfold bind, SerpAPIService_search_flights, return_.
      destruct (nonempty (flight_error (provider_flights request)));
        intros [= <- <-]; cbn [flight_searches hotel_searches];
        (split; [congruence |]);
        (split; [right; exists request; split; [congruence | assumption] |]).
      * intros ? ? ? [=].
      * intros departure arrival response [= <- <- <-].
        exists request. repeat split. congruence.
    + intros [= <- <-].
      split; [congruence |]. split; [left; congruence | intros ? ? ? [=]].
  - destruct (flight_search_request_returns _ _ _ _ _ _ _ _ _ _ Hreq) as [error ->].
    intros [= <- <-].
    split; [assumption |]. split; [left; assumption | intros ? ? ? [=]].
  - intros [= <- <-].
    split; [assumption |]. split; [left; assumption | intros ? ? ? [=]].
Qed.
(** The request stage of [search_hotels] leaves the process state as it
    was, and a request it completes with has passed every check. *)
Lemma hotel_search_request_world location check_in_date check_out_date guests rooms
    sort_by max_price hotel_class vacation_rental w r w' :
  hotel_search_request location check_in_date check_out_date guests rooms sort_by
    max_price hotel_class vacation_rental w = (r, w') ->
  w' = w
  /\ (forall payload, r = Return payload -> exists error, payload = ErrorPayload error)
  /\ (forall request, r = Val request ->
        hotel_request_checked location check_in_date check_out_date guests sort_by
          max_price hotel_class vacation_rental request).
Proof.
  unfold hotel_search_request, return_, ret, raise.
  assert (Herror : forall error : string,
            (Return (A := HotelSearchRequest) (ErrorPayload error), w) = (r, w') ->
            w' = w
            /\ (forall payload, r = Return payload ->
                  exists error, payload = ErrorPayload error)
            /\ (forall request, r = Val request ->
                  hotel_request_checked location check_in_date check_out_date guests
                    sort_by max_price hotel_class vacation_rental request)).
  { intros error [= <- <-].
    split; [reflexivity |]. split; [intros ? [= <-]; eauto | intros ? [=]]. }
  destruct (strptime_ymd check_in_date) as [check_in |] eqn:Hin; [| apply Herror].
  destruct (strptime_ymd check_out_date) as [check_out |] eqn:Hout; [| apply Herror].
  destruct (date_leb check_out check_in); [apply Herror |].
  destruct (HotelSearchRequest_init _ _ _ _ _ _ _ _) as [e | built] eqn:Hinit;
    intros [= <- <-]; (split; [reflexivity |]); (split; [intros ? [=] |]);
    intros request [=]; subst.
  apply HotelSearchRequest_init_inr in Hinit.
  destruct Hinit as (-> & Hdates & Hguests & Hprice).
  unfold hotel_request_checked. cbn. repeat split; try assumption; lia.
Qed.

(** X2.  Whatever its arguments and the process state, a call of
    [search_hotels] hands at most one request to the provider, and a request
    it hands over has passed every check: both dates parse, the check-out
    date is strictly after the check-in date, the guest count is between 1
    and 20, and a price limit is not negative.  The query is the location
    as given, the number of rooms does not reach the provider, flight
    searches are not touched, and a success payload counts the properties
    of the provider's answer to exactly that request. *)
Theorem search_hotels_hands_over_checked_request
    (location check_in_date check_out_date : string) (guests rooms : Z)
    (sort_by : string) (max_price : option Z) (hotel_class : option string)
    (vacation_rental : bool) (w : world) :
  let result :=
    search_hotels location check_in_date check_out_date guests rooms sort_by
      max_price hotel_class vacation_rental w in
  flight_searches (snd result) = flight_searches w
  /\ (hotel_searches (snd result) = hotel_searches w
      \/ exists request,
           hotel_searches (snd result) = request :: hotel_searches w
           /\ hotel_request_checked location check_in_date check_out_date guests
                sort_by max_price hotel_class vacation_rental request)
  /\ (forall summary,
        fst result = HotelPayload summary ->
        exists request,
          hotel_searches (snd result) = request :: hotel_searches w
          /\ properties_count summary
             = Z.of_nat (List.length (properties (provider_hotels request)))
          /\ summary_properties summary
             = List.map summarise_property
                 (List.firstn 3 (properties (provider_hotels request)))).
Proof.
  intros result.
  destruct result as [out w'] eqn:Hrun. subst result. cbn [fst snd]. revert Hrun.
  unfold search_hotels, try_function. unfold bind at 1.
  destruct (hotel_search_request _ _ _ _ _ _ _ _ _ w) as [[request | r | e] w1] eqn:Hreq;
    destruct (hotel_search_request_world _ _ _ _ _ _ _ _ _ _ _ _ Hreq)
      as (-> & Hreturn & Hchecked).
  - specialize (Hchecked request eq_refl).
    unfold bind at 1.
    destruct (get_hotel_service w) as [[service | r | e] w2] eqn:Hsvc;
      [| exfalso; exact (get_hotel_service_no_return _ _ _ Hsvc) |];
      destruct (get_hotel_service_searches _ _ _ Hsvc) as [Hf2 Hh2].
    + unfold bind, HotelSerpAPIService_search_hotels, return_, raise.
      destruct (nonempty (hotel_error (provider_hotels request))).
      * intros [= <- <-]; cbn [flight_searches hotel_searches].
        split; [congruence |].
        split; [right; exists request; split; [congruence | assumption] |].
        intros ? [=].
      * destruct (aggregate_price_range _) as [e | range];
          intros [= <- <-]; cbn [flight_searches hotel_searches];
          (split; [congruence |]);
          (split; [right; exists request; split; [congruence | assumption] |]).
        -- intros ? [=].
        -- intros summary [= <-]. exists request.
           split; [congruence |]. split; reflexivity.
    + intros [= <- <-].
      split; [congruence |]. split; [left; congruence | intros ? [=]].
  - destruct (Hreturn r eq_refl) as [error ->].
    intros [= <- <-]. split; [reflexivity |]. split; [left; reflexivity | intros ? [=]].
  - intros [= <- <-]. split; [reflexivity |]. split; [left; reflexivity | intros ? [=]].
Qed.

(** With the provider key at hand the service is fetched, and stays at
    hand. *)
Lemma get_serpapi_service_available {R} (w : world) :
  flight_service_available w ->
  exists service w1,
    get_serpapi_service (R := R) w = (Val service, w1)
    /\ flight_service_available w1.
Proof.
  unfold flight_service_available, get_serpapi_service, SerpAPIService_init.
  intros Havailable.
  destruct (serpapi_service w) as [service |] eqn:Hservice.
  - exists service, w. split; [reflexivity |]. left. congruence.
  - cbn [nonempty]. fold (nonempty (SERPAPI_API_KEY w)).
    destruct (nonempty (SERPAPI_API_KEY w)) as [k |]; [| tauto].
    eexists _, _. split; [reflexivity |]. left. discriminate.
Qed.

(** Then resolving a location completes: with the upper-cased text for a
    word of three letters, and with the code of the first suggestion, if
    there is one, otherwise. *)
Lemma resolve_available {R} (location : string) (w : world) :
  flight_service_available w ->
  exists w1,
    _resolve_airport_code (R := R) location w
    = (Val (if (len location =? 3) && str_isalpha location
            then Some (str_upper location)
            else match get_airport_suggestions location with
                 | first :: _ => Some (fst first)
                 | [] => None
                 end), w1)
    /\ flight_service_available w1.
Proof.
  intros Havailable. unfold _resolve_airport_code.
  destruct ((len location =? 3) && str_isalpha location).
  - exists w. split; [reflexivity | assumption].
  - destruct (get_serpapi_service_available (R := R) w Havailable)
      as (service & w1 & Hget & Hstill).
    exists w1. unfold bind. rewrite Hget.
    split; [| assumption].
    destruct (get_airport_suggestions location); reflexivity.
Qed.

(** X3.  With the provider key at hand, a departure location that is not
    a word of three letters and matches no city of the table makes
    [search_flights] return the error that names it, whatever the other
    arguments are; when the departure location resolves, an arrival
    location of that kind is named in the same way.  Nothing is handed to
    the provider in either case. *)
Theorem unresolved_location_named
    (departure_location arrival_location departure_date : string)
    (return_date : option string) (passengers : Z) (trip_type travel_class : string)
    (w : world) :
  flight_service_available w ->
  let unresolved := fun location : string =>
    (len location =? 3) && str_isalpha location = false
    /\ get_airport_suggestions location = [] in
  let result :=
    search_flights departure_location arrival_location departure_date return_date
      passengers trip_type travel_class w in
  (unresolved departure_location ->
   fst result
   = ErrorPayload
       ("Could not resolve departure location: " ++ departure_location
        ++ ". Please provide a valid airport code (e.g., JFK, LAX) or major city name.")
   /\ flight_searches (snd result) = flight_searches w)
  /\ (forall code,
        fst (_resolve_airport_code (R := ToolOutput) departure_location w)
        = Val (Some code) ->
        truthy_str code = true ->
        unresolved arrival_location ->
        fst result
        = ErrorPayload
            ("Could not resolve arrival location: " ++ arrival_location
             ++ ". Please provide a valid airport code (e.g., JFK, LAX) or major city name.")
        /\ flight_searches (snd result) = flight_searches w).
Proof.
  intros Havailable unresolved result.
  destruct (resolve_available (R := ToolOutput) departure_location w Havailable)
    as (w1 & Hdep & Havailable1).
  destruct (resolve_available (R := ToolOutput) arrival_location w1 Havailable1)
    as (w2 & Harr & _).
  assert (Hrun : forall error,
            flight_search_request departure_location arrival_location departure_date
              return_date passengers trip_type travel_class w
            = (Return (ErrorPayload error), w2) ->
            fst result = ErrorPayload error
            /\ flight_searches (snd result) = flight_searches w).
  { intros error Hreq. subst result.
    destruct (flight_search_request_searches _ _ _ _ _ _ _ _ _ _ Hreq) as [Hf _].
    assert (Heq : search_flights departure_location arrival_location departure_date
                    return_date passengers trip_type travel_class w
                  = (ErrorPayload error, w2)).
    { unfold search_flights, try_function. unfold bind at 1. rewrite Hreq.
      reflexivity. }
    rewrite Heq. split; [reflexivity | exact Hf]. }
  split.
  - intros [Hshape Hnone]. apply Hrun.
    unfold flight_search_request.
    unfold bind at 1. rewrite Hdep, Hshape, Hnone.
    unfold bind at 1. rewrite Harr. reflexivity.
  - intros code Hcode Htruthy [Hshape Hnone]. apply Hrun.
    rewrite Hdep in Hcode. cbn [fst] in Hcode. injection Hcode as Hcode.
    unfold flight_search_request.
    unfold bind at 1. rewrite Hdep, Hcode.
    unfold bind at 1. rewrite Harr, Hshape, Hnone.
    rewrite (ToolsFacts.nonempty_truthy _ Htruthy). reflexivity.
Qed.

(** X4.  Without a provider key - no service object built yet and no
    non-empty key in the environment - [search_flights] and [search_hotels]
    answer every call with an error payload and leave the process state as
    it was: nothing is handed to the provider. *)
Theorem no_key_no_search (w : world) :
  nonempty (SERPAPI_API_KEY w) = None ->
  (serpapi_service w = None ->
   forall departure_location arrival_location departure_date return_date
          passengers trip_type travel_class,
   exists error,
     search_flights departure_location arrival_location departure_date return_date
       passengers trip_type travel_class w
     = (ErrorPayload error, w))
  /\ (_hotel_service_instance w = None ->
      forall location check_in_date check_out_date guests rooms sort_by max_price
             hotel_class vacation_rental,
      exists error,
        search_hotels location check_in_date check_out_date guests rooms sort_by
          max_price hotel_class vacation_rental w
        = (ErrorPayload error, w)).
Proof.
  intros Hkey. split.
  - intros Hservice departure_location arrival_location departure_date return_date
      passengers trip_type travel_class.
    assert (Hget : forall R, get_serpapi_service (R := R) w
                   = (Raise (ValueError
                        "SerpAPI key is required. Set SERPAPI_API_KEY environment variable."),
                      w)).
    { intros R. unfold get_serpapi_service, SerpAPIService_init.
      rewrite Hservice. cbn [nonempty]. fold (nonempty (SERPAPI_API_KEY w)).
      rewrite Hkey. reflexivity. }
    assert (Hresolve : forall location,
              (exists code, _resolve_airport_code (R := ToolOutput) location w
                            = (Val code, w))
              \/ (exists e, _resolve_airport_code (R := ToolOutput) location w
                            = (Raise e, w))).
    { intros location. unfold _resolve_airport_code.
      destruct ((len location =? 3) && str_isalpha location); [left; eauto |].
      right. unfold bind. rewrite Hget. eauto. }
    unfold search_flights, try_function. unfold bind at 1.
    unfold flight_search_request. unfold bind at 1.
    destruct (Hresolve departure_location) as [[dco ->] | [e ->]]; [| eauto].
    unfold bind at 1.
    destruct (Hresolve arrival_location) as [[aco ->] | [e ->]]; [| eauto].
    destruct (nonempty dco); [| eauto].
    destruct (nonempty aco); [| eauto].
    destruct (strptime_ymd departure_date); [| eauto].
    unfold bind, ret, return_, raise.
    destruct (nonempty return_date) as [text |].
    + destruct (strptime_ymd text); [| eauto].
      destruct (date_leb _ _); [eauto |].
      destruct (_ && _); [eauto |].
      destruct (FlightSearchRequest_init _ _ _ _ _ _ _); [eauto |].
      rewrite Hget. eauto.
    + destruct (_ && _); [eauto |].
      destruct (FlightSearchRequest_init _ _ _ _ _ _ _); [eauto |].
      rewrite Hget. eauto.
  - intros Hservice location check_in_date check_out_date guests rooms sort_by
      max_price hotel_class vacation_rental.
    assert (Hget : get_hotel_service (R := ToolOutput) w
                   = (Raise (ValueError
                        "SerpAPI key is required. Set SERPAPI_API_KEY environment variable."),
                      w)).
    { unfold get_hotel_service, HotelSerpAPIService_init.
      rewrite Hservice. cbn [nonempty]. fold (nonempty (SERPAPI_API_KEY w)).
      rewrite Hkey. reflexivity. }
    unfold search_hotels, try_function. unfold bind at 1.
    destruct (hotel_search_request _ _ _ _ _ _ _ _ _ w) as [[request | r | e] w1] eqn:Hreq;
      destruct (hotel_search_request_world _ _ _ _ _ _ _ _ _ _ _ _ Hreq)
        as (-> & Hreturn & _).
    + unfold bind. rewrite Hget. eauto.
    + destruct (Hreturn r eq_refl) as [error ->]. eauto.
    + eauto.
Qed.

End WithRuntime.

Lemma unresolved_location_named_witness :
  fst (search_flights (PROV := Sample.nothing_found) "Atlantis" "LAX" "2026-01-10"
         None 1 "one_way" "economy" Sample.with_key)
  = ErrorPayload
      ("Could not resolve departure location: " ++ "Atlantis"
       ++ ". Please provide a valid airport code (e.g., JFK, LAX) or major city name.").
Proof.
  refine (proj1 (proj1
    (unresolved_location_named (STR := ascii_str) (LIB := plain_library)
       (PROV := Sample.nothing_found) "Atlantis" "LAX" "2026-01-10"
       None 1 "one_way" "economy" Sample.with_key _) _)).
  - right. vm_compute. discriminate.
  - split; vm_compute; reflexivity.
Defined.

Lemma no_key_no_search_witness :
  exists error,
    search_flights (PROV := Sample.nothing_found) "JFK" "LAX" "2026-01-10"
      None 1 "one_way" "economy" Sample.without_key
    = (ErrorPayload error, Sample.without_key).
Proof.
  exact (proj1 (no_key_no_search (STR := ascii_str) (LIB := plain_library)
                  (PROV := Sample.nothing_found) Sample.without_key eq_refl)
           eq_refl "JFK" "LAX" "2026-01-10" None 1 "one_way" "economy").
Defined.

End HandoverFacts.

(** ** The suggestion tools *)

Module SuggestionFacts.
Import Py Models Tools Handover.

(** The first five of a non-empty list are between one and five. *)
Lemma firstn_5_length {A} (l : list A) :
  l <> [] -> (1 <= List.length (List.firstn 5 l) <= 5)%nat.
Proof.
  intros Hne. rewrite List.length_firstn.
  destruct l as [| x rest]; [congruence |]. cbn [List.length]. lia.
Qed.

Lemma firstn_5_nil {A} (l : list A) : List.firstn 5 l = [] -> l = [].
Proof. destruct l; [reflexivity | discriminate]. Qed.

Section WithRuntime.
Context {STR : StrMethods} {LIB : Library} {TITLE : SuggestionTools.TitleCase}.

(** A word of three letters always has a suggestion: the airports of the
    cities it matches, or the airport made up from the word itself. *)
Lemma no_suggestion_not_a_code (query : string) :
  Tools.get_airport_suggestions query = [] ->
  (len query =? 3) && str_isalpha query = false.
Proof.
  unfold Tools.get_airport_suggestions. intros Hnone.
  apply firstn_5_nil in Hnone.
  destruct (List.flat_map _ airport_mappings); [| discriminate].
  destruct ((len query =? 3) && str_isalpha query); [discriminate | reflexivity].
Qed.

Lemma airport_suggestions_length (query : string) :
  (List.length (Tools.get_airport_suggestions query) <= 5)%nat.
Proof.
  unfold Tools.get_airport_suggestions. rewrite List.length_firstn. lia.
Qed.

(** X5.  With the provider key at hand, the airport suggestion tool answers
    with the suggestions of the table, at most five, or with the error "No
    airport suggestions found for: ..." when there is none, and never with
    a failure; and [_resolve_airport_code] gives no code exactly when the
    tool has nothing to suggest.  For a location that is not a word of
    three letters the code it gives is that of the tool's first
    suggestion. *)
Theorem resolver_agrees_with_suggestion_tool (location : string) (w : world) :
  flight_service_available w ->
  let resolved := fst (_resolve_airport_code (R := ToolOutput) location w) in
  let answer := fst (SuggestionTools.get_airport_suggestions location w) in
  (resolved = Val None
   <-> answer
       = SuggestionTools.NoSuggestions
           ("No airport suggestions found for: " ++ location))
  /\ (forall error,
        answer = SuggestionTools.NoSuggestions error ->
        error = "No airport suggestions found for: " ++ location)
  /\ (forall query suggestions,
        answer = SuggestionTools.Suggested query suggestions ->
        query = location
        /\ suggestions = Tools.get_airport_suggestions location
        /\ (1 <= List.length suggestions <= 5)%nat
        /\ exists code,
             resolved = Val (Some code)
             /\ ((len location =? 3) && str_isalpha location = false ->
                 option_map fst (List.head suggestions) = Some code)).
Proof.
  intros Havailable resolved answer.
  destruct (HandoverFacts.resolve_available (R := ToolOutput) location w Havailable)
    as (w1 & Hresolve & _).
  destruct (HandoverFacts.get_serpapi_service_available
              (R := SuggestionTools.SuggestionOutput) w Havailable)
    as (service & w2 & Hget & _).
  assert (Hanswer : answer
                    = match Tools.get_airport_suggestions location with
                      | [] => SuggestionTools.NoSuggestions
                                ("No airport suggestions found for: " ++ location)
                      | suggestions => SuggestionTools.Suggested location suggestions
                      end).
  { subst answer. unfold SuggestionTools.get_airport_suggestions, try_function, bind.
    rewrite Hget. destruct (Tools.get_airport_suggestions location); reflexivity. }
  assert (Hresolved : resolved
                      = Val (if (len location =? 3) && str_isalpha location
                             then Some (str_upper location)
                             else match Tools.get_airport_suggestions location with
                                  | first :: _ => Some (fst first)
                                  | [] => None
                                  end)).
  { subst resolved. rewrite Hresolve. reflexivity. }
  rewrite Hanswer, Hresolved. clear Hanswer Hresolved resolved answer.
  pose proof (no_suggestion_not_a_code location) as Hcode.
  pose proof (airport_suggestions_length location) as Hlength.
  destruct (Tools.get_airport_suggestions location) as [| first more].
  - rewrite (Hcode eq_refl).
    split; [split; reflexivity |]. split; [intros error [= <-]; reflexivity |].
    intros query suggestions [=].
  - split.
    { split; [| intros [=]].
      destruct ((len location =? 3) && str_isalpha location); intros [=]. }
    split; [intros error [=] |].
    intros query suggestions [= <- <-].
    split; [reflexivity |]. split; [reflexivity |].
    split; [cbn [List.length] in *; lia |].
    destruct ((len location =? 3) && str_isalpha location).
    + eexists. split; [reflexivity | discriminate].
    + eexists. split; [reflexivity | reflexivity].
Qed.

(** The destination table always has something to offer. *)
Lemma hotel_suggestions_length (query : string) :
  (1 <= List.length (SuggestionTools.HotelSerpAPIService_get_hotel_suggestions query)
   <= 5)%nat.
Proof.
  unfold SuggestionTools.HotelSerpAPIService_get_hotel_suggestions.
  apply firstn_5_length.
  destruct (List.flat_map _ SuggestionTools.destination_mappings); discriminate.
Qed.

(** X6.  [get_hotel_suggestions] of the hotel service never returns an
    empty list: a query that matches no city of the table gets the one
    suggestion made from its title-cased text, so the result has between
    one and five entries.  The tool therefore answers with these
    suggestions whenever the provider key is at hand, and its reply "No
    location suggestions found for: ..." is never produced, in any state. *)
Theorem hotel_suggestions_never_empty (query : string) (w : world) :
  let suggestions := SuggestionTools.HotelSerpAPIService_get_hotel_suggestions query in
  let answer := fst (SuggestionTools.get_hotel_suggestions query w) in
  (1 <= List.length suggestions <= 5)%nat
  /\ answer
     <> SuggestionTools.NoSuggestions ("No location suggestions found for: " ++ query)
  /\ (List.flat_map
        (fun entry : string * list (string * string) =>
           if str_in (str_lower query) (fst entry) || str_in (fst entry) (str_lower query)
           then snd entry else [])
        SuggestionTools.destination_mappings = [] ->
      suggestions
      = [ (SuggestionTools.str_title query,
           "Hotels in " ++ SuggestionTools.str_title query) ]).
Proof.
  intros suggestions answer.
  pose proof (hotel_suggestions_length query) as Hlength. fold suggestions in Hlength.
  split; [exact Hlength |]. split.
  - subst answer.
    unfold SuggestionTools.get_hotel_suggestions, try_function, bind.
    fold suggestions.
    destruct (get_hotel_service w) as [[service | r | e] w1] eqn:Hget;
      [| exfalso; exact (HandoverFacts.get_hotel_service_no_return _ _ _ Hget) |].
    + destruct suggestions; [cbn [List.length] in Hlength; lia | discriminate].
    + cbn [fst]. intros [=].
  - intros Hnone. subst suggestions.
    unfold SuggestionTools.HotelSerpAPIService_get_hotel_suggestions.
    replace (List.flat_map _ SuggestionTools.destination_mappings)
      with (@nil (string * string)) by (symmetry; exact Hnone).
    reflexivity.
Qed.
End WithRuntime.

Lemma resolver_agrees_with_suggestion_tool_witness :
  fst (_resolve_airport_code (R := ToolOutput) "Atlantis" Sample.with_key) = Val None
  <-> fst (SuggestionTools.get_airport_suggestions "Atlantis" Sample.with_key)
      = SuggestionTools.NoSuggestions
          ("No airport suggestions found for: " ++ "Atlantis").
Proof.
  refine (proj1 (resolver_agrees_with_suggestion_tool (STR := ascii_str)
                   (LIB := plain_library) "Atlantis" Sample.with_key _)).
  right. vm_compute. discriminate.
Defined.

(** The tool suggests the airports of every city the query matches, and
    the resolver takes the first of them. *)
Example suggestions_for_a_city :
  fst (SuggestionTools.get_airport_suggestions "Paris" Sample.with_key)
  = SuggestionTools.Suggested "Paris"
      [ ("CDG", "Charles de Gaulle Airport"); ("ORY", "Paris-Orly Airport") ]
  /\ fst (_resolve_airport_code (R := ToolOutput) "Paris" Sample.with_key)
     = Val (Some "CDG").
Proof. vm_compute. split; reflexivity. Qed.

End SuggestionFacts.

(** ** Methods of the parameter models *)

Module ModelMethodsFacts.
Import Py Models ModelMethods.

(** X7.  [FlightSearchParams.to_search_request] gives a request exactly
    when both locations and the departure date are non-empty, the departure
    date parses, a non-empty return date parses, and the passenger count is
    between 1 and 9; the request then carries the two locations as they
    are, without airport resolution, and the parsed dates.  Nothing else
    makes it return [None]: neither the order of the two dates nor a
    missing return date on a round trip. *)
Theorem flight_to_search_request_cases {LIB : Library} (self : FlightSearchParams.t) :
  match FlightSearchParams_to_search_request self with
  | Some request =>
      nonempty (FlightSearchParams.departure_location self)
      = Some (departure_id request)
      /\ nonempty (FlightSearchParams.arrival_location self)
         = Some (arrival_id request)
      /\ (exists text,
            nonempty (FlightSearchParams.departure_date self) = Some text
            /\ strptime_ymd text = Some (outbound_date request))
      /\ optional_date (FlightSearchParams.return_date self)
         = Some (return_date request)
      /\ adults request = FlightSearchParams.passengers self
      /\ 1 <= FlightSearchParams.passengers self <= 9
      /\ trip_type request
         = Tools.dict_get Tools.trip_type_map (FlightSearchParams.trip_type self)
             ROUND_TRIP
      /\ travel_class request
         = Tools.dict_get Tools.class_map (FlightSearchParams.travel_class self)
             ECONOMY
  | None =>
      nonempty (FlightSearchParams.departure_location self) = None
      \/ nonempty (FlightSearchParams.arrival_location self) = None
      \/ nonempty (FlightSearchParams.departure_date self) = None
      \/ (exists text,
            nonempty (FlightSearchParams.departure_date self) = Some text
            /\ strptime_ymd text = None)
      \/ optional_date (FlightSearchParams.return_date self) = None
      \/ ~ 1 <= FlightSearchParams.passengers self <= 9
  end.
Proof.
  unfold FlightSearchParams_to_search_request.
  destruct (nonempty (FlightSearchParams.departure_location self)) as [dep |];
    [| tauto].
  destruct (nonempty (FlightSearchParams.arrival_location self)) as [arr |];
    [| tauto].
  destruct (nonempty (FlightSearchParams.departure_date self)) as [text |];
    [| tauto].
  destruct (strptime_ymd text) as [outbound |] eqn:Hparse;
    [| right; right; right; left; eauto].
  destruct (optional_date (FlightSearchParams.return_date self)) as [ret |];
    [| tauto].
  destruct (FlightSearchRequest_init _ _ _ _ _ _ _) as [e | request] eqn:Hinit.
  - do 5 right. intros Hrange. revert Hinit.
    rewrite ToolsFacts.FlightSearchRequest_init_ok by assumption. discriminate.
  - apply HandoverFacts.FlightSearchRequest_init_inr in Hinit.
    destruct Hinit as [-> Hrange]. cbn.
    repeat split; try reflexivity; try lia. eauto.
Qed.

(** X8.  [HotelSearchParams.to_search_request] gives a request exactly when
    the location and both dates are non-empty, both dates parse, the
    check-out date is strictly after the check-in date, the guest count is
    between 1 and 20 and a price limit is not negative; the request then
    carries the location as the query, the default sort order, and the
    amenities, hotel class and price limit of the parameters.  The number of
    rooms plays no part. *)
Theorem hotel_to_search_request_cases {LIB : Library} (self : HotelSearchParams.t) :
  match HotelSearchParams_to_search_request self with
  | Some built =>
      nonempty (HotelSearchParams.location self) = Some (q (request built))
      /\ (exists text,
            nonempty (HotelSearchParams.check_in_date self) = Some text
            /\ strptime_ymd text = Some (check_in_date (request built)))
      /\ (exists text,
            nonempty (HotelSearchParams.check_out_date self) = Some text
            /\ strptime_ymd text = Some (check_out_date (request built)))
      /\ date_ltb (check_in_date (request built)) (check_out_date (request built))
         = true
      /\ hotel_adults (request built) = HotelSearchParams.guests self
      /\ 1 <= HotelSearchParams.guests self <= 20
      /\ max_price (request built) = HotelSearchParams.max_price self
      /\ match HotelSearchParams.max_price self with
         | Some mx => 0 <= mx
         | None => True
         end
      /\ sort_by (request built) = RELEVANCE
      /\ hotel_class (request built) = HotelSearchParams.hotel_class self
      /\ vacation_rentals (request built) = HotelSearchParams.vacation_rental self
      /\ request_amenities built = HotelSearchParams.amenities self
  | None =>
      nonempty (HotelSearchParams.location self) = None
      \/ (forall text,
            nonempty (HotelSearchParams.check_in_date self) = Some text ->
            strptime_ymd text = None)
      \/ (forall text,
            nonempty (HotelSearchParams.check_out_date self) = Some text ->
            strptime_ymd text = None)
      \/ (exists text_in text_out check_in check_out,
            nonempty (HotelSearchParams.check_in_date self) = Some text_in
            /\ nonempty (HotelSearchParams.check_out_date self) = Some text_out
            /\ strptime_ymd text_in = Some check_in
            /\ strptime_ymd text_out = Some check_out
            /\ date_leb check_out check_in = true)
      \/ ~ 1 <= HotelSearchParams.guests self <= 20
      \/ (exists mx, HotelSearchParams.max_price self = Some mx /\ mx < 0)
  end.
Proof.
  unfold HotelSearchParams_to_search_request.
  destruct (nonempty (HotelSearchParams.location self)) as [location |];
    [| tauto].
  destruct (nonempty (HotelSearchParams.check_in_date self)) as [text_in |];
    [| right; left; discriminate].
  destruct (nonempty (HotelSearchParams.check_out_date self)) as [text_out |];
    [| right; right; left; discriminate].
  destruct (strptime_ymd text_in) as [check_in |] eqn:Hin;
    [| right; left; intros ? [= <-]; assumption].
  destruct (strptime_ymd text_out) as [check_out |] eqn:Hout;
    [| right; right; left; intros ? [= <-]; assumption].
  destruct (HotelSearchRequest_init _ _ _ _ _ _ _ _) as [e | built] eqn:Hinit.
  - revert Hinit.
    unfold HotelSearchRequest_init, validate_check_out_date, validate_price_range.
    destruct (date_leb check_out check_in) eqn:Hdates;
      [intros _; do 3 right; left; exists text_in, text_out, check_in, check_out; auto |].
    destruct (Z.leb_spec 1 (HotelSearchParams.guests self)),
      (Z.leb_spec (HotelSearchParams.guests self) 20);
      try (intros _; do 4 right; left; lia).
    destruct (HotelSearchParams.max_price self) as [mx |]; [| discriminate].
    destruct (Z.leb_spec 0 mx); [discriminate |].
    intros _. do 5 right. eauto.
  - apply HandoverFacts.HotelSearchRequest_init_inr in Hinit.
    destruct Hinit as (-> & Hdates & Hguests & Hprice). cbn.
    repeat split; try reflexivity; try assumption; try lia; eauto.
Qed.

(** The return date of a request the tool builds is the parsed return-date
    argument. *)
Lemma flight_search_request_return_date {STR : StrMethods} {LIB : Library}
    departure_location arrival_location departure_date return_date passengers
    trip_type travel_class w request w' :
  Tools.flight_search_request departure_location arrival_location departure_date
    return_date passengers trip_type travel_class w = (Val request, w') ->
  optional_date return_date = Some (Models.return_date request).
Proof.
  unfold Tools.flight_search_request, optional_date. unfold bind at 1.
  destruct (Tools._resolve_airport_code departure_location w) as [[dco | r0 | e] w1];
    try (intros [=]; fail).
  unfold bind at 1.
  destruct (Tools._resolve_airport_code arrival_location w1) as [[aco | r0 | e] w2];
    try (intros [=]; fail).
  destruct (nonempty dco) as [dc |]; [| intros [=]].
  destruct (nonempty aco) as [ac |]; [| intros [=]].
  destruct (strptime_ymd departure_date) as [outbound |]; [| intros [=]].
  unfold bind, ret, return_, raise.
  destruct (nonempty return_date) as [text |].
  - destruct (strptime_ymd text) as [rd |]; [| intros [=]].
    destruct (date_leb rd outbound); [intros [=] |].
    destruct (_ && _); [intros [=] |].
    destruct (FlightSearchRequest_init _ _ _ _ _ _ _) as [e | built] eqn:Hinit;
      intros [= <- _].
    apply HandoverFacts.FlightSearchRequest_init_inr in Hinit.
    destruct Hinit as [-> _]. reflexivity.
  - destruct (_ && _); [intros [=] |].
    destruct (FlightSearchRequest_init _ _ _ _ _ _ _) as [e | built] eqn:Hinit;
      intros [= <- _].
    apply HandoverFacts.FlightSearchRequest_init_inr in Hinit.
    destruct Hinit as [-> _]. reflexivity.
Qed.

(** X9.  Whenever [search_flights] builds a request from non-empty location
    and date texts, [FlightSearchParams.to_search_request] on the same
    arguments, as the agent records them, gives a request too, and the same
    one up to the airports: it carries the two locations as given where the
    tool carries the codes it resolved them to. *)
Theorem recorded_flight_params_convert {STR : StrMethods} {LIB : Library}
    (departure_location arrival_location departure_date : string)
    (return_date : option string) (passengers : Z) (trip_type travel_class : string)
    (w w' : Tools.world) (request : FlightSearchRequest) :
  Tools.flight_search_request departure_location arrival_location departure_date
    return_date passengers trip_type travel_class w = (Val request, w') ->
  truthy_str departure_location = true ->
  truthy_str arrival_location = true ->
  truthy_str departure_date = true ->
  FlightSearchParams_to_search_request
    {| FlightSearchParams.departure_location := Some departure_location;
       FlightSearchParams.arrival_location := Some arrival_location;
       FlightSearchParams.departure_date := Some departure_date;
       FlightSearchParams.return_date := return_date;
       FlightSearchParams.passengers := passengers;
       FlightSearchParams.trip_type := trip_type;
       FlightSearchParams.travel_class := travel_class |}
  = Some {| departure_id := departure_location;
            arrival_id := arrival_location;
            outbound_date := outbound_date request;
            Models.return_date := Models.return_date request;
            adults := adults request;
            Models.trip_type := Models.trip_type request;
            Models.travel_class := Models.travel_class request |}.
Proof.
  intros Hbuilt Hdep Harr Hdate.
  pose proof (flight_search_request_return_date _ _ _ _ _ _ _ _ _ _ Hbuilt) as Hreturn.
  apply HandoverFacts.flight_search_request_checked in Hbuilt.
  destruct Hbuilt as (Hparse & Hadults & Hrange & _ & _ & _ & Htrip & Hclass).
  unfold FlightSearchParams_to_search_request.
  cbn [FlightSearchParams.departure_location FlightSearchParams.arrival_location
       FlightSearchParams.departure_date FlightSearchParams.return_date
       FlightSearchParams.passengers FlightSearchParams.trip_type
       FlightSearchParams.travel_class].
  rewrite !ToolsFacts.nonempty_truthy by assumption.
  rewrite Hparse, Hreturn.
  rewrite ToolsFacts.FlightSearchRequest_init_ok by assumption.
  rewrite Hadults, Htrip, Hclass. reflexivity.
Qed.

(** X10.  Whenever [search_hotels] builds a request from non-empty location
    and date texts, [HotelSearchParams.to_search_request] on the same
    arguments, as the agent records them, gives the same request with the
    default sort order in place of the one asked for, and no amenities
    filter. *)
Theorem recorded_hotel_params_convert {LIB : Library}
    (location check_in_date check_out_date : string) (guests rooms : Z)
    (sort_by : string) (max_price : option Z) (hotel_class : option string)
    (vacation_rental : bool) (w w' : Tools.world) (built : HotelSearchRequest) :
  Tools.hotel_search_request location check_in_date check_out_date guests rooms
    sort_by max_price hotel_class vacation_rental w = (Val built, w') ->
  truthy_str location = true ->
  truthy_str check_in_date = true ->
  truthy_str check_out_date = true ->
  HotelSearchParams_to_search_request
    {| HotelSearchParams.location := Some location;
       HotelSearchParams.check_in_date := Some check_in_date;
       HotelSearchParams.check_out_date := Some check_out_date;
       HotelSearchParams.guests := guests;
       HotelSearchParams.rooms := rooms;
       HotelSearchParams.hotel_class := hotel_class;
       HotelSearchParams.amenities := None;
       HotelSearchParams.max_price := max_price;
       HotelSearchParams.vacation_rental := vacation_rental |}
  = Some {| request :=
              {| q := q built;
                 Models.check_in_date := Models.check_in_date built;
                 Models.check_out_date := Models.check_out_date built;
                 hotel_adults := hotel_adults built;
                 Models.sort_by := RELEVANCE;
                 Models.max_price := Models.max_price built;
                 Models.hotel_class := Models.hotel_class built;
                 vacation_rentals := vacation_rentals built |};
            request_amenities := None |}.
Proof.
  intros Hbuilt Hlocation Hin Hout.
  unfold HotelSearchParams_to_search_request.
  cbn [HotelSearchParams.location HotelSearchParams.check_in_date
       HotelSearchParams.check_out_date HotelSearchParams.guests
       HotelSearchParams.hotel_class HotelSearchParams.amenities
       HotelSearchParams.max_price HotelSearchParams.vacation_rental].
  rewrite !ToolsFacts.nonempty_truthy by assumption.
  revert Hbuilt. unfold Tools.hotel_search_request, return_, ret, raise.
  destruct (strptime_ymd check_in_date) as [check_in |]; [| intros [=]].
  destruct (strptime_ymd check_out_date) as [check_out |]; [| intros [=]].
  destruct (date_leb check_out check_in) eqn:Hdates; [intros [=] |].
  destruct (HotelSearchRequest_init location check_in check_out guests
              (Tools.dict_get Tools.sort_map sort_by RELEVANCE) max_price hotel_class
              vacation_rental) as [e | built'] eqn:Hinit; intros [= <- _].
  apply HandoverFacts.HotelSearchRequest_init_inr in Hinit.
  destruct Hinit as (-> & _ & Hguests & Hprice). cbn.
  unfold HotelSearchRequest_init, validate_check_out_date, validate_price_range.
  rewrite Hdates.
  destruct (Z.leb_spec 1 guests), (Z.leb_spec guests 20); try lia.
  destruct max_price as [mx |]; [| reflexivity].
  destruct (Z.leb_spec 0 mx); [reflexivity | lia].
Qed.

Lemma recorded_flight_params_convert_witness :
  FlightSearchParams_to_search_request
    {| FlightSearchParams.departure_location := Some "new york city";
       FlightSearchParams.arrival_location := Some "LAX";
       FlightSearchParams.departure_date := Some "2026-01-10";
       FlightSearchParams.return_date := Some "2026-01-17";
       FlightSearchParams.passengers := 2;
       FlightSearchParams.trip_type := "round_trip";
       FlightSearchParams.travel_class := "business" |}
  = Some {| departure_id := "new york city"; arrival_id := "LAX";
            outbound_date := mkdate 2026 1 10;
            Models.return_date := Some (mkdate 2026 1 17);
            adults := 2; Models.trip_type := ROUND_TRIP;
            Models.travel_class := BUSINESS |}.
Proof.
  exact (recorded_flight_params_convert (STR := ascii_str) (LIB := plain_library)
           "new york city" "LAX" "2026-01-10" (Some "2026-01-17") 2 "round_trip"
           "business" Sample.with_key
           (snd (Tools.get_serpapi_service (R := Tools.ToolOutput) Sample.with_key))
           {| departure_id := "JFK"; arrival_id := "LAX";
              outbound_date := mkdate 2026 1 10;
              Models.return_date := Some (mkdate 2026 1 17);
              adults := 2; Models.trip_type := ROUND_TRIP;
              Models.travel_class := BUSINESS |}
           eq_refl eq_refl eq_refl eq_refl).
Defined.

Lemma recorded_hotel_params_convert_witness :
  HotelSearchParams_to_search_request
    {| HotelSearchParams.location := Some "Paris";
       HotelSearchParams.check_in_date := Some "2026-02-01";
       HotelSearchParams.check_out_date := Some "2026-02-03";
       HotelSearchParams.guests := 2;
       HotelSearchParams.rooms := 1;
       HotelSearchParams.hotel_class := None;
       HotelSearchParams.amenities := None;
       HotelSearchParams.max_price := Some 300;
       HotelSearchParams.vacation_rental := false |}
  = Some {| request :=
              {| q := "Paris"; Models.check_in_date := mkdate 2026 2 1;
                 Models.check_out_date := mkdate 2026 2 3; hotel_adults := 2;
                 Models.sort_by := RELEVANCE; Models.max_price := Some 300;
                 Models.hotel_class := None; vacation_rentals := false |};
            request_amenities := None |}.
Proof.
  exact (recorded_hotel_params_convert (LIB := plain_library)
           "Paris" "2026-02-01" "2026-02-03" 2 1 "price" (Some 300) None false
           Sample.with_key Sample.with_key
           {| q := "Paris"; Models.check_in_date := mkdate 2026 2 1;
              Models.check_out_date := mkdate 2026 2 3; hotel_adults := 2;
              Models.sort_by := LOWEST_PRICE; Models.max_price := Some 300;
              Models.hotel_class := None; vacation_rentals := false |}
           eq_refl eq_refl eq_refl eq_refl).
Defined.

End ModelMethodsFacts.

(** ** The extraction pass over the recorded tool calls *)

Module ScanFacts.
Import Py Models TravelAgent ModelMethods Recorded.

Section WithLibrary.
Context {LIB : Library}.

(** The inner loop over a concatenation is the loop over its parts. *)
Lemma scan_tool_calls_app (first second : list ToolCall) :
  forall extracted_params,
    scan_tool_calls extracted_params (first ++ second)%list
    = try* reached := scan_tool_calls extracted_params first in
      scan_tool_calls reached second.
Proof.
  induction first as [| call rest IH]; intros extracted_params; [reflexivity |].
  cbn [scan_tool_calls List.app].
  destruct (tool_call_step extracted_params call) as [e | reached]; [reflexivity |].
  cbn [exc_bind]. apply IH.
Qed.

(** The two loops visit the tool calls of the conversation in order. *)
Lemma scan_messages_flat (messages : list Message) :
  forall extracted_params,
    scan_messages extracted_params messages
    = scan_tool_calls extracted_params (tool_calls_in messages).
Proof.
  unfold tool_calls_in.
  induction messages as [| msg rest IH]; intros extracted_params; [reflexivity |].
  cbn [scan_messages List.flat_map]. rewrite scan_tool_calls_app.
  destruct (scan_tool_calls extracted_params (tool_calls_of msg)) as [e | reached];
    [reflexivity |].
  cbn [exc_bind]. apply IH.
Qed.

(** The three ways one iteration completes. *)
Lemma tool_call_step_cases (extracted_params reached : option TravelSearchParams.t)
    (call : ToolCall) :
  tool_call_step extracted_params call = inr reached ->
  (tool_name call = "search_flights"
   /\ exists flight_params,
        flight_params_of call = inr flight_params
        /\ reached
           = Some (match extracted_params with
                   | None =>
                       with_flight_info TravelSearchParams.default flight flight_params
                   | Some existing =>
                       with_flight_info existing
                         (if SearchType_eqb (TravelSearchParams.search_type existing)
                               hotel
                          then both else flight)
                         flight_params
                   end))
  \/ (tool_name call <> "search_flights" /\ tool_name call = "search_hotels"
      /\ exists hotel_params,
           hotel_params_of call = inr hotel_params
           /\ reached
              = Some (match extracted_params with
                      | None =>
                          with_hotel_info TravelSearchParams.default hotel hotel_params
                      | Some existing =>
                          with_hotel_info existing
                            (if SearchType_eqb
                                  (TravelSearchParams.search_type existing) flight
                             then both else hotel)
                            hotel_params
                      end))
  \/ (is_search_call call = false /\ reached = extracted_params).
Proof.
  unfold tool_call_step, is_search_call.
  fold (flight_params_of call). fold (hotel_params_of call).
  destruct (String.eqb_spec (tool_name call) "search_flights") as [Hflights | Hflights].
  - destruct (flight_params_of call) as [e | flight_params]; [intros [=] |].
    cbn [exc_bind]. intros Hreached. left. split; [assumption |].
    exists flight_params. split; [reflexivity |].
    destruct extracted_params; injection Hreached as <-; reflexivity.
  - destruct (String.eqb_spec (tool_name call) "search_hotels") as [Hhotels | Hhotels].
    + destruct (hotel_params_of call) as [e | hotel_params]; [intros [=] |].
      cbn [exc_bind]. intros Hreached. right. left.
      split; [assumption |]. split; [assumption |].
      exists hotel_params. split; [reflexivity |].
      destruct extracted_params; injection Hreached as <-; reflexivity.
    + intros [= <-]. right. right. split; reflexivity.
Qed.

(** Once parameters are recorded, they stay recorded. *)
Lemma scan_tool_calls_Some (calls : list ToolCall) :
  forall params reached,
    scan_tool_calls (Some params) calls = inr reached -> reached <> None.
Proof.
  induction calls as [| call rest IH]; intros params reached.
  - intros [= <-]. discriminate.
  - cbn [scan_tool_calls].
    destruct (tool_call_step (Some params) call) as [e | next] eqn:Hstep;
      [intros [=] |].
    cbn [exc_bind].
    destruct (tool_call_step_cases _ _ _ Hstep)
      as [(_ & fp & _ & ->) | [(_ & _ & hp & _ & ->) | (_ & ->)]]; apply IH.
Qed.

(** X11.  The extraction pass returns no parameters exactly when the
    conversation records no call of [search_flights] or [search_hotels]:
    calls of other tools neither create nor change the extracted
    parameters and cannot make the pass fail, and a search call whose
    arguments validate always leaves parameters behind. *)
Theorem no_params_iff_no_search_call (messages : list Message) :
  scan_messages None messages = inr None
  <-> Forall (fun call => is_search_call call = false) (tool_calls_in messages).
Proof.
  rewrite scan_messages_flat.
  generalize (tool_calls_in messages) as calls.
  induction calls as [| call rest IH].
  - split; [constructor | reflexivity].
  - cbn [scan_tool_calls]. split.
    + destruct (tool_call_step None call) as [e | next] eqn:Hstep; [intros [=] |].
      cbn [exc_bind]. intros Hrest.
      destruct (tool_call_step_cases _ _ _ Hstep)
        as [(_ & fp & _ & ->) | [(_ & _ & hp & _ & ->) | (Hother & ->)]].
      * exfalso. exact (scan_tool_calls_Some _ _ _ Hrest eq_refl).
      * exfalso. exact (scan_tool_calls_Some _ _ _ Hrest eq_refl).
      * constructor; [assumption | apply IH; assumption].
    + intros Hall. inversion Hall as [| ? ? Hother Hrest]; subst.
      assert (Hstep : tool_call_step None call = inr None).
      { unfold is_search_call in Hother. apply orb_false_elim in Hother.
        destruct Hother as [Hflights Hhotels].
        unfold tool_call_step. rewrite Hflights, Hhotels. reflexivity. }
      rewrite Hstep. cbn [exc_bind]. apply IH. assumption.
Qed.

(** Later calls of other tools, and of the hotel search, leave the flight
    fields as they are. *)
Lemma scan_keeps_flight_params (later : list ToolCall) :
  Forall (fun call => tool_name call <> "search_flights") later ->
  forall params reached flight_params,
    scan_tool_calls (Some params) later = inr reached ->
    carries_flight_params params flight_params ->
    exists params',
      reached = Some params'
      /\ carries_flight_params params' flight_params
      /\ (Forall (fun call => tool_name call <> "search_hotels") later ->
          params' = params).
Proof.
  induction 1 as [| call rest Hcall _ IH]; intros params reached flight_params.
  - intros [= <-] Hcarries. eauto.
  - cbn [scan_tool_calls].
    destruct (tool_call_step (Some params) call) as [e | next] eqn:Hstep;
      [intros [=] |].
    cbn [exc_bind]. intros Hrest Hcarries.
    destruct (tool_call_step_cases _ _ _ Hstep)
      as [(Hname & _) | [(_ & Hname & hp & _ & ->) | (_ & ->)]].
    + contradiction.
    + destruct (IH _ _ flight_params Hrest) as (params' & -> & Hcarries' & _);
        [exact Hcarries |].
      exists params'. split; [reflexivity |]. split; [assumption |].
      intros Hnone. inversion Hnone; subst. contradiction.
    + destruct (IH _ _ flight_params Hrest Hcarries) as (params' & -> & Hcarries' & Hsame).
      exists params'. split; [reflexivity |]. split; [assumption |].
      intros Hnone. inversion Hnone; subst. auto.
Qed.

(** Later calls of other tools, and of the flight search, leave the hotel
    fields as they are. *)
Lemma scan_keeps_hotel_params (later : list ToolCall) :
  Forall (fun call => tool_name call <> "search_hotels") later ->
  forall params reached hotel_params,
    scan_tool_calls (Some params) later = inr reached ->
    carries_hotel_params params hotel_params ->
    exists params',
      reached = Some params'
      /\ carries_hotel_params params' hotel_params
      /\ (Forall (fun call => tool_name call <> "search_flights") later ->
          params' = params).
Proof.
  induction 1 as [| call rest Hcall _ IH]; intros params reached hotel_params.
  - intros [= <-] Hcarries. eauto.
  - cbn [scan_tool_calls].
    destruct (tool_call_step (Some params) call) as [e | next] eqn:Hstep;
      [intros [=] |].
    cbn [exc_bind]. intros Hrest Hcarries.
    destruct (tool_call_step_cases _ _ _ Hstep)
      as [(Hname & fp & _ & ->) | [(_ & Hname & _) | (_ & ->)]].
    + destruct (IH _ _ hotel_params Hrest) as (params' & -> & Hcarries' & _);
        [exact Hcarries |].
      exists params'. split; [reflexivity |]. split; [assumption |].
      intros Hnone. inversion Hnone; subst. contradiction.
    + contradiction.
    + destruct (IH _ _ hotel_params Hrest Hcarries) as (params' & -> & Hcarries' & Hsame).
      exists params'. split; [reflexivity |]. split; [assumption |].
      intros Hnone. inversion Hnone; subst. auto.
Qed.

(** No step of the pass sets the amenities. *)
Lemma scan_amenities (calls : list ToolCall) :
  forall extracted_params params,
    scan_tool_calls extracted_params calls = inr (Some params) ->
    (forall existing, extracted_params = Some existing ->
       TravelSearchParams.amenities existing = None) ->
    TravelSearchParams.amenities params = None.
Proof.
  induction calls as [| call rest IH]; intros extracted_params params.
  - intros [= ->] Hnone. auto.
  - cbn [scan_tool_calls].
    destruct (tool_call_step extracted_params call) as [e | next] eqn:Hstep;
      [intros [=] |].
    cbn [exc_bind]. intros Hrest Hnone. apply (IH _ _ Hrest).
    destruct (tool_call_step_cases _ _ _ Hstep)
      as [(_ & fp & _ & ->) | [(_ & _ & hp & _ & ->) | (_ & ->)]];
      try assumption;
      intros existing [= <-]; destruct extracted_params; cbn; auto.
Qed.

Lemma hotel_params_of_amenities (call : ToolCall) (hotel_params : HotelSearchParams.t) :
  hotel_params_of call = inr hotel_params ->
  HotelSearchParams.amenities hotel_params = None.
Proof.
  unfold hotel_params_of, HotelSearchParams.init.
  repeat match goal with
         | |- context [match ?x with Some _ => _ | None => _ end] => destruct x
         end; intros [=]; subst; reflexivity.
Qed.

(** The pass from the start up to and including a given call. *)
Lemma scan_through (before later : list ToolCall) (call : ToolCall)
    (result : option TravelSearchParams.t) :
  scan_tool_calls None (before ++ call :: later)%list = inr result ->
  exists reached next,
    scan_tool_calls None before = inr reached
    /\ tool_call_step reached call = inr next
    /\ scan_tool_calls next later = inr result.
Proof.
  rewrite scan_tool_calls_app.
  destruct (scan_tool_calls None before) as [e | reached]; [intros [=] |].
  cbn [exc_bind scan_tool_calls].
  destruct (tool_call_step reached call) as [e | next] eqn:Hstep; [intros [=] |].
  cbn [exc_bind]. intros Hrest.
  exists reached, next. repeat split; assumption.
Qed.

(** X12.  When the extraction pass of a turn completes, the flight fields
    of the parameters it returns are the validated arguments of the last
    recorded [search_flights] call, whatever calls came before it and
    whichever calls of other tools, hotel searches included, come after it;
    and when no hotel search comes after it either,
    [TravelSearchParams.get_flight_params] gives back exactly these
    arguments. *)
Theorem last_flight_call_is_recorded (messages : list Message)
    (before later : list ToolCall) (call : ToolCall)
    (result : option TravelSearchParams.t) :
  tool_calls_in messages = (before ++ call :: later)%list ->
  tool_name call = "search_flights" ->
  Forall (fun call => tool_name call <> "search_flights") later ->
  scan_messages None messages = inr result ->
  exists flight_params params,
    flight_params_of call = inr flight_params
    /\ result = Some params
    /\ carries_flight_params params flight_params
    /\ (Forall (fun call => tool_name call <> "search_hotels") later ->
        TravelSearchParams_get_flight_params params = Some flight_params).
Proof.
  intros Hcalls Hname Hlater. rewrite scan_messages_flat, Hcalls. intros Hscan.
  destruct (scan_through _ _ _ _ Hscan) as (reached & next & _ & Hstep & Hrest).
  destruct (tool_call_step_cases _ _ _ Hstep)
    as [(_ & fp & Hfp & ->) | [(Hother & _) | (Hother & _)]].
  - set (recorded := match reached with
                     | Some existing => _
                     | None => _
                     end) in Hrest.
    assert (Hcarries : carries_flight_params recorded fp)
      by (subst recorded; destruct reached; repeat split).
    assert (Hget : TravelSearchParams_get_flight_params recorded = Some fp).
    { subst recorded. destruct fp, reached as [existing |]; [| reflexivity].
      unfold TravelSearchParams_get_flight_params. cbn.
      destruct (SearchType_eqb _ hotel); reflexivity. }
    destruct (scan_keeps_flight_params later Hlater _ _ fp Hrest Hcarries)
      as (params & -> & Hcarries' & Hsame).
    exists fp, params.
    split; [exact Hfp |]. split; [reflexivity |]. split; [exact Hcarries' |].
    intros Hnone. rewrite (Hsame Hnone). exact Hget.
  - contradiction.
  - unfold is_search_call in Hother. rewrite Hname in Hother. discriminate.
Qed.

(** X13.  Likewise the hotel fields of the parameters the pass returns are
    the validated arguments of the last recorded [search_hotels] call, with
    no amenities, whichever calls of other tools, flight searches included,
    come after it; and when no flight search comes after it either,
    [TravelSearchParams.get_hotel_params] gives back exactly these
    arguments. *)
Theorem last_hotel_call_is_recorded (messages : list Message)
    (before later : list ToolCall) (call : ToolCall)
    (result : option TravelSearchParams.t) :
  tool_calls_in messages = (before ++ call :: later)%list ->
  tool_name call = "search_hotels" ->
  Forall (fun call => tool_name call <> "search_hotels") later ->
  scan_messages None messages = inr result ->
  exists hotel_params params,
    hotel_params_of call = inr hotel_params
    /\ result = Some params
    /\ carries_hotel_params params hotel_params
    /\ (Forall (fun call => tool_name call <> "search_flights") later ->
        TravelSearchParams_get_hotel_params params = Some hotel_params).
Proof.
  intros Hcalls Hname Hlater. rewrite scan_messages_flat, Hcalls. intros Hscan.
  destruct (scan_through _ _ _ _ Hscan) as (reached & next & Hbefore & Hstep & Hrest).
  destruct (tool_call_step_cases _ _ _ Hstep)
    as [(Hother & _) | [(_ & _ & hp & Hhp & ->) | (Hother & _)]].
  - rewrite Hname in Hother. discriminate.
  - pose proof (hotel_params_of_amenities _ _ Hhp) as Hamenities.
    assert (Hreached : forall existing, reached = Some existing ->
                         TravelSearchParams.amenities existing = None).
    { intros existing ->. apply (scan_amenities _ _ _ Hbefore). discriminate. }
    set (recorded := match reached with
                     | Some existing => _
                     | None => _
                     end) in Hrest.
    assert (Hcarries : carries_hotel_params recorded hp).
    { subst recorded. destruct reached as [existing |]; repeat split; cbn;
        rewrite Hamenities; [apply Hreached |]; reflexivity. }
    assert (Hget : TravelSearchParams_get_hotel_params recorded = Some hp).
    { subst recorded. destruct hp. cbn in Hamenities. subst.
      destruct reached as [existing |]; [| reflexivity].
      unfold TravelSearchParams_get_hotel_params. cbn.
      rewrite (Hreached existing eq_refl).
      destruct (SearchType_eqb _ flight); reflexivity. }
    destruct (scan_keeps_hotel_params later Hlater _ _ hp Hrest Hcarries)
      as (params & -> & Hcarries' & Hsame).
    exists hp, params.
    split; [exact Hhp |]. split; [reflexivity |]. split; [exact Hcarries' |].
    intros Hnone. rewrite (Hsame Hnone). exact Hget.
  - unfold is_search_call in Hother. rewrite Hname in Hother.
    rewrite orb_true_r in Hother. discriminate.
Qed.

End WithLibrary.

Lemma last_flight_call_is_recorded_witness :
  let messages := [AIMessage "" [Sample.hotels_call; Sample.flights_call]] in
  exists flight_params params,
    flight_params_of Sample.flights_call = inr flight_params
    /\ scan_messages None messages = inr (Some params)
    /\ TravelSearchParams_get_flight_params params = Some flight_params.
Proof.
  intros messages.
  destruct (scan_messages None messages) as [e | result] eqn:Hscan;
    [vm_compute in Hscan; discriminate |].
  destruct (last_flight_call_is_recorded (LIB := plain_library) messages
              [Sample.hotels_call] [] Sample.flights_call result
              eq_refl eq_refl ltac:(constructor) Hscan)
    as (flight_params & params & Hparams & -> & _ & Hget).
  exists flight_params, params.
  split; [exact Hparams |]. split; [reflexivity |]. apply Hget. constructor.
Defined.

Lemma last_hotel_call_is_recorded_witness :
  let messages :=
    [AIMessage "" [Sample.hotels_call]; AIMessage "" [Sample.flights_call]] in
  exists hotel_params params,
    hotel_params_of Sample.hotels_call = inr hotel_params
    /\ scan_messages None messages = inr (Some params)
    /\ carries_hotel_params params hotel_params.
Proof.
  intros messages.
  destruct (scan_messages None messages) as [e | result] eqn:Hscan;
    [vm_compute in Hscan; discriminate |].
  destruct (last_hotel_call_is_recorded (LIB := plain_library) messages
              [] [Sample.flights_call] Sample.hotels_call result
              eq_refl eq_refl
              ltac:(repeat constructor; vm_compute; discriminate) Hscan)
    as (hotel_params & params & Hparams & -> & Hcarries & _).
  exists hotel_params, params.
  split; [exact Hparams |]. split; [reflexivity | exact Hcarries].
Defined.

End ScanFacts.

(** ** The reply scan and the thread of a turn *)

Module ReplyFacts.
Import Py Models TravelAgent.

(** Substrings: [needle in hay] holds exactly when [hay] is [needle] with
    something before and something after. *)
Lemma append_assoc (a b c : string) : (a ++ b) ++ c = a ++ (b ++ c).
Proof.
  induction a as [| x a IH]; [reflexivity |].
  change (String x ((a ++ b) ++ c) = String x (a ++ b ++ c)).
  f_equal. exact IH.
Qed.

Lemma prefix_append (a post : string) : String.prefix a (a ++ post) = true.
Proof.
  induction a as [| x a IH].
  { change (String.prefix "" post = true). destruct post; reflexivity. }
  change (String.prefix (String x a) (String x (a ++ post)) = true).
  cbn [String.prefix].
  destruct (Ascii.ascii_dec x x) as [_ | Hne]; [exact IH | congruence].
Qed.

Lemma prefix_split (a b : string) :
  String.prefix a b = true -> exists post, b = a ++ post.
Proof.
  revert b. induction a as [| x a IH]; intros b.
  - intros _. exists b. reflexivity.
  - destruct b as [| y b]; [discriminate |].
    cbn [String.prefix].
    destruct (Ascii.ascii_dec x y) as [<- | _]; [| discriminate].
    intros Hprefix. destruct (IH b Hprefix) as [post ->].
    exists post. reflexivity.
Qed.

Lemma str_in_prefix (a b : string) : String.prefix a b = true -> str_in a b = true.
Proof. intros Hprefix. destruct b; cbn [str_in]; rewrite Hprefix; reflexivity. Qed.

Lemma str_in_intro (a pre post : string) : str_in a (pre ++ a ++ post) = true.
Proof.
  induction pre as [| x pre IH].
  - change (str_in a (a ++ post) = true). apply str_in_prefix, prefix_append.
  - change (str_in a (String x (pre ++ a ++ post)) = true).
    cbn [str_in]. rewrite IH. apply orb_true_r.
Qed.

Lemma str_in_elim (a b : string) :
  str_in a b = true -> exists pre post, b = pre ++ a ++ post.
Proof.
  induction b as [| y b IH]; cbn [str_in]; intros Hin;
    apply orb_true_iff in Hin; destruct Hin as [Hprefix | Hlater];
    try discriminate.
  - destruct (prefix_split _ _ Hprefix) as [post ->]. exists "", post. reflexivity.
  - destruct (prefix_split _ _ Hprefix) as [post ->]. exists "", post. reflexivity.
  - destruct (IH Hlater) as (pre & post & ->). exists (String y pre), post. reflexivity.
Qed.

Lemma str_in_trans (a b c : string) :
  str_in a b = true -> str_in b c = true -> str_in a c = true.
Proof.
  intros Hab Hbc.
  destruct (str_in_elim _ _ Hab) as (p1 & q1 & ->).
  destruct (str_in_elim _ _ Hbc) as (p2 & q2 & ->).
  replace (p2 ++ (p1 ++ a ++ q1) ++ q2) with ((p2 ++ p1) ++ a ++ (q1 ++ q2)).
  - apply str_in_intro.
  - rewrite !append_assoc. reflexivity.
Qed.

(** An optional token in front of a sub-list. *)
Lemma sublist_optional (b : bool) (token : string) (l1 l2 : list string) :
  l1 `sublist_of` l2 ->
  ((if b then [token] else []) ++ l1)%list `sublist_of` (token :: l2).
Proof. intros Hsub. destruct b; cbn; constructor; assumption. Qed.

Section WithStr.
Context {STR : StrMethods}.

(** X14.  Whatever the reply, [missing_params] is a selection from the
    seven tokens "departure_location", "arrival_location", "check_in_date",
    "check_out_date", "dates", "passengers_or_guests", "location", in this
    order and without repetition; and it is empty unless
    [needs_clarification] is set. *)
Theorem missing_params_shape (response_content : string) :
  let needs_clarification := fst (scan_reply response_content) in
  let missing_params := snd (scan_reply response_content) in
  missing_params
    `sublist_of` [ "departure_location"; "arrival_location"; "check_in_date";
                   "check_out_date"; "dates"; "passengers_or_guests"; "location" ]
  /\ NoDup missing_params
  /\ (needs_clarification = false -> missing_params = []).
Proof.
  intros needs_clarification missing_params.
  assert (Hsub : missing_params
                   `sublist_of` [ "departure_location"; "arrival_location";
                                  "check_in_date"; "check_out_date"; "dates";
                                  "passengers_or_guests"; "location" ]).
  { subst missing_params. unfold scan_reply.
    destruct (any _ clarification_indicators); cbn [snd].
    - do 6 apply sublist_optional.
      match goal with |- context [if ?c then _ else _] => destruct c end;
        repeat constructor.
    - apply sublist_nil_l. }
  split; [exact Hsub |]. split.
  - eapply sublist_NoDup; [| exact Hsub].
    apply (bool_decide_unpack _). vm_compute. exact I.
  - subst needs_clarification missing_params. unfold scan_reply.
    destruct (any _ clarification_indicators); cbn [fst snd];
      [discriminate | reflexivity].
Qed.

(** X15.  Three of the clarification indicators bring a parameter with
    them: a reply that contains "when" sets [needs_clarification] and
    reports "dates", one that contains "where" reports "location", and one
    that contains "need to know" reports "arrival_location", because "to"
    is part of the indicator - whatever the reply is about. *)
Theorem indicators_name_a_parameter (response_content : string) :
  let response_lower := str_lower response_content in
  let needs_clarification := fst (scan_reply response_content) in
  let missing_params := snd (scan_reply response_content) in
  (str_in "when" response_lower = true ->
   needs_clarification = true /\ In "dates" missing_params)
  /\ (str_in "where" response_lower = true ->
      needs_clarification = true /\ In "location" missing_params)
  /\ (str_in "need to know" response_lower = true ->
      needs_clarification = true /\ In "arrival_location" missing_params).
Proof.
  intros response_lower needs_clarification missing_params.
  subst needs_clarification missing_params. unfold scan_reply. fold response_lower.
  assert (Hany : forall indicator,
            In indicator clarification_indicators ->
            str_in indicator response_lower = true ->
            any (fun word : string => str_in word response_lower)
              clarification_indicators = true).
  { intros indicator Hlisted Hin. unfold any. apply List.existsb_exists. eauto. }
  split; [| split]; intros Hin.
  - rewrite (Hany "when") by (cbn; auto 12). cbn [fst snd].
    split; [reflexivity |]. rewrite Hin, orb_true_r.
    rewrite !List.in_app_iff. do 4 right. left. left. reflexivity.
  - rewrite (Hany "where") by (cbn; auto 12). cbn [fst snd].
    split; [reflexivity |]. rewrite Hin, orb_true_r.
    rewrite !List.in_app_iff. do 6 right. left. reflexivity.
  - rewrite (Hany "need to know") by (cbn; auto 12). cbn [fst snd].
    split; [reflexivity |].
    rewrite (str_in_trans "to" "need to know" response_lower eq_refl Hin).
    rewrite !orb_true_r.
    rewrite !List.in_app_iff. right. left. left. reflexivity.
Qed.

End WithStr.
End ReplyFacts.

(** ** Turns and routes *)

Module EndpointFacts.
Import Py Models.

Section WithRuntime.
Context {STR : StrMethods} {LIB : Library} {RT : TravelAgent.Runtime}
  {ENV : Chat.Environment}.

(** X16.  A turn calls the agent runtime once, under the thread id of the
    request or, when the request has none, under "thread_" followed by the
    first clock reading, and the agent keeps the state the runtime reached
    whether or not the rest of the turn fails.  The response carries that
    thread id, except that a failed turn of a request without thread id
    answers with "thread_" followed by the second clock reading.  A request
    with a non-empty thread id always gets its own id back. *)
Theorem turn_runs_under_one_thread (self : TravelAgent.t) (request : ChatRequest.t)
    (timestamp timestamp' : string) :
  let used := TravelAgent.thread_id_or_fresh request timestamp in
  let result := TravelAgent.process_message self request timestamp timestamp' in
  TravelAgent.checkpointer (snd result)
  = snd (TravelAgent.agent_invoke (TravelAgent.checkpointer self) used
           (ChatRequest.message request))
  /\ TravelAgent.model_name (snd result) = TravelAgent.model_name self
  /\ (ChatResponse.thread_id (fst result) = used
      \/ (exists e, fst (TravelAgent.process_message_try self request timestamp) = inl e)
         /\ ChatResponse.thread_id (fst result)
            = TravelAgent.thread_id_or_fresh request timestamp')
  /\ (forall id,
        nonempty (ChatRequest.thread_id request) = Some id ->
        used = id /\ ChatResponse.thread_id (fst result) = id).
Proof.
  intros used result.
  assert (Hstate : snd result
                   = {| TravelAgent.model_name := TravelAgent.model_name self;
                        TravelAgent.checkpointer :=
                          snd (TravelAgent.agent_invoke (TravelAgent.checkpointer self)
                                 used (ChatRequest.message request)) |}).
  { subst result used.
    unfold TravelAgent.process_message, TravelAgent.process_message_try.
    destruct (TravelAgent.agent_invoke _ _ _) as [answer checkpoints].
    cbn [snd]. destruct (exc_bind _ _); reflexivity. }
  assert (Hthread : ChatResponse.thread_id (fst result) = used
                    \/ (exists e, fst (TravelAgent.process_message_try self request
                                         timestamp) = inl e)
                       /\ ChatResponse.thread_id (fst result)
                          = TravelAgent.thread_id_or_fresh request timestamp').
  { subst result. unfold TravelAgent.process_message.
    destruct (TravelAgent.process_message_try self request timestamp)
      as [[e | response] self'] eqn:Htry; cbn [fst].
    - right. split; [eauto | reflexivity].
    - left.
      destruct (TravelAgentFacts.process_message_try_inr _ _ _ _ _ Htry)
        as (messages & content & params & _ & _ & _ & ->).
      reflexivity. }
  rewrite Hstate. split; [reflexivity |]. split; [reflexivity |].
  split; [exact Hthread |].
  intros id Hid.
  assert (Hfresh : forall reading, TravelAgent.thread_id_or_fresh request reading = id)
    by (intros reading; unfold TravelAgent.thread_id_or_fresh; rewrite Hid; reflexivity).
  split; [apply Hfresh |].
  destruct Hthread as [-> | [_ ->]]; apply Hfresh.
Qed.

(** X17.  [send_message] answers with HTTP 500 only when the agent
    singleton does not exist and cannot be built; the process state is then
    left as it was, so the next call tries to build the agent again.
    Otherwise it answers 200 with the response of [process_message] and
    stores the agent that call left; and once it has answered 200, every
    later call answers 200. *)
Theorem send_message_answers (request : ChatRequest.t) (timestamp timestamp' : string)
    (w : Chat.world) :
  let result := Chat.send_message request timestamp timestamp' w in
  match Chat.get_travel_agent w with
  | (inl e, _) =>
      result = (Chat.HTTPException 500 ("Failed to process message: " ++ str_exn e), w)
      /\ Chat._travel_agent w = None
  | (inr agent, _) =>
      let turn := TravelAgent.process_message agent request timestamp timestamp' in
      result = (Chat.Ok (fst turn), {| Chat._travel_agent := Some (snd turn) |})
      /\ forall later reading reading',
           exists response,
             fst (Chat.send_message later reading reading' (snd result))
             = Chat.Ok response
  end.
Proof.
  intros result. subst result.
  unfold Chat.send_message, Chat.get_travel_agent.
  destruct (Chat._travel_agent w) as [agent |] eqn:Hagent.
  - destruct (TravelAgent.process_message agent request timestamp timestamp')
      as [response agent'].
    split; [reflexivity |]. intros later reading reading'. cbn [snd Chat._travel_agent].
    destruct (TravelAgent.process_message agent' later reading reading'). eauto.
  - destruct Chat.TravelAgent_init as [e | agent].
    + split; reflexivity.
    + destruct (TravelAgent.process_message agent request timestamp timestamp')
        as [response agent'].
      split; [reflexivity |]. intros later reading reading'.
      cbn [snd Chat._travel_agent].
      destruct (TravelAgent.process_message agent' later reading reading'). eauto.
Qed.

(** X18.  The route [POST /chat/extract-params] never answers 200: it
    answers 400 "Message is required" when the request has no message or an
    empty one, and 500 otherwise, because the agent it asks is a
    [TravelAgent], which has no method [extract_flight_params]. *)
Theorem extract_params_never_succeeds (request : gmap string string) (w : Chat.world) :
  let answer := fst (Chat.extract_flight_params request w) in
  (forall body, answer <> Chat.Ok body)
  /\ (default "" (request !! "message") = ""
      -> answer = Chat.HTTPException 400 "Message is required")
  /\ (default "" (request !! "message") <> ""
      -> exists detail, answer = Chat.HTTPException 500 detail).
Proof.
  intros answer. subst answer. unfold Chat.extract_flight_params, truthy_str.
  destruct (String.eqb_spec (default "" (request !! "message")) "") as [Hempty | Hfull];
    cbn [negb fst].
  - split; [discriminate |]. split; [reflexivity | contradiction].
  - unfold Chat.get_travel_agent, Chat.TravelAgent_extract_flight_params.
    destruct (Chat._travel_agent w) as [agent |]; cbn [fst].
    + split; [discriminate |]. split; [contradiction | eauto].
    + destruct Chat.TravelAgent_init as [e | agent]; cbn [fst];
        (split; [discriminate |]); (split; [contradiction | eauto]).
Qed.

(** X19.  The route [DELETE /chat/conversation/{thread_id}] clears
    nothing: whenever the agent is available it answers with the status
    "success" and the message "Conversation ... cleared successfully", and
    the agent it leaves in the singleton is the agent it found, with every
    conversation of its checkpointer in place.  The answer "Failed to clear
    conversation ..." is never given. *)
Theorem clear_conversation_keeps_history (thread_id : string) (w : Chat.world) :
  let result := Conversations.clear_conversation thread_id w in
  match Chat.get_travel_agent w with
  | (inr agent, _) =>
      result
      = (Chat.Ok {| Conversations.status := Conversations.SUCCESS;
                    Conversations.message :=
                      Some ("Conversation " ++ thread_id ++ " cleared successfully") |},
         {| Chat._travel_agent := Some agent |})
  | (inl e, _) =>
      result
      = (Chat.HTTPException 500 ("Failed to clear conversation: " ++ str_exn e), w)
  end
  /\ (forall agent, Chat._travel_agent w = Some agent -> snd result = w)
  /\ (forall text,
        fst result
        <> Chat.Ok {| Conversations.status := Conversations.ERROR;
                      Conversations.message := text |}).
Proof.
  intros result. subst result. unfold Conversations.clear_conversation.
  unfold Chat.get_travel_agent.
  destruct w as [[agent |]]; cbn [Chat._travel_agent].
  - cbn. split; [reflexivity |]. split; [reflexivity | discriminate].
  - destruct Chat.TravelAgent_init as [e | agent]; cbn;
      (split; [reflexivity |]); (split; [discriminate | discriminate]).
Qed.

End WithRuntime.
End EndpointFacts.

(** ** Request identity *)

Module IdentityFacts.
Import Py Identity.

Lemma append_inv_head (p a b : string) : p ++ a = p ++ b -> a = b.
Proof.
  induction p as [| x p IH]; [intros H; exact H |].
  change (String x (p ++ a) = String x (p ++ b) -> a = b).
  intros [= H]. apply IH. exact H.
Qed.

Lemma nonempty_None_or_Some (o : option string) :
  nonempty o = None \/ exists s, nonempty o = Some s /\ s <> "".
Proof.
  destruct o as [s |]; [| left; reflexivity]. cbn [nonempty]. unfold truthy_str.
  destruct (String.eqb_spec s ""); cbn [negb]; [left; reflexivity | right; eauto].
Qed.

(** X20.  Two requests get the same rate-limit key exactly when they carry
    the same non-empty user id, or carry none and have the same non-empty
    API key, or carry neither: the keys of users, of API keys and of
    anonymous requests never coincide, and a user id takes precedence over
    an API key. *)
Theorem rate_limit_key_separates (user_id api_key user_id' api_key' : option string) :
  get_rate_limit_key user_id api_key = get_rate_limit_key user_id' api_key'
  <-> nonempty user_id = nonempty user_id'
      /\ (nonempty user_id = None -> nonempty api_key = nonempty api_key').
Proof.
  unfold get_rate_limit_key.
  destruct (nonempty user_id) as [u |], (nonempty user_id') as [u' |].
  - split.
    + intros H. apply append_inv_head in H. subst. split; [reflexivity | discriminate].
    + intros [[= ->] _]. reflexivity.
  - split; [| intros [[=] _]].
    destruct (nonempty api_key') as [k' |]; cbv [String.append]; intros [=].
  - split; [| intros [[=] _]].
    destruct (nonempty api_key) as [k |]; cbv [String.append]; intros [=].
  - destruct (nonempty api_key) as [k |], (nonempty api_key') as [k' |].
    + split.
      * intros H. apply append_inv_head in H. subst. auto.
      * intros [_ H]. specialize (H eq_refl). injection H as ->. reflexivity.
    + split; [cbv [String.append]; intros [=] | intros [_ H]].
      specialize (H eq_refl). discriminate.
    + split; [cbv [String.append]; intros [=] | intros [_ H]].
      specialize (H eq_refl). discriminate.
    + split; auto.
Qed.

Lemma substring_all (s : string) : String.substring 0 (String.length s) s = s.
Proof.
  induction s as [| c s IH]; [reflexivity |].
  cbn [String.length String.substring]. rewrite IH. reflexivity.
Qed.

Lemma from_7_Bearer (token : string) : from_7 ("Bearer " ++ token) = token.
Proof.
  unfold from_7.
  change ("Bearer " ++ token)
    with (String "B" (String "e" (String "a" (String "r" (String "e" (String "r"
            (String " " token))))))).
  cbn [String.length Nat.sub String.substring].
  rewrite Nat.sub_0_r. apply substring_all.
Qed.

Lemma prefix_Bearer (s : string) :
  String.prefix "Bearer " s = true <-> exists token, s = "Bearer " ++ token.
Proof.
  split.
  - apply ReplyFacts.prefix_split.
  - intros [token ->]. apply ReplyFacts.prefix_append.
Qed.

(** X21.  A request is authenticated exactly when its Authorization header
    starts with "Bearer " - whatever follows, an empty token included.  The
    user id is then "user_" followed by the hash of the token taken modulo
    10000, a number from 0 to 9999; every other header, and a missing one,
    is refused with 401 "Authentication required". *)
Theorem bearer_header_authenticates {HASH : Hashing} (authorization : option string) :
  match get_authenticated_user (get_current_user_id authorization) with
  | Chat.Ok user_id =>
      exists token,
        authorization = Some ("Bearer " ++ token)
        /\ user_id = "user_" ++ decimal (hash token mod 10000)
        /\ 0 <= hash token mod 10000 < 10000
  | Chat.HTTPException status_code detail =>
      status_code = 401
      /\ detail = "Authentication required"
      /\ forall token, authorization <> Some ("Bearer " ++ token)
  end.
Proof.
  unfold get_current_user_id.
  destruct authorization as [header |]; cbn [nonempty];
    [| repeat split; discriminate].
  unfold truthy_str.
  destruct (String.eqb_spec header "") as [-> | Hfull]; cbn [negb].
  { repeat split. intros token. cbv [String.append]. discriminate. }
  destruct (String.prefix "Bearer " header) eqn:Hprefix.
  - apply prefix_Bearer in Hprefix. destruct Hprefix as [token ->].
    rewrite from_7_Bearer.
    change (get_authenticated_user
              (Some (String "u" ("ser_" ++ decimal (hash token mod 10000)))))
      with (Chat.Ok (A := string)
              ("user_" ++ decimal (hash token mod 10000))).
    exists token. split; [reflexivity |]. split; [reflexivity |].
    apply Z.mod_pos_bound. lia.
  - repeat split. intros token [= ->].
    rewrite ReplyFacts.prefix_append in Hprefix. discriminate.
Qed.

Section WithStr.
Context {STR : StrMethods}.

(** X22.  [validate_api_key] refuses with 401 only, returns an accepted key
    as it was given, and accepts a key that is one of the configured keys
    (the comma-separated entries of VALID_API_KEYS, stripped, the blank
    ones dropped); but when VALID_API_KEYS is not set, or set to the empty
    string, there is no configured key and every non-empty key is
    accepted. *)
Theorem api_key_validation_cases (VALID_API_KEYS api_key : option string) :
  match validate_api_key VALID_API_KEYS api_key with
  | Chat.Ok key =>
      api_key = Some key /\ key <> ""
      /\ (valid_api_keys VALID_API_KEYS = []
          \/ In key (valid_api_keys VALID_API_KEYS))
  | Chat.HTTPException status_code detail =>
      status_code = 401
      /\ (nonempty api_key = None
          \/ exists key,
               api_key = Some key
               /\ valid_api_keys VALID_API_KEYS <> []
               /\ ~ In key (valid_api_keys VALID_API_KEYS))
  end
  /\ (default "" VALID_API_KEYS = "" ->
      forall key, key <> "" ->
        validate_api_key VALID_API_KEYS (Some key) = Chat.Ok key).
Proof.
  assert (Hmember : forall key keys,
            str_in_list key keys = true <-> In key keys).
  { intros key keys. unfold str_in_list. rewrite List.existsb_exists. split.
    - intros (k & Hk & Heq). apply String.eqb_eq in Heq. subst. exact Hk.
    - intros Hk. exists key. split; [exact Hk | apply String.eqb_refl]. }
  split.
  - unfold validate_api_key.
    destruct api_key as [key |]; cbn [nonempty]; [| split; [reflexivity | auto]].
    unfold truthy_str.
    destruct (String.eqb_spec key "") as [-> | Hfull]; cbn [negb];
      [split; [reflexivity | auto] |].
    destruct (valid_api_keys VALID_API_KEYS) as [| first more] eqn:Hkeys;
      [repeat split; auto |].
    destruct (str_in_list key (first :: more)) eqn:Hin; cbn [negb].
    + apply Hmember in Hin. repeat split; auto.
    + split; [reflexivity |]. right. exists key.
      split; [reflexivity |]. split; [discriminate |].
      intros Hk. apply Hmember in Hk. congruence.
  - intros Hunset key Hfull. unfold validate_api_key, valid_api_keys.
    rewrite Hunset. cbn [nonempty]. unfold truthy_str.
    destruct (String.eqb_spec key ""); [contradiction |]. reflexivity.
Qed.

End WithStr.

End IdentityFacts.

(** ** Histories of rate-limited calls *)

Module RateLimitHistoryFacts.
Import Dependencies RateLimitHistory.

Lemma recent_app (window : Z) (now : Q) (a b : list Q) :
  recent window now (a ++ b)%list
  = (recent window now a ++ recent window now b)%list.
Proof. unfold recent. apply List.filter_app. Qed.

(** Pruning for an earlier call loses nothing a later call would keep. *)
Lemma recent_recent (window : Z) (earlier now : Q) (times : list Q) :
  (earlier <= now)%Q ->
  recent window now (recent window earlier times) = recent window now times.
Proof.
  intros Hle. unfold recent.
  induction times as [| t rest IH]; [reflexivity |].
  cbn [List.filter].
  destruct (Qgtb t (earlier - inject_Z window)) eqn:Hearlier.
  - cbn [List.filter]. rewrite IH. reflexivity.
  - rewrite IH.
    destruct (Qgtb t (now - inject_Z window)) eqn:Hnow; [| reflexivity].
    apply DependenciesFacts.Qgtb_lt in Hnow.
    assert (Hkept : Qgtb t (earlier - inject_Z window) = true)
      by (apply DependenciesFacts.Qgtb_lt; lra).
    congruence.
Qed.

Lemma stored_init (key : string) : stored RateLimiter_init key = [].
Proof. reflexivity. Qed.

(** What the ledger holds agrees, inside the window of any call that is
    still to come, with the readings of the calls admitted so far. *)
Lemma serve_tracks (limit window : Z) (earlier : list (string * Q)) :
  forall (self : RateLimiter) (history : string -> list Q) (t0 : Q)
         (key : string) (now : Q),
    (forall k t, (t0 <= t)%Q ->
       recent window t (stored self k) = recent window t (history k)) ->
    chronological t0 (earlier ++ [(key, now)])%list ->
    recent window now (stored (serve self limit window earlier) key)
    = recent window now
        (history key ++ admitted self limit window earlier key)%list.
Proof.
  induction earlier as [| [k t] rest IH]; intros self history t0 key now Hagree.
  - cbn. intros [Hle _]. rewrite List.app_nil_r. apply Hagree, Hle.
  - cbn [List.app chronological serve admitted]. intros [Hle Hrest].
    rewrite DependenciesFacts.is_allowed_unfold.
    set (full := (Z.of_nat (List.length (pruned self k window t)) >=? limit)%Z).
    set (added := if negb full then [t] else []).
    assert (Hstep : (if full
                     then (false, {| requests := <[k := pruned self k window t]>
                                                   (requests self) |})
                     else (true, {| requests :=
                                      <[k := (pruned self k window t ++ [t])%list]>
                                        (requests self) |}))
                    = (negb full,
                       {| requests := <[k := (pruned self k window t ++ added)%list]>
                                        (requests self) |})).
    { subst added. destruct full; cbn [negb]; [rewrite List.app_nil_r |]; reflexivity. }
    rewrite Hstep. cbn [snd].
    rewrite List.app_assoc.
    apply (IH _ (fun k' => (history k' ++ (if negb full && String.eqb k k'
                                           then [t] else []))%list) t);
      [| exact Hrest].
    intros k' t' Hle'.
    destruct (String.eqb_spec k k') as [<- | Hne].
    + rewrite DependenciesFacts.stored_insert, andb_true_r.
      fold added. rewrite !recent_app. f_equal.
      change (pruned self k window t) with (recent window t (stored self k)).
      rewrite recent_recent by exact Hle'.
      apply Hagree. lra.
    + destruct self as [ledger].
      rewrite DependenciesFacts.stored_insert_ne by congruence.
      rewrite andb_false_r, List.app_nil_r. apply Hagree. lra.
Qed.

(** X23.  Served from an empty ledger with clock readings that never go
    back, the rate limiter admits a call exactly when fewer than [limit]
    calls of the same key were admitted at readings later than the call's
    reading minus the window: the decision depends on the admitted calls
    of that key inside the window and on nothing else - not on refused
    calls, not on other keys, and not on when the ledger was last pruned. *)
Theorem admitted_iff_quota (limit window : Z) (earlier : list (string * Q))
    (key : string) (now t0 : Q) :
  chronological t0 (earlier ++ [(key, now)])%list ->
  fst (is_allowed (serve RateLimiter_init limit window earlier) key limit window now)
  = true
  <-> (Z.of_nat (List.length
                   (recent window now
                      (admitted RateLimiter_init limit window earlier key)))
       < limit)%Z.
Proof.
  intros Hclock.
  pose proof (serve_tracks limit window earlier RateLimiter_init (fun _ => []) t0
                key now (fun k t _ => eq_refl) Hclock) as Htracks.
  cbn [List.app] in Htracks.
  rewrite DependenciesFacts.is_allowed_unfold.
  change (pruned (serve RateLimiter_init limit window earlier) key window now)
    with (recent window now
            (stored (serve RateLimiter_init limit window earlier) key)).
  rewrite Htracks.
  destruct (Z.geb_spec
              (Z.of_nat (List.length
                           (recent window now
                              (admitted RateLimiter_init limit window earlier key))))
              limit) as [Hfull | Hroom]; cbn [fst]; split; intros Hside;
    try lia; try discriminate; reflexivity.
Qed.

(** X24.  With a limit that is not negative and clock readings that never
    go back, the calls of one key admitted inside the window that ends at
    any reading not earlier than the last call are never more than
    [limit]. *)
Theorem quota_never_exceeded (limit window : Z) (calls : list (string * Q))
    (key : string) (now t0 : Q) :
  (0 <= limit)%Z ->
  chronological t0 (calls ++ [(key, now)])%list ->
  (Z.of_nat (List.length
               (recent window now (admitted RateLimiter_init limit window calls key)))
   <= limit)%Z.
Proof.
  intros Hlimit Hclock.
  pose proof (serve_tracks limit window calls RateLimiter_init (fun _ => []) t0
                key now (fun k t _ => eq_refl) Hclock) as Htracks.
  cbn [List.app] in Htracks. rewrite <- Htracks.
  pose proof (DependenciesFacts.serve_bounded limit window calls Hlimit
                RateLimiter_init) as Hbounded.
  specialize (Hbounded (fun k => ltac:(rewrite stored_init; cbn; lia)) key).
  pose proof (List.filter_length_le
                (fun req_time => Qgtb req_time (now - inject_Z window)%Q)
                (stored (serve RateLimiter_init limit window calls) key)) as Hfilter.
  unfold recent. lia.
Qed.

Lemma admitted_iff_quota_witness :
  let earlier := [("a", 0%Q); ("a", 10%Q); ("a", 20%Q); ("b", 30%Q)] in
  admitted RateLimiter_init 2 60 earlier "a" = [0%Q; 10%Q]
  /\ fst (is_allowed (serve RateLimiter_init 2 60 earlier) "a" 2 60 65%Q) = true.
Proof.
  intros earlier. split; [vm_compute; reflexivity |].
  apply (admitted_iff_quota 2 60 earlier "a" 65%Q 0%Q).
  - repeat split; unfold Qle; simpl; lia.
  - vm_compute. reflexivity.
Defined.

Lemma quota_never_exceeded_witness :
  let calls := [("a", 0%Q); ("a", 10%Q); ("a", 20%Q); ("b", 30%Q)] in
  (Z.of_nat (List.length (recent 60 30%Q (admitted RateLimiter_init 2 60 calls "a")))
   <= 2)%Z.
Proof.
  intros calls.
  apply (quota_never_exceeded 2 60 calls "a" 30%Q 0%Q); [lia |].
  repeat split; unfold Qle; simpl; lia.
Defined.

End RateLimitHistoryFacts.

(** ** The keyword extractor *)

Module ExtractorFacts.
Import Py Models FlightSearchAgent.

(** Splitting always gives a piece, and two when the separator occurs. *)
Lemma split_go_pieces (sep : string) (s : string) :
  forall skip cur, exists piece pieces, split_go sep skip cur s = piece :: pieces.
Proof.
  induction s as [| c rest IH]; intros skip cur; cbn [split_go]; [eauto |].
  destruct skip as [| k]; [| apply IH].
  destruct (String.prefix sep (String c rest)); [eauto | apply IH].
Qed.

Lemma split_go_separated (sep : string) (s : string) :
  sep <> "" ->
  str_in sep s = true ->
  forall cur, exists first second pieces,
    split_go sep O cur s = first :: second :: pieces.
Proof.
  intros Hsep. induction s as [| c rest IH]; cbn [str_in]; intros Hin cur.
  - destruct sep; [contradiction | discriminate].
  - cbn [split_go].
    destruct (String.prefix sep (String c rest)).
    + destruct (split_go_pieces sep rest (String.length sep - 1) [])
        as (second & pieces & ->).
      eauto.
    + cbn [orb] in Hin. apply IH. exact Hin.
Qed.

Section WithStr.
Context {STR : StrMethods}.

(** X25.  [FlightSearchAgent.extract_flight_params] can fail in one way
    only: with the IndexError of an empty list, on a message whose
    lower-cased text contains both "from" and "to".  When it returns, the
    passenger count, the trip type and the travel class are the defaults
    1, "round_trip" and "economy", the departure date is the first date
    pattern of the message and the return date the second, each [None] when
    there is no such pattern, and both locations are [None] unless the text
    contains both "from" and "to". *)
Theorem extract_flight_params_outcome (self : FlightSearchAgent.t) (message : string) :
  let keywords :=
    str_in "from" (str_lower message) && str_in "to" (str_lower message) in
  match fst (extract_flight_params self message) with
  | inl e =>
      e = IndexError "list index out of range" /\ keywords = true
  | inr params =>
      FlightSearchParams.passengers params = 1
      /\ FlightSearchParams.trip_type params = "round_trip"
      /\ FlightSearchParams.travel_class params = "economy"
      /\ FlightSearchParams.departure_date params
         = List.nth_error (re_findall_dates message) 0
      /\ FlightSearchParams.return_date params
         = List.nth_error (re_findall_dates message) 1
      /\ (keywords = false ->
          FlightSearchParams.departure_location params = None
          /\ FlightSearchParams.arrival_location params = None)
  end.
Proof.
  intros keywords.
  assert (Hdates : forall params,
            FlightSearchParams.passengers params = 1 ->
            FlightSearchParams.trip_type params = "round_trip" ->
            FlightSearchParams.travel_class params = "economy" ->
            FlightSearchParams.departure_date params = None ->
            FlightSearchParams.return_date params = None ->
            let extracted := extract_dates params message in
            FlightSearchParams.passengers extracted = 1
            /\ FlightSearchParams.trip_type extracted = "round_trip"
            /\ FlightSearchParams.travel_class extracted = "economy"
            /\ FlightSearchParams.departure_date extracted
               = List.nth_error (re_findall_dates message) 0
            /\ FlightSearchParams.return_date extracted
               = List.nth_error (re_findall_dates message) 1
            /\ FlightSearchParams.departure_location extracted
               = FlightSearchParams.departure_location params
            /\ FlightSearchParams.arrival_location extracted
               = FlightSearchParams.arrival_location params).
  { intros params Hp Ht Hc Hd Hr. unfold extract_dates.
    destruct (re_findall_dates message) as [| first [| second more]]; cbn;
      repeat split; assumption. }
  unfold extract_flight_params. cbn [fst]. unfold extract_locations.
  fold keywords. destruct keywords eqn:Hkeywords.
  - apply andb_true_iff in Hkeywords. destruct Hkeywords as [Hfrom Hto].
    destruct (split_go_separated "from" (str_lower message) ltac:(discriminate)
                Hfrom []) as (before & after_from & pieces & Hsplit).
    unfold str_split at 1. rewrite Hsplit.
    cbn [index List.nth_error exc_bind].
    destruct (str_split after_from "to") as [| before_to [| after_to more]];
      cbn [List.length Z.of_nat Z.leb Z.compare Pos.compare Pos.compare_cont
           index List.nth_error exc_bind];
      try (destruct (Hdates FlightSearchParams.default eq_refl eq_refl eq_refl
                       eq_refl eq_refl) as (H1 & H2 & H3 & H4 & H5 & _);
           repeat split; try assumption; discriminate).
    replace (2 <=? Z.of_nat (S (S (List.length more)))) with true
      by (symmetry; apply Z.leb_le; lia).
    destruct (str_split_ws after_to) as [| first_word words];
      cbn [index List.nth_error exc_bind]; [split; reflexivity |].
    match goal with
    | |- context [extract_dates ?params message] =>
        destruct (Hdates params eq_refl eq_refl eq_refl eq_refl eq_refl)
          as (H1 & H2 & H3 & H4 & H5 & _)
    end.
    repeat split; try assumption; discriminate.
  - cbn [exc_bind].
    destruct (Hdates FlightSearchParams.default eq_refl eq_refl eq_refl
                eq_refl eq_refl) as (H1 & H2 & H3 & H4 & H5 & H6 & H7).
    repeat split; assumption.
Qed.

End WithStr.

(** A message that ends after "to" makes the extractor fail; and the cut
    at "to" falls inside a word that contains it. *)
Example destination_left_out :
  fst (extract_flight_params
         {| model_name := "gpt-4o"; checkpointer := ∅ |} "Flights from Paris to")
  = inl (IndexError "list index out of range")
  /\ fst (extract_flight_params
            {| model_name := "gpt-4o"; checkpointer := ∅ |}
            "from Boston to Tokyo on 2026-03-01")
     = inr {| FlightSearchParams.departure_location := Some "bos";
              FlightSearchParams.arrival_location := Some "n";
              FlightSearchParams.departure_date := Some "2026-03-01";
              FlightSearchParams.return_date := None;
              FlightSearchParams.passengers := 1;
              FlightSearchParams.trip_type := "round_trip";
              FlightSearchParams.travel_class := "economy" |}.
Proof. vm_compute. split; reflexivity. Qed.

End ExtractorFacts.

(** ** The price range of a hotel search *)

Module PriceRangeFacts.
Import Py Models Tools.

(** [<] on floats is irreflexive and transitive, NaN included. *)
Lemma SFltb_irrefl (f : spec_float) : SFltb f f = false.
Proof.
  unfold SFltb, SFcompare.
  destruct f as [s | s | | s m e]; try destruct s; try reflexivity;
    rewrite Z.compare_refl;
    change (Pos.compare_cont Eq m m) with (Pos.compare m m);
    rewrite Pos.compare_refl; reflexivity.
Qed.

Lemma SFltb_trans (f1 f2 f3 : spec_float) :
  SFltb f1 f2 = true -> SFltb f2 f3 = true -> SFltb f1 f3 = true.
Proof.
  unfold SFltb, SFcompare.
  destruct f1 as [s1 | s1 | | s1 m1 e1], f2 as [s2 | s2 | | s2 m2 e2],
    f3 as [s3 | s3 | | s3 m3 e3];
    try destruct s1; try destruct s2; try destruct s3;
    try (intros; discriminate); try (intros; reflexivity);
    change (Pos.compare_cont Eq m1 m2) with (Pos.compare m1 m2);
    change (Pos.compare_cont Eq m2 m3) with (Pos.compare m2 m3);
    change (Pos.compare_cont Eq m1 m3) with (Pos.compare m1 m3);
    destruct (Z.compare_spec e1 e2), (Z.compare_spec e2 e3), (Z.compare_spec e1 e3),
      (Pos.compare_spec m1 m2), (Pos.compare_spec m2 m3), (Pos.compare_spec m1 m3);
    cbn [CompOpp]; intros H12 H23;
    try discriminate; try reflexivity; exfalso; lia.
Qed.

Lemma ltb_irrefl (x : float) : PrimFloat.ltb x x = false.
Proof. rewrite ltb_spec. apply SFltb_irrefl. Qed.

Lemma ltb_trans (x y z : float) :
  PrimFloat.ltb x y = true -> PrimFloat.ltb y z = true -> PrimFloat.ltb x z = true.
Proof. rewrite !ltb_spec. apply SFltb_trans. Qed.

(** The running minimum is one of the values seen and none of them is
    below it; likewise for the running maximum. *)
Lemma min_from_In (l : list float) :
  forall best, In (min_from best l) (best :: l).
Proof.
  induction l as [| x rest IH]; intros best; cbn [min_from]; [left; reflexivity |].
  destruct (IH (if PrimFloat.ltb x best then x else best)) as [Hbest | Hrest].
  - rewrite <- Hbest. destruct (PrimFloat.ltb x best); cbn; auto.
  - right. right. exact Hrest.
Qed.

Lemma max_from_In (l : list float) :
  forall best, In (max_from best l) (best :: l).
Proof.
  induction l as [| x rest IH]; intros best; cbn [max_from]; [left; reflexivity |].
  destruct (IH (if PrimFloat.ltb best x then x else best)) as [Hbest | Hrest].
  - rewrite <- Hbest. destruct (PrimFloat.ltb best x); cbn; auto.
  - right. right. exact Hrest.
Qed.

Lemma min_from_least (l : list float) :
  forall best seen,
    (forall y, In y seen -> PrimFloat.ltb y best = false) ->
    forall y, In y (seen ++ l)%list -> PrimFloat.ltb y (min_from best l) = false.
Proof.
  induction l as [| x rest IH]; intros best seen Hseen y Hy; cbn [min_from].
  - rewrite List.app_nil_r in Hy. auto.
  - apply (IH _ (seen ++ [x])%list); [| rewrite <- List.app_assoc; exact Hy].
    intros z Hz. apply List.in_app_or in Hz.
    destruct (PrimFloat.ltb x best) eqn:Hx.
    + destruct Hz as [Hz | [<- | []]]; [| apply ltb_irrefl].
      destruct (PrimFloat.ltb z x) eqn:Hzx; [| reflexivity].
      rewrite <- (Hseen z Hz). symmetry. exact (ltb_trans _ _ _ Hzx Hx).
    + destruct Hz as [Hz | [<- | []]]; auto.
Qed.

Lemma max_from_greatest (l : list float) :
  forall best seen,
    (forall y, In y seen -> PrimFloat.ltb best y = false) ->
    forall y, In y (seen ++ l)%list -> PrimFloat.ltb (max_from best l) y = false.
Proof.
  induction l as [| x rest IH]; intros best seen Hseen y Hy; cbn [max_from].
  - rewrite List.app_nil_r in Hy. auto.
  - apply (IH _ (seen ++ [x])%list); [| rewrite <- List.app_assoc; exact Hy].
    intros z Hz. apply List.in_app_or in Hz.
    destruct (PrimFloat.ltb best x) eqn:Hx.
    + destruct Hz as [Hz | [<- | []]]; [| apply ltb_irrefl].
      destruct (PrimFloat.ltb x z) eqn:Hxz; [| reflexivity].
      rewrite <- (Hseen z Hz). symmetry. exact (ltb_trans _ _ _ Hx Hxz).
    + destruct Hz as [Hz | [<- | []]]; auto.
Qed.

(** The prices collected are the listed rates of the properties. *)
Lemma collect_prices_In (props : list HotelProperty) (x : float) :
  In x (collect_prices props)
  <-> exists prop, In prop props /\ listed_rate prop = Some x.
Proof.
  induction props as [| prop rest IH]; cbn [collect_prices].
  - split; [intros [] | intros (prop & [] & _)].
  - destruct (listed_rate prop) as [rate |] eqn:Hrate.
    + cbn [In]. rewrite IH. split.
      * intros [<- | (p & Hp & Hx)]; [exists prop; auto | exists p; auto].
      * intros (p & [<- | Hp] & Hx); [left; congruence | right; eauto].
    + rewrite IH. split.
      * intros (p & Hp & Hx). exists p. cbn [In]. auto.
      * intros (p & [<- | Hp] & Hx); [congruence | eauto].
Qed.

(** X26.  The price range of a hotel search is absent exactly when no
    property of the answer lists a rate (an extracted lowest nightly rate
    that is present and not zero).  Otherwise it is "$lo-$hi", each end
    rendered without decimals, where [lo] and [hi] are listed rates of
    properties of the answer, no listed rate is below [lo] and none is
    above [hi]; the block never raises. *)
Theorem price_range_ends {LIB : Library} (props : list HotelProperty) :
  match aggregate_price_range props with
  | inl _ => False
  | inr None => forall prop, In prop props -> listed_rate prop = None
  | inr (Some text) =>
      exists lo hi,
        text = "$" ++ format_0f lo ++ "-$" ++ format_0f hi
        /\ (exists prop, In prop props /\ listed_rate prop = Some lo)
        /\ (exists prop, In prop props /\ listed_rate prop = Some hi)
        /\ forall prop x,
             In prop props -> listed_rate prop = Some x ->
             PrimFloat.ltb x lo = false /\ PrimFloat.ltb hi x = false
  end.
Proof.
  unfold aggregate_price_range.
  pose proof (collect_prices_In props) as Hprices.
  destruct (collect_prices props) as [| first rest].
  - intros prop Hprop. destruct (listed_rate prop) as [x |] eqn:Hrate; [| reflexivity].
    exfalso. apply (Hprices x). eauto.
  - cbn [py_min py_max exc_bind].
    exists (min_from first rest), (max_from first rest).
    split; [reflexivity |].
    split; [apply Hprices, min_from_In |].
    split; [apply Hprices, max_from_In |].
    intros prop x Hprop Hrate.
    assert (Hx : In x ([first] ++ rest)%list) by (apply Hprices; eauto).
    split.
    + apply (min_from_least rest first [first]); [| exact Hx].
      intros y [<- | []]. apply ltb_irrefl.
    + apply (max_from_greatest rest first [first]); [| exact Hx].
      intros y [<- | []]. apply ltb_irrefl.
Qed.

End PriceRangeFacts.
